(** * FitStore: FIFO cost layers, average cost, logistics allocation

    A shallow embedding of the inventory-valuation core of the Django
    application under [backend/supplements] ([models.py], [signals.py],
    [views.py], [serializers.py]).

    Numbers.  A [Decimal] is modelled as a rational ([Q]); statements about
    amounts use the rational equality [==].  Sums and products are taken
    exact: for stored values of realistic size the results stay within the
    28 significant digits of the decimal context.  A
    quotient is rounded to 28 significant digits ([decimal_div]), except in
    [get_fifo_cost], whose quotient is kept exact.  A cost that is written
    to a row is rounded to the two decimals of its column ([quantize]), as
    the database layer does for a [DecimalField(decimal_places=2)], both
    with the rounding of the default context, ties to even; an instance
    held by Python code keeps the unrounded value.  Quantities and prices
    are stored as given: they reach the code through fields that accept at
    most two decimals.  The exception raised when a value does not fit its
    [max_digits] is not modelled.

    Database.  Tables are fields of the record [DB].  Products are a finite
    map from primary key to row; cost layers, purchase lines, sale lines and
    ledger entries are lists in insertion order.  A model instance held by
    Python code is a record value: it is a snapshot of the row taken when
    the instance was loaded, and [save] writes the snapshot back. *)

From Stdlib Require Import QArith Qminmax Qround Qabs Lqa Lia List Bool ZArith.
From Stdlib Require Import Sorting.Sorted Sorting.Permutation.
From stdpp Require Import base option list gmap fin_maps.
Import ListNotations.

Open Scope Q_scope.

(** ** Decimal comparisons *)

Definition Qltb (x y : Q) : bool := negb (Qle_bool y x).
Definition Qgtb (x y : Q) : bool := Qltb y x.
Definition Qleb (x y : Q) : bool := Qle_bool x y.
Definition Qeqb (x y : Q) : bool := Qeq_bool x y.

(** Python's [min] on two decimals: [min(a, b)] is [b] when [b < a], else [a]. *)
Definition py_min (a b : Q) : Q := if Qltb b a then b else a.

(** ** Decimal rounding *)

(** The nearest integer, ties to the even one ([ROUND_HALF_EVEN]). *)
Definition round_half_even (x : Q) : Z :=
  let n := Qfloor x in
  let twice_fraction := (x - inject_Z n) * 2 in
  if Qltb twice_fraction 1 then n
  else if Qltb 1 twice_fraction then (n + 1)%Z
  else if Z.even n then n else (n + 1)%Z.

(** [value.quantize(Decimal(1).scaleb(-places))]: what is stored for a
    [DecimalField] with [decimal_places = places], and what a serializer
    field with that many places renders. *)
Definition quantize (places : Z) (x : Q) : Q :=
  inject_Z (round_half_even (Qred x * 10 ^ places)) / 10 ^ places.

(** The number of decimal digits of a positive integer. *)
Fixpoint digits_fuel (fuel : nat) (n : Z) : Z :=
  match fuel with
  | O => 1
  | S fuel => if (n <? 10)%Z then 1 else (1 + digits_fuel fuel (n / 10))%Z
  end.

Definition digits (n : Z) : Z := digits_fuel (Z.to_nat (Z.log2 n)) n.

(** The exponent of the leading digit of a non-zero number:
    [floor (log10 |x|)]. *)
Definition adjusted (x : Q) : Z :=
  let e := (digits (Z.abs (Qnum x)) - digits (Zpos (Qden x)))%Z in
  if Qle_bool (10 ^ e) (Qabs x) then e else (e - 1)%Z.

(** Rounding to [prec] significant digits, as the decimal context does
    with the result of an operation. *)
Definition decimal_round (prec : Z) (x : Q) : Q :=
  let x := Qred x in
  if Qeq_bool x 0 then 0
  else
    let scale := 10 ^ (prec - 1 - adjusted x) in
    inject_Z (round_half_even (x * scale)) / scale.

(** [x / y] on two decimals, in the default context ([prec = 28]); the
    callers exclude [y = 0]. *)
Definition decimal_div (x y : Q) : Q := decimal_round 28 (x / y).

(** ** Rows of the tables ([models.py]) *)

Module Product.
Record t := mk {
  id : Z;
  current_stock : Q;
  average_cost : Q;          (* USD *)
  last_purchase_cost : Q;    (* USD *)
  last_purchase_date : option Z
}.
Definition set_current_stock (v : Q) (p : t) : t :=
  mk (id p) v (average_cost p) (last_purchase_cost p) (last_purchase_date p).
Definition set_average_cost (v : Q) (p : t) : t :=
  mk (id p) (current_stock p) v (last_purchase_cost p) (last_purchase_date p).
Definition set_last_purchase_cost (v : Q) (p : t) : t :=
  mk (id p) (current_stock p) (average_cost p) v (last_purchase_date p).
Definition set_last_purchase_date (v : option Z) (p : t) : t :=
  mk (id p) (current_stock p) (average_cost p) (last_purchase_cost p) v.
End Product.

Inductive purchase_status := Pending | Received | Cancelled.

Definition is_received (s : purchase_status) : bool :=
  match s with Received => true | _ => false end.

Module Purchase.
Record t := mk {
  id : Z;
  purchase_date : Z;
  status : purchase_status;
  estimated_shipping : Q;
  estimated_taxes : Q;
  real_shipping : option Q;
  real_taxes : option Q
}.
Definition set_status (v : purchase_status) (p : t) : t :=
  mk (id p) (purchase_date p) v (estimated_shipping p) (estimated_taxes p)
     (real_shipping p) (real_taxes p).
End Purchase.

Module PurchaseItem.
Record t := mk {
  id : Z;
  purchase : Z;      (* ForeignKey(Purchase, CASCADE) *)
  product : Z;       (* ForeignKey(Product, PROTECT) *)
  quantity : Q;
  unit_cost : Q;     (* USD *)
  discount : Q
}.
(** [total_price]: the discount applies to the whole line. *)
Definition total_price (self : t) : Q :=
  (quantity self * unit_cost self) - discount self.
End PurchaseItem.

Module CostLayer.
Record t := mk {
  id : Z;
  product : Z;                       (* ForeignKey(Product, CASCADE) *)
  purchase_item : option Z;          (* ForeignKey(PurchaseItem, SET_NULL, null=True) *)
  unit_cost : Q;                     (* USD, base + allocated logistics *)
  unit_cost_gtq : Q;
  base_unit_cost : Q;
  allocated_logistics_per_unit : Q;
  logistics_allocated : bool;
  quantity_remaining : Q;
  original_quantity : Q;
  created_at : Z
}.
Definition set_quantity_remaining (v : Q) (l : t) : t :=
  mk (id l) (product l) (purchase_item l) (unit_cost l) (unit_cost_gtq l)
     (base_unit_cost l) (allocated_logistics_per_unit l) (logistics_allocated l)
     v (original_quantity l) (created_at l).
Definition set_purchase_item (v : option Z) (l : t) : t :=
  mk (id l) (product l) v (unit_cost l) (unit_cost_gtq l)
     (base_unit_cost l) (allocated_logistics_per_unit l) (logistics_allocated l)
     (quantity_remaining l) (original_quantity l) (created_at l).
End CostLayer.

Module SaleItem.
Record t := mk {
  pk : option Z;     (* None until the row is inserted *)
  sale : Z;          (* ForeignKey(Sale, CASCADE) *)
  product : Z;       (* ForeignKey(Product, PROTECT) *)
  quantity : Q;
  unit_price : Q;    (* GTQ *)
  unit_cost : Q      (* GTQ, default 0 *)
}.
Definition set_unit_cost (v : Q) (i : t) : t :=
  mk (pk i) (sale i) (product i) (quantity i) (unit_price i) v.
Definition set_pk (v : option Z) (i : t) : t :=
  mk v (sale i) (product i) (quantity i) (unit_price i) (unit_cost i).
End SaleItem.

Inductive transaction_type := TPurchase | TSale | TAdjustment.

Definition transaction_type_eqb (a b : transaction_type) : bool :=
  match a, b with
  | TPurchase, TPurchase | TSale, TSale | TAdjustment, TAdjustment => true
  | _, _ => false
  end.

Module InventoryTransaction.
Record t := mk {
  product : Z;
  type : transaction_type;
  quantity_change : Q;
  quantity_after : Q;
  reference_id : option Z
}.
End InventoryTransaction.

(** ** The database *)

Record DB := mkDB {
  products : gmap Z Product.t;
  purchases : gmap Z Purchase.t;
  purchase_items : list PurchaseItem.t;
  cost_layers : list CostLayer.t;
  sales : gset Z;
  sale_items : list SaleItem.t;
  transactions : list InventoryTransaction.t;   (* the ledger, oldest first *)
  usd_to_gtq_rate : Q;                          (* SystemSettings singleton *)
  next_id : Z;                                  (* next auto-increment key *)
  clock : Z                                     (* timezone.now() *)
}.

Definition set_products (v : gmap Z Product.t) (db : DB) : DB :=
  mkDB v (purchases db) (purchase_items db) (cost_layers db) (sales db)
       (sale_items db) (transactions db) (usd_to_gtq_rate db) (next_id db) (clock db).
Definition set_purchases (v : gmap Z Purchase.t) (db : DB) : DB :=
  mkDB (products db) v (purchase_items db) (cost_layers db) (sales db)
       (sale_items db) (transactions db) (usd_to_gtq_rate db) (next_id db) (clock db).
Definition set_purchase_items (v : list PurchaseItem.t) (db : DB) : DB :=
  mkDB (products db) (purchases db) v (cost_layers db) (sales db)
       (sale_items db) (transactions db) (usd_to_gtq_rate db) (next_id db) (clock db).
Definition set_cost_layers (v : list CostLayer.t) (db : DB) : DB :=
  mkDB (products db) (purchases db) (purchase_items db) v (sales db)
       (sale_items db) (transactions db) (usd_to_gtq_rate db) (next_id db) (clock db).
Definition set_sale_items (v : list SaleItem.t) (db : DB) : DB :=
  mkDB (products db) (purchases db) (purchase_items db) (cost_layers db) (sales db)
       v (transactions db) (usd_to_gtq_rate db) (next_id db) (clock db).
Definition set_transactions (v : list InventoryTransaction.t) (db : DB) : DB :=
  mkDB (products db) (purchases db) (purchase_items db) (cost_layers db) (sales db)
       (sale_items db) v (usd_to_gtq_rate db) (next_id db) (clock db).

(** ** Exceptions and the error monad *)

Inductive exn :=
| InsufficientStock (available requested : Q)   (* ValueError of the post_save signal *)
| IntegrityError                                (* CHECK product_stock_non_negative *)
| DoesNotExist
| DivisionByZero                                (* decimal.DivisionByZero / InvalidOperation *)
| AttributeError.

Inductive result (A : Type) :=
| Ok (a : A)
| Raise (e : exn).
Arguments Ok {A} a.
Arguments Raise {A} e.

#[global] Instance result_ret : MRet result := fun A a => Ok a.
#[global] Instance result_bind : MBind result := fun A B f m =>
  match m with Ok a => f a | Raise e => Raise e end.

(** [with transaction.atomic():] the effects of a body that raises are
    rolled back. *)
Definition atomic {A} (body : DB -> result (DB * A)) (db : DB) : DB * result A :=
  match body db with
  | Ok (db', a) => (db', Ok a)
  | Raise e => (db, Raise e)
  end.

(** [Model.objects.get(id=...)] and the lazy load of a foreign key. *)
Definition get_product (pid : Z) (db : DB) : result Product.t :=
  match products db !! pid with
  | Some p => Ok p
  | None => Raise DoesNotExist
  end.

(** ** Saving rows *)

(** [Product.save()]: writes every field of the instance to its row.  The
    table carries [CheckConstraint(current_stock >= 0)]. *)
Definition Product_save (self : Product.t) (db : DB) : result DB :=
  if Qltb (Product.current_stock self) 0 then Raise IntegrityError
  else Ok (set_products (<[Product.id self := self]> (products db)) db).

(** [self.save(update_fields=['average_cost'])]: only that column of the
    row is written, with two decimals (the row exists: no operation
    deletes a product). *)
Definition Product_save_average_cost (self : Product.t) (db : DB) : DB :=
  set_products
    (alter (Product.set_average_cost (quantize 2 (Product.average_cost self)))
           (Product.id self) (products db)) db.

(** [layer.save()] on a loaded layer: [UPDATE ... WHERE id = layer.id]. *)
Definition CostLayer_save (layer : CostLayer.t) (db : DB) : DB :=
  set_cost_layers
    (map (fun row => if Z.eqb (CostLayer.id row) (CostLayer.id layer)
                     then layer else row)
         (cost_layers db)) db.

(** [CostLayer.objects.create(...)]: the key is the next auto-increment
    value and [created_at] (auto_now_add) is the current time; time moves
    on between two creations.  The four cost columns are stored with two
    decimals. *)
Definition CostLayer_create
    (product : Z) (purchase_item : option Z)
    (unit_cost unit_cost_gtq base_unit_cost allocated_logistics_per_unit : Q)
    (logistics_allocated : bool) (quantity_remaining original_quantity : Q)
    (db : DB) : DB :=
  let row := CostLayer.mk (next_id db) product purchase_item
               (quantize 2 unit_cost) (quantize 2 unit_cost_gtq)
               (quantize 2 base_unit_cost) (quantize 2 allocated_logistics_per_unit)
               logistics_allocated quantity_remaining original_quantity
               (clock db) in
  mkDB (products db) (purchases db) (purchase_items db)
       (cost_layers db ++ [row]) (sales db) (sale_items db) (transactions db)
       (usd_to_gtq_rate db) (next_id db + 1)%Z (clock db + 1)%Z.

(** [InventoryTransaction.objects.create(...)]. *)
Definition InventoryTransaction_create
    (product : Z) (type : transaction_type)
    (quantity_change quantity_after : Q) (reference_id : option Z)
    (db : DB) : DB :=
  set_transactions
    (transactions db ++
     [InventoryTransaction.mk product type quantity_change quantity_after
        reference_id]) db.

(** ** Querysets over the cost layers *)

Fixpoint sum_Q (l : list Q) : Q :=
  match l with
  | [] => 0
  | x :: rest => x + sum_Q rest
  end.

(** [order_by('created_at')]: an insertion sort on the creation time.  The
    order among rows with equal times is the database's choice in the
    source; here it is the one this sort gives. *)
Fixpoint insert_by_created_at (x : CostLayer.t) (l : list CostLayer.t)
  : list CostLayer.t :=
  match l with
  | [] => [x]
  | y :: rest =>
      if Z.ltb (CostLayer.created_at x) (CostLayer.created_at y)
      then x :: y :: rest
      else y :: insert_by_created_at x rest
  end.

Definition order_by_created_at (l : list CostLayer.t) : list CostLayer.t :=
  fold_right insert_by_created_at [] l.

(** [product.cost_layers]: the reverse relation of [CostLayer.product]. *)
Definition layers_of_product (pid : Z) (db : DB) : list CostLayer.t :=
  List.filter (fun l => Z.eqb (CostLayer.product l) pid) (cost_layers db).

(** [CostLayer.objects.filter(product=product, quantity_remaining__gt=0)
      .order_by('created_at')]. *)
Definition fifo_layers (pid : Z) (db : DB) : list CostLayer.t :=
  order_by_created_at
    (List.filter (fun l => Z.eqb (CostLayer.product l) pid
                           && Qgtb (CostLayer.quantity_remaining l) 0)
                 (cost_layers db)).

(** ** [Product] methods *)

(** [average_cost_gtq]: converted at the current rate. *)
Definition average_cost_gtq (self : Product.t) (db : DB) : Q :=
  Product.average_cost self * usd_to_gtq_rate db.

(** The loop shared by [get_fifo_cost] and [calculate_fifo_cost]: returns
    the quantity still needed and the accumulated GTQ cost. *)
Fixpoint fifo_cost_loop (layers : list CostLayer.t) (remaining_qty total_cost_gtq : Q)
  : Q * Q :=
  match layers with
  | [] => (remaining_qty, total_cost_gtq)
  | layer :: rest =>
      if Qleb remaining_qty 0 then (remaining_qty, total_cost_gtq)   (* break *)
      else
        let qty_from_layer := py_min remaining_qty (CostLayer.quantity_remaining layer) in
        fifo_cost_loop rest (remaining_qty - qty_from_layer)
          (total_cost_gtq + qty_from_layer * CostLayer.unit_cost_gtq layer)
  end.

(** [Product.get_fifo_cost(quantity)]: (total_cost_gtq, avg_unit_cost_gtq).
    The quotient is exact here; the code returns it with 28 significant
    digits. *)
Definition get_fifo_cost (self : Product.t) (quantity : Q) (db : DB) : Q * Q :=
  let layers := fifo_layers (Product.id self) db in
  let '(remaining_qty, total_cost_gtq) := fifo_cost_loop layers quantity 0 in
  let total_cost_gtq :=
    if Qgtb remaining_qty 0
    then total_cost_gtq + remaining_qty * Product.average_cost self * usd_to_gtq_rate db
    else total_cost_gtq in
  let avg_unit_cost_gtq :=
    if Qgtb quantity 0 then total_cost_gtq / quantity else 0 in
  (total_cost_gtq, avg_unit_cost_gtq).

(** [Product.update_average_cost()]: recomputed from all layers of the
    product, over the USD [unit_cost]; returns the database and the updated
    instance.  The instance holds the quotient, the row its two-decimal
    rounding. *)
Definition update_average_cost (self : Product.t) (db : DB) : DB * Product.t :=
  let layers := layers_of_product (Product.id self) db in
  let total_value :=
    sum_Q (map (fun l => CostLayer.quantity_remaining l * CostLayer.unit_cost l) layers) in
  let total_qty := sum_Q (map CostLayer.quantity_remaining layers) in
  let self :=
    if Qgtb total_qty 0
    then Product.set_average_cost (decimal_div total_value total_qty) self
    else Product.set_average_cost 0 self in
  (Product_save_average_cost self db, self).

(** ** Sale lines ([signals.py]) *)

Definition is_some {A} (o : option A) : bool :=
  match o with Some _ => true | None => false end.

(** [calculate_fifo_cost] (pre_save of [SaleItem]): sets [unit_cost] of a
    new line whose cost was not pre-set. *)
Definition calculate_fifo_cost (instance : SaleItem.t) (db : DB) : result SaleItem.t :=
  if is_some (SaleItem.pk instance) then Ok instance
  else if Qgtb (SaleItem.unit_cost instance) 0 then Ok instance
  else
    product ← get_product (SaleItem.product instance) db;
    let quantity_needed := SaleItem.quantity instance in
    let cost_layers := fifo_layers (Product.id product) db in
    match cost_layers with
    | [] => Ok (SaleItem.set_unit_cost (average_cost_gtq product db) instance)
    | _ :: _ =>
        let '(remaining_quantity, total_cost) :=
          fifo_cost_loop cost_layers quantity_needed 0 in
        let total_cost :=
          if Qgtb remaining_quantity 0
          then total_cost + remaining_quantity * average_cost_gtq product db
          else total_cost in
        if Qeqb quantity_needed 0 then Raise DivisionByZero
        else Ok (SaleItem.set_unit_cost (decimal_div total_cost quantity_needed) instance)
    end.

(** The consumption loop of [update_inventory_and_cost_layers]: each layer
    of the evaluated queryset is decremented and saved. *)
Fixpoint consume_layers (layers : list CostLayer.t) (remaining_quantity : Q) (db : DB)
  : DB :=
  match layers with
  | [] => db
  | layer :: rest =>
      if Qleb remaining_quantity 0 then db   (* break *)
      else
        let quantity_from_layer :=
          py_min remaining_quantity (CostLayer.quantity_remaining layer) in
        let layer :=
          CostLayer.set_quantity_remaining
            (CostLayer.quantity_remaining layer - quantity_from_layer) layer in
        consume_layers rest (remaining_quantity - quantity_from_layer)
          (CostLayer_save layer db)
  end.

(** [update_inventory_and_cost_layers] (post_save of [SaleItem]). *)
Definition update_inventory_and_cost_layers
    (instance : SaleItem.t) (created : bool) (db : DB) : DB * result unit :=
  if negb created then (db, Ok tt)
  else
    let quantity_sold := SaleItem.quantity instance in
    atomic (fun db =>
      product ← get_product (SaleItem.product instance) db;
      if Qltb (Product.current_stock product) quantity_sold
      then Raise (InsufficientStock (Product.current_stock product) quantity_sold)
      else
        let cost_layers := fifo_layers (Product.id product) db in
        let db := consume_layers cost_layers quantity_sold db in
        let product :=
          Product.set_current_stock (Product.current_stock product - quantity_sold)
            product in
        db ← Product_save product db;
        Ok (InventoryTransaction_create (Product.id product) TSale
              (- quantity_sold) (Product.current_stock product)
              (Some (SaleItem.sale instance)) db, tt)) db.

(** The row of a sale line: [unit_cost] is stored with two decimals.  It
    is also what [SaleItemSerializer] renders of an instance. *)
Definition SaleItem_row (instance : SaleItem.t) : SaleItem.t :=
  SaleItem.set_unit_cost (quantize 2 (SaleItem.unit_cost instance)) instance.

Definition sale_item_exists (k : Z) (db : DB) : bool :=
  existsb (fun row => bool_decide (SaleItem.pk row = Some k)) (sale_items db).

(** Whether [Model.save()] inserts a row: an instance without a key is
    inserted under the next key; an instance with a key updates its row,
    and is inserted under that key when no row has it.  This is the
    [created] flag that post_save receives. *)
Definition SaleItem_inserts (instance : SaleItem.t) (db : DB) : bool :=
  match SaleItem.pk instance with
  | None => true
  | Some k => negb (sale_item_exists k db)
  end.

(** The write of [Model.save()]; the instance returned is the one in
    memory, with its key. *)
Definition SaleItem_write (instance : SaleItem.t) (db : DB) : DB * SaleItem.t :=
  match SaleItem.pk instance with
  | None =>
      let instance := SaleItem.set_pk (Some (next_id db)) instance in
      (mkDB (products db) (purchases db) (purchase_items db) (cost_layers db)
            (sales db) (sale_items db ++ [SaleItem_row instance]) (transactions db)
            (usd_to_gtq_rate db) (next_id db + 1)%Z (clock db), instance)
  | Some k =>
      if sale_item_exists k db
      then (set_sale_items
              (map (fun row => match SaleItem.pk row with
                               | Some k' => if Z.eqb k' k then SaleItem_row instance
                                            else row
                               | None => row
                               end) (sale_items db)) db, instance)
      else (set_sale_items (sale_items db ++ [SaleItem_row instance]) db, instance)
  end.

(** [SaleItem.save()]: pre_save signal, INSERT or UPDATE of the row,
    post_save signal.  Outside of an enclosing transaction the row stays
    written when the post_save handler raises. *)
Definition SaleItem_save (instance : SaleItem.t) (db : DB) : DB * result SaleItem.t :=
  match calculate_fifo_cost instance db with
  | Raise e => (db, Raise e)
  | Ok instance =>
      let created := SaleItem_inserts instance db in
      let '(db, instance) := SaleItem_write instance db in
      match update_inventory_and_cost_layers instance created db with
      | (db, Ok _) => (db, Ok instance)
      | (db, Raise e) => (db, Raise e)
      end
  end.

(** The steps of [restore_inventory_on_delete] (post_delete of [SaleItem]). *)

(** [InventoryTransaction.objects.filter(product=..., transaction_type='sale',
    reference_id=sale_id, quantity_change=-quantity).delete()], run only
    for a truthy [sale_id]. *)
Definition delete_sale_transactions
    (product : Z) (sale_id : option Z) (quantity_to_restore : Q) (db : DB) : DB :=
  match sale_id with
  | Some sid =>
      if Z.eqb sid 0 then db
      else set_transactions
             (List.filter
                (fun t => negb
                   (Z.eqb (InventoryTransaction.product t) product
                    && transaction_type_eqb (InventoryTransaction.type t) TSale
                    && bool_decide (InventoryTransaction.reference_id t = Some sid)
                    && Qeqb (InventoryTransaction.quantity_change t)
                            (- quantity_to_restore)))
                (transactions db)) db
  | None => db
  end.

(** The cost used for the restoration: the line's own cost, or the
    product's average cost in GTQ when the line has none. *)
Definition restoration_unit_cost (instance : SaleItem.t) (product : Product.t) (db : DB)
  : Q :=
  if Qleb (SaleItem.unit_cost instance) 0
  then average_cost_gtq product db
  else SaleItem.unit_cost instance.

(** A layer is created only for a positive cost. *)
Definition restore_layer
    (product : Z) (unit_cost_gtq quantity_to_restore : Q) (db : DB) : result DB :=
  if Qgtb unit_cost_gtq 0 then
    if Qeqb (usd_to_gtq_rate db) 0 then Raise DivisionByZero
    else
      let unit_cost_usd := decimal_div unit_cost_gtq (usd_to_gtq_rate db) in
      Ok (CostLayer_create product None unit_cost_usd unit_cost_gtq unit_cost_usd
            0 true quantity_to_restore quantity_to_restore db)
  else Ok db.

Definition restore_inventory_on_delete (instance : SaleItem.t) (db : DB) : result DB :=
  product ← get_product (SaleItem.product instance) db;
  let quantity_to_restore := SaleItem.quantity instance in
  let sale_id :=
    if bool_decide (SaleItem.sale instance ∈ sales db)
    then Some (SaleItem.sale instance) else None in
  let product :=
    Product.set_current_stock (Product.current_stock product + quantity_to_restore)
      product in
  db ← Product_save product db;
  let db := delete_sale_transactions (Product.id product) sale_id quantity_to_restore db in
  let unit_cost_gtq := restoration_unit_cost instance product db in
  db ← restore_layer (Product.id product) unit_cost_gtq quantity_to_restore db;
  let '(db, product) := update_average_cost product db in
  Ok (InventoryTransaction_create (Product.id product) TAdjustment
        quantity_to_restore (Product.current_stock product) sale_id db).

(** ** HTTP responses of the views *)

Inductive error_body :=
| ErrInsufficientStock (available requested : Q)   (* {'error': 'Insufficient stock ...'} *)
| ErrQuantityInsufficientStock (available requested : Q)   (* ValidationError on 'quantity' *)
| ErrInvalidPk
| ErrAlreadyReceived.

Inductive response :=
| HTTP_200
| HTTP_201 (created : SaleItem.t)
| HTTP_204
| HTTP_400 (body : error_body)
| HTTP_404
| HTTP_500 (e : exn).

(** [SaleItemSerializer.validate]: the stock check is skipped for a falsy
    (zero) quantity. *)
Definition SaleItemSerializer_validate (product : Product.t) (quantity : Q)
  : option error_body :=
  if negb (Qeqb quantity 0) && Qgtb quantity (Product.current_stock product)
  then Some (ErrQuantityInsufficientStock (Product.current_stock product) quantity)
  else None.

(** [SaleItemViewSet.create]: the whole request runs in one transaction
    with the product row locked; [unit_cost] is read-only for the API, so
    a created line starts from the default 0.  The view compares
    [float(quantity) > float(product.current_stock)]; the comparison is
    taken on the exact values.  The response carries the line as the
    serializer renders it. *)
Definition SaleItemViewSet_create
    (sale product : Z) (quantity unit_price : Q) (db : DB) : DB * response :=
  match products db !! product with
  | None => (db, HTTP_500 DoesNotExist)
  | Some p =>
      if Qgtb quantity (Product.current_stock p)
      then (db, HTTP_400 (ErrInsufficientStock (Product.current_stock p) quantity))
      else if negb (bool_decide (sale ∈ sales db)) then (db, HTTP_400 ErrInvalidPk)
      else
        match SaleItemSerializer_validate p quantity with
        | Some err => (db, HTTP_400 err)
        | None =>
            match SaleItem_save (SaleItem.mk None sale product quantity unit_price 0) db with
            | (db', Ok instance) => (db', HTTP_201 (SaleItem_row instance))
            | (_, Raise e) => (db, HTTP_500 e)
            end
        end
  end.

(** [DELETE /sale-items/<pk>/]: [Model.delete()] removes the row and sends
    post_delete inside one transaction. *)
Definition SaleItemViewSet_destroy (pk : Z) (db : DB) : DB * response :=
  match List.find (fun i => bool_decide (SaleItem.pk i = Some pk)) (sale_items db) with
  | None => (db, HTTP_404)
  | Some instance =>
      match atomic (fun db =>
              let db := set_sale_items
                          (List.filter
                             (fun i => negb (bool_decide (SaleItem.pk i = Some pk)))
                             (sale_items db)) db in
              db ← restore_inventory_on_delete instance db;
              Ok (db, tt)) db with
      | (db, Ok _) => (db, HTTP_204)
      | (db, Raise e) => (db, HTTP_500 e)
      end
  end.

(** ** Purchases ([models.py], [views.py], [signals.py]) *)

(** [purchase.items.all()]: the lines of the purchase.  (The default
    ordering of the lines is by product name, which is not modelled; the
    lines are taken in insertion order.) *)
Definition items_all (purchase_id : Z) (db : DB) : list PurchaseItem.t :=
  List.filter (fun i => Z.eqb (PurchaseItem.purchase i) purchase_id) (purchase_items db).

(** [Purchase.product_cost]: [sum(item.total_price for item in items)]. *)
Definition product_cost (self : Purchase.t) (db : DB) : Q :=
  sum_Q (map PurchaseItem.total_price (items_all (Purchase.id self) db)).

(** The loop of [allocate_logistics_costs].  [CostLayer.purchase_item] is
    a [ForeignKey] with [related_name='cost_layer'], so [item.cost_layer] is
    the manager of the layers that reference the line: it is never a layer
    and reading it never raises [DoesNotExist].  The next statement reads
    [cost_layer.logistics_allocated], which the manager does not have: it
    raises [AttributeError], which [except CostLayer.DoesNotExist] does not
    catch.  The loop ends there, in its first iteration, before anything is
    assigned; the rest of its body is never run. *)
Definition allocate_items (items : list PurchaseItem.t) (db : DB) : DB * result unit :=
  match items with
  | [] => (db, Ok tt)
  | _ :: _ => (db, Raise AttributeError)
  end.

(** [Purchase.allocate_logistics_costs()]. *)
Definition allocate_logistics_costs (self : Purchase.t) (db : DB) : DB * result bool :=
  match Purchase.real_shipping self, Purchase.real_taxes self with
  | Some real_shipping, Some real_taxes =>
      let total_logistics := real_shipping + real_taxes in
      if Qeqb total_logistics 0 then (db, Ok false)
      else
        let total_product_cost := product_cost self db in
        if Qeqb total_product_cost 0 then (db, Ok false)
        else
          match allocate_items (items_all (Purchase.id self) db) db with
          | (db, Ok _) => (db, Ok true)
          | (db, Raise e) => (db, Raise e)
          end
  | _, _ => (db, Ok false)
  end.

(** [Purchase.save()]: allocation runs when the stored row lacked a real
    cost and the saved instance has both, and the purchase is received.
    The row is written before the allocation is called, outside of any
    transaction of its own: it stays written when the allocation raises. *)
Definition Purchase_save (self : Purchase.t) (db : DB) : DB * result unit :=
  let real_costs_just_added :=
    match purchases db !! Purchase.id self with
    | Some old_instance =>
        (negb (is_some (Purchase.real_shipping old_instance))
         || negb (is_some (Purchase.real_taxes old_instance)))
        && (is_some (Purchase.real_shipping self) && is_some (Purchase.real_taxes self))
    | None => false
    end in
  let db := set_purchases (<[Purchase.id self := self]> (purchases db)) db in
  if real_costs_just_added && is_received (Purchase.status self)
  then match allocate_logistics_costs self db with
       | (db, Ok _) => (db, Ok tt)
       | (db, Raise e) => (db, Raise e)
       end
  else (db, Ok tt).

(** The loop of [PurchaseViewSet.receive]: [item.product] is loaded from
    the database in each iteration. *)
Fixpoint receive_items (purchase : Purchase.t) (items : list PurchaseItem.t) (db : DB)
  : result DB :=
  match items with
  | [] => Ok db
  | item :: rest =>
      product ← get_product (PurchaseItem.product item) db;
      let product :=
        Product.set_current_stock
          (Product.current_stock product + PurchaseItem.quantity item) product in
      let product :=
        Product.set_last_purchase_cost (PurchaseItem.unit_cost item) product in
      let product :=
        Product.set_last_purchase_date (Some (Purchase.purchase_date purchase)) product in
      db ← Product_save product db;
      let unit_cost_gtq := PurchaseItem.unit_cost item * usd_to_gtq_rate db in
      let db :=
        CostLayer_create (Product.id product) (Some (PurchaseItem.id item))
          (PurchaseItem.unit_cost item) unit_cost_gtq (PurchaseItem.unit_cost item)
          0 false (PurchaseItem.quantity item) (PurchaseItem.quantity item) db in
      let '(db, product) := update_average_cost product db in
      let db :=
        InventoryTransaction_create (Product.id product) TPurchase
          (PurchaseItem.quantity item) (Product.current_stock product)
          (Some (Purchase.id purchase)) db in
      receive_items purchase rest db
  end.

(** [PurchaseViewSet.receive]. *)
Definition receive (pk : Z) (db : DB) : DB * response :=
  match purchases db !! pk with
  | None => (db, HTTP_404)
  | Some purchase =>
      if is_received (Purchase.status purchase)
      then (db, HTTP_400 ErrAlreadyReceived)
      else
        match atomic (fun db =>
                let purchase := Purchase.set_status Received purchase in
                match Purchase_save purchase db with
                | (_, Raise e) => Raise e
                | (db, Ok _) =>
                    db ← receive_items purchase (items_all (Purchase.id purchase) db) db;
                    Ok (db, tt)
                end) db with
        | (db, Ok _) => (db, HTTP_200)
        | (db, Raise e) => (db, HTTP_500 e)
        end
  end.

(** [reverse_purchase_on_delete] (pre_delete of [Purchase]).  [items_data]
    holds, for each line, the product instance loaded while the lines are
    listed, before any stock is written. *)
Fixpoint load_items_data (items : list PurchaseItem.t) (db : DB)
  : result (list (Product.t * Q * Z)) :=
  match items with
  | [] => Ok []
  | item :: rest =>
      product ← get_product (PurchaseItem.product item) db;
      data ← load_items_data rest db;
      Ok ((product, PurchaseItem.quantity item, PurchaseItem.id item) :: data)
  end.

Fixpoint reverse_items (items_data : list (Product.t * Q * Z)) (db : DB) : result DB :=
  match items_data with
  | [] => Ok db
  | (product, quantity_to_remove, item_id) :: rest =>
      let product :=
        Product.set_current_stock (Product.current_stock product - quantity_to_remove)
          product in
      let product :=
        if Qltb (Product.current_stock product) 0
        then Product.set_current_stock 0 product else product in
      db ← Product_save product db;
      let db :=
        set_cost_layers
          (List.filter
             (fun l => negb (bool_decide (CostLayer.purchase_item l = Some item_id)))
             (cost_layers db)) db in
      let '(db, product) := update_average_cost product db in
      reverse_items rest db
  end.

Fixpoint record_reversals (instance : Purchase.t) (items_data : list (Product.t * Q * Z))
    (db : DB) : result DB :=
  match items_data with
  | [] => Ok db
  | (product, quantity, _) :: rest =>
      product ← get_product (Product.id product) db;   (* refresh_from_db *)
      let db :=
        InventoryTransaction_create (Product.id product) TAdjustment
          (- quantity) (Product.current_stock product)
          (Some (Purchase.id instance)) db in
      record_reversals instance rest db
  end.

Definition reverse_purchase_on_delete (instance : Purchase.t) (db : DB) : result DB :=
  if negb (is_received (Purchase.status instance)) then Ok db
  else
    items_data ← load_items_data (items_all (Purchase.id instance) db) db;
    db ← reverse_items items_data db;
    let db :=
      set_transactions
        (List.filter
           (fun t => negb
              (transaction_type_eqb (InventoryTransaction.type t) TPurchase
               && bool_decide (InventoryTransaction.reference_id t
                               = Some (Purchase.id instance))))
           (transactions db)) db in
    record_reversals instance items_data db.

(** The cascade of a purchase deletion: the lines are deleted
    ([on_delete=CASCADE]), layers that still reference a line get
    [purchase_item = NULL] ([SET_NULL]), the purchase row is deleted. *)
Definition cascade_delete_purchase (pk : Z) (db : DB) : DB :=
  let item_ids := map PurchaseItem.id (items_all pk db) in
  let db :=
    set_cost_layers
      (map (fun l =>
              match CostLayer.purchase_item l with
              | Some i => if bool_decide (i ∈ item_ids)
                          then CostLayer.set_purchase_item None l else l
              | None => l
              end) (cost_layers db)) db in
  let db :=
    set_purchase_items
      (List.filter (fun i => negb (Z.eqb (PurchaseItem.purchase i) pk))
                   (purchase_items db)) db in
  set_purchases (delete pk (purchases db)) db.

(** [DELETE /purchases/<pk>/]: [Model.delete()] sends pre_delete and runs
    the cascade inside one transaction. *)
Definition PurchaseViewSet_destroy (pk : Z) (db : DB) : DB * response :=
  match purchases db !! pk with
  | None => (db, HTTP_404)
  | Some instance =>
      match atomic (fun db =>
              db ← reverse_purchase_on_delete instance db;
              Ok (cascade_delete_purchase pk db, tt)) db with
      | (db, Ok _) => (db, HTTP_204)
      | (db, Raise e) => (db, HTTP_500 e)
      end
  end.

(** [SystemSettingsViewSet.update]: the new rate replaces the stored one
    (the serializer field carries no minimum). *)
Definition SystemSettingsViewSet_update (rate : Q) (db : DB) : DB * response :=
  (mkDB (products db) (purchases db) (purchase_items db) (cost_layers db)
        (sales db) (sale_items db) (transactions db) rate (next_id db) (clock db),
   HTTP_200).

(** ** Specification-side definitions *)

(** FIFO costing as the specification words it: take
    [min(remaining_needed, layer.quantity_remaining)] from each layer in
    order, accumulate [taken * unit_cost_gtq]; what is still needed when the
    layers are exhausted is costed at [shortfall_unit_cost]. *)
Fixpoint spec_fifo_cost (layers : list CostLayer.t) (remaining_needed : Q)
    (shortfall_unit_cost : Q) : Q :=
  match layers with
  | [] => remaining_needed * shortfall_unit_cost
  | layer :: rest =>
      let taken := Qmin remaining_needed (CostLayer.quantity_remaining layer) in
      taken * CostLayer.unit_cost_gtq layer
      + spec_fifo_cost rest (remaining_needed - taken) shortfall_unit_cost
  end.

(** The unit cost that the pre_save handler puts on a new line of quantity
    [q]: the average cost in GTQ when no layer holds anything, else the
    quotient of the FIFO total by [q], as the decimal context gives it. *)
Definition line_unit_cost
    (layers : list CostLayer.t) (q shortfall_unit_cost : Q) : Q :=
  match layers with
  | [] => shortfall_unit_cost
  | _ :: _ => decimal_div (spec_fifo_cost layers q shortfall_unit_cost) q
  end.

Definition all_positive (layers : list CostLayer.t) : Prop :=
  Forall (fun l => 0 < CostLayer.quantity_remaining l) layers.

Definition oldest_first (a b : CostLayer.t) : Prop :=
  (CostLayer.created_at a <= CostLayer.created_at b)%Z.

(** ** Example databases *)

(** Two layers of product 1: L1 (5 units at Q10, created first) and
    L2 (5 units at Q12); the table lists L2 before L1.  Rate 2. *)
Definition layer_L1 : CostLayer.t := CostLayer.mk 1 1 None 5 10 5 0 true 5 5 100.
Definition layer_L2 : CostLayer.t := CostLayer.mk 2 1 None 6 12 6 0 true 5 5 200.
Definition product_P1 : Product.t := Product.mk 1 10 (11 # 2) 6 None.
Definition fifo_db : DB :=
  mkDB {[ 1%Z := product_P1 ]} ∅ [] [layer_L2; layer_L1] {[ 1%Z ]} [] [] 2 3 300.

(** The row of the layer table with a given key. *)
Definition layer_by_id (k : Z) (db : DB) : option CostLayer.t :=
  List.find (fun l => Z.eqb (CostLayer.id l) k) (cost_layers db).

(** ** Operations on the store *)

(** The state-changing entry points: receiving a purchase, creating a sale
    line through the API, saving a sale line at model level (as the admin
    does, with any field pre-set), deleting a sale line, deleting a
    purchase, saving a purchase, changing the exchange rate. *)
Inductive operation :=
| OpReceive (purchase : Z)
| OpCreateSaleItem (sale product : Z) (quantity unit_price : Q)
| OpSaveSaleItem (instance : SaleItem.t)
| OpDeleteSaleItem (pk : Z)
| OpDeletePurchase (pk : Z)
| OpSavePurchase (purchase : Purchase.t)
| OpUpdateRate (rate : Q).

Definition perform (o : operation) (db : DB) : DB :=
  match o with
  | OpReceive pk => fst (receive pk db)
  | OpCreateSaleItem sale product quantity unit_price =>
      fst (SaleItemViewSet_create sale product quantity unit_price db)
  | OpSaveSaleItem instance => fst (SaleItem_save instance db)
  | OpDeleteSaleItem pk => fst (SaleItemViewSet_destroy pk db)
  | OpDeletePurchase pk => fst (PurchaseViewSet_destroy pk db)
  | OpSavePurchase purchase => fst (Purchase_save purchase db)
  | OpUpdateRate rate => fst (SystemSettingsViewSet_update rate db)
  end.

Definition run (ops : list operation) (db : DB) : DB :=
  fold_left (fun db o => perform o db) ops db.

(** Every product row has a non-negative stock. *)
Definition stock_non_negative (db : DB) : Prop :=
  forall k p, products db !! k = Some p -> 0 <= Product.current_stock p.

(** ** The average-cost relation *)

Definition total_remaining (pid : Z) (db : DB) : Q :=
  sum_Q (map CostLayer.quantity_remaining (layers_of_product pid db)).

Definition total_value (pid : Z) (db : DB) : Q :=
  sum_Q (map (fun l => CostLayer.quantity_remaining l * CostLayer.unit_cost l)
             (layers_of_product pid db)).

(** [average_cost * sum remaining = sum (remaining * unit_cost)] over the
    layers of the product, in USD, and a zero average for an empty stock of
    layers. *)
Definition average_cost_consistent (pid : Z) (db : DB) : Prop :=
  forall p, products db !! pid = Some p ->
    Product.average_cost p * total_remaining pid db == total_value pid db
    /\ (total_remaining pid db == 0 -> Product.average_cost p == 0).

(** What [update_average_cost] leaves in the row of the product: the
    weighted average of its layers as the decimal context gives it, stored
    with two decimals; 0 when the layers hold nothing. *)
Definition average_cost_up_to_date (pid : Z) (db : DB) : Prop :=
  forall p, products db !! pid = Some p ->
    Product.average_cost p
    = quantize 2 (if Qgtb (total_remaining pid db) 0
                  then decimal_div (total_value pid db) (total_remaining pid db)
                  else 0).

Definition layers_non_negative (db : DB) : Prop :=
  Forall (fun l => 0 <= CostLayer.quantity_remaining l) (cost_layers db).

(** ** Integrity constraints of the schema *)

(** The primary key of [CostLayer] is unique. *)
Definition layer_ids_unique (db : DB) : Prop :=
  NoDup (map CostLayer.id (cost_layers db)).

(** ** Allocation, specification side *)

(** A pending purchase (key 10) of 10 units of product 1 at $10 and 10
    units of product 2 at $30; both products start without stock.  The
    invoice adds $25 of shipping and $15 of taxes. *)
Definition line_1 : PurchaseItem.t := PurchaseItem.mk 1 10 1 10 10 0.
Definition line_2 : PurchaseItem.t := PurchaseItem.mk 2 10 2 10 30 0.
Definition pending_purchase : Purchase.t :=
  Purchase.mk 10 20240101 Pending 0 0 None None.
Definition invoiced_purchase : Purchase.t :=
  Purchase.mk 10 20240101 Received 0 0 (Some 25) (Some 15).
Definition purchase_db (lines : list PurchaseItem.t) : DB :=
  mkDB {[ 1%Z := Product.mk 1 0 0 0 None; 2%Z := Product.mk 2 0 0 0 None ]}
       {[ 10%Z := pending_purchase ]} lines [] ∅ [] [] 2 100 1000.

(** The same purchase, received. *)
Definition received_db (lines : list PurchaseItem.t) : DB :=
  perform (OpReceive 10) (purchase_db lines).

(** The same purchase, received and then saved with its invoice. *)
Definition invoiced_db (lines : list PurchaseItem.t) : DB :=
  perform (OpSavePurchase invoiced_purchase) (received_db lines).




(** The specification's base of the allocation:
    [sum (line.quantity * line.unit_cost)]. *)
Definition spec_total_product_cost (lines : list PurchaseItem.t) : Q :=
  sum_Q (map (fun i => PurchaseItem.quantity i * PurchaseItem.unit_cost i) lines).

(** The specification's per-unit amount of a line. *)
Definition spec_logistics_per_unit
    (lines : list PurchaseItem.t) (item : PurchaseItem.t) (total_logistics : Q) : Q :=
  ((PurchaseItem.quantity item * PurchaseItem.unit_cost item
    / spec_total_product_cost lines) * total_logistics)
  / PurchaseItem.quantity item.

(** The logistics amount carried by a layer over its original quantity. *)
Definition allocated_logistics_total (l : CostLayer.t) : Q :=
  CostLayer.allocated_logistics_per_unit l * CostLayer.original_quantity l.

(** Two lines of the same purchase for the same product: 3 and 4 units of
    product 1. *)
Definition line_a : PurchaseItem.t := PurchaseItem.mk 1 10 1 3 10 0.
Definition line_b : PurchaseItem.t := PurchaseItem.mk 2 10 1 4 10 0.

(** The stock of a product, when the row exists. *)
Definition stock_of (pid : Z) (db : DB) : option Q :=
  Product.current_stock <$> products db !! pid.

(** The layers that originate from the lines of a purchase. *)
Definition layers_of_lines (lines : list PurchaseItem.t) (db : DB) : list CostLayer.t :=
  List.filter
    (fun l => match CostLayer.purchase_item l with
              | Some i => bool_decide (i ∈ map PurchaseItem.id lines)
              | None => false
              end) (cost_layers db).

(** The layers that do not originate from the lines of a purchase. *)
Definition layers_of_others (lines : list PurchaseItem.t) (db : DB) : list CostLayer.t :=
  List.filter
    (fun l => negb match CostLayer.purchase_item l with
                   | Some i => bool_decide (i ∈ map PurchaseItem.id lines)
                   | None => false
                   end) (cost_layers db).

(** FIFO consumption as the specification words it, on the remaining
    quantities of the layers in order: [min(remaining_needed, remaining)] is
    taken from each. *)
Fixpoint spec_remaining (remaining : list Q) (remaining_needed : Q) : list Q :=
  match remaining with
  | [] => []
  | r :: rest =>
      let taken := Qmin remaining_needed r in
      (r - taken) :: spec_remaining rest (remaining_needed - taken)
  end.

(** A product with 10 units in stock of which only 2 are covered by a
    layer, and a new sale line of 5 units whose cost is pre-set to Q9. *)
Definition short_layer : CostLayer.t := CostLayer.mk 1 1 None 5 10 5 0 true 2 2 100.
Definition short_db : DB :=
  mkDB {[ 1%Z := Product.mk 1 10 5 5 None ]} ∅ [] [short_layer] {[ 1%Z ]} [] [] 2 3 300.
Definition preset_line : SaleItem.t := SaleItem.mk None 1 1 5 20 9.

(** [fifo_db] after the sale of 2 units of product 1 through the API: the
    line is stored under the key 3. *)
Definition sold_db : DB := perform (OpCreateSaleItem 1 1 2 20) fifo_db.

(** ** A request to create a sale line *)




(** What [receive] writes for a line at the given rate, apart from the
    key, the product and the time: the cost columns hold two decimals. *)
Definition receipt_layer (rate : Q) (item : PurchaseItem.t) (l : CostLayer.t) : Prop :=
  CostLayer.purchase_item l = Some (PurchaseItem.id item)
  /\ CostLayer.unit_cost l = quantize 2 (PurchaseItem.unit_cost item)
  /\ CostLayer.base_unit_cost l = quantize 2 (PurchaseItem.unit_cost item)
  /\ CostLayer.unit_cost_gtq l = quantize 2 (PurchaseItem.unit_cost item * rate)
  /\ CostLayer.allocated_logistics_per_unit l == 0
  /\ CostLayer.logistics_allocated l = false
  /\ CostLayer.quantity_remaining l = PurchaseItem.quantity item
  /\ CostLayer.original_quantity l = PurchaseItem.quantity item.

(** The key of a product row is its [id]. *)
Definition product_keys_consistent (db : DB) : Prop :=
  forall k p, products db !! k = Some p -> Product.id p = k.

(** The clamp of [reverse_purchase_on_delete]. *)
Definition clamp_at_zero (x : Q) : Q := if Qltb x 0 then 0 else x.

(** ** What a sale removes from the layers *)

(** The remaining quantity stored in [db] for the row of layer [l]. *)
Definition remaining_in (db : DB) (l : CostLayer.t) : Q :=
  match layer_by_id (CostLayer.id l) db with
  | Some l' => CostLayer.quantity_remaining l'
  | None => 0
  end.



(** ** Totals of a purchase and of a sale ([models.py]) *)

(** [Purchase.estimated_logistic_cost]. *)
Definition estimated_logistic_cost (self : Purchase.t) : Q :=
  Purchase.estimated_shipping self + Purchase.estimated_taxes self.

(** [Purchase.real_logistic_cost]: [None] unless both real costs are set. *)
Definition real_logistic_cost (self : Purchase.t) : option Q :=
  match Purchase.real_shipping self, Purchase.real_taxes self with
  | Some real_shipping, Some real_taxes => Some (real_shipping + real_taxes)
  | _, _ => None
  end.

(** [Purchase.estimated_total]. *)
Definition estimated_total (self : Purchase.t) (db : DB) : Q :=
  product_cost self db + estimated_logistic_cost self.

(** [Purchase.real_total]. *)
Definition real_total (self : Purchase.t) (db : DB) : option Q :=
  match real_logistic_cost self with
  | Some real_logistic => Some (product_cost self db + real_logistic)
  | None => None
  end.

(** [Purchase.total_cost]: the real total when there is one. *)
Definition Purchase_total_cost (self : Purchase.t) (db : DB) : Q :=
  match real_total self db with
  | Some total => total
  | None => estimated_total self db
  end.

(** [Purchase.total_cost_gtq]: at the current rate. *)
Definition total_cost_gtq (self : Purchase.t) (db : DB) : Q :=
  Purchase_total_cost self db * usd_to_gtq_rate db.








(* ================================================================= *)
(** * Properties *)

(** ** Decimal comparisons *)

Lemma Qltb_lt x y : Qltb x y = true <-> x < y.
Proof.
  unfold Qltb. rewrite negb_true_iff.
  split; intros H.
  - apply Qnot_le_lt. intros Hle. apply Qle_bool_iff in Hle. congruence.
  - destruct (Qle_bool y x) eqn:E; [|reflexivity].
    apply Qle_bool_iff in E. lra.
Qed.

Lemma Qltb_ge x y : Qltb x y = false <-> y <= x.
Proof.
  unfold Qltb. rewrite negb_false_iff. apply Qle_bool_iff.
Qed.

Lemma Qeqb_eq x y : Qeqb x y = true <-> x == y.
Proof. apply Qeq_bool_iff. Qed.

Lemma py_min_spec a b : py_min a b == Qmin a b.
Proof.
  unfold py_min. destruct (Qltb b a) eqn:E.
  - apply Qltb_lt in E. symmetry. apply Q.min_r. lra.
  - apply Qltb_ge in E. symmetry. apply Q.min_l. lra.
Qed.


(** ** Decimal rounding *)



(** The nearest integer is at most one half away. *)
Lemma round_half_even_error x :
  inject_Z (round_half_even x) - (1 # 2) <= x <= inject_Z (round_half_even x) + (1 # 2).
Proof.
  unfold round_half_even.
  pose proof (Qfloor_le x) as Hlo. pose proof (Qlt_floor x) as Hhi.
  rewrite inject_Z_plus in Hhi. change (inject_Z 1) with 1 in Hhi.
  set (n := Qfloor x) in *.
  destruct (Qltb ((x - inject_Z n) * 2) 1) eqn:E1.
  { apply Qltb_lt in E1. lra. }
  apply Qltb_ge in E1.
  assert (Hnext : inject_Z (n + 1) == inject_Z n + 1)
    by (rewrite inject_Z_plus; reflexivity).
  destruct (Qltb 1 ((x - inject_Z n) * 2)) eqn:E2.
  { apply Qltb_lt in E2. rewrite Hnext. lra. }
  apply Qltb_ge in E2.
  destruct (Z.even n); [lra|]. rewrite Hnext. lra.
Qed.

Lemma quantize_comp places x y : x == y -> quantize places x = quantize places y.
Proof. intros H. unfold quantize. now rewrite (Qred_complete _ _ H). Qed.


(** Rounding to two decimals moves a value by at most half a cent. *)
Lemma quantize_error x :
  quantize 2 x - (1 # 200) <= x <= quantize 2 x + (1 # 200).
Proof.
  unfold quantize.
  pose proof (round_half_even_error (Qred x * 10 ^ 2)) as H.
  set (n := round_half_even (Qred x * 10 ^ 2)) in *.
  rewrite Qred_correct in H. change (10 ^ 2) with 100 in *.
  assert (E : inject_Z n / 100 == inject_Z n * (1 # 100)) by (field).
  rewrite E. lra.
Qed.

Lemma quantize_positive x : (1 # 200) < x -> 0 < quantize 2 x.
Proof.
  intros Hx. unfold quantize.
  pose proof (round_half_even_error (Qred x * 10 ^ 2)) as H.
  set (n := round_half_even (Qred x * 10 ^ 2)) in *.
  rewrite Qred_correct in H. change (10 ^ 2) with 100 in *.
  assert (Hn : (0 < n)%Z).
  { apply Z.lt_nge. intros Hle. assert (inject_Z n <= 0).
    { rewrite Zle_Qle in Hle. exact Hle. } lra. }
  assert (E : inject_Z n / 100 == inject_Z n * (1 # 100)) by (field).
  rewrite E. assert (0 < inject_Z n) by (rewrite Zlt_Qlt in Hn; exact Hn). lra.
Qed.

Lemma decimal_div_comp x x' y y' :
  x == x' -> y == y' -> decimal_div x y = decimal_div x' y'.
Proof.
  intros Hx Hy. unfold decimal_div, decimal_round.
  assert (E : x / y == x' / y') by now rewrite Hx, Hy.
  now rewrite (Qred_complete _ _ E).
Qed.

(** ** FIFO selection and costing *)

Lemma spec_fifo_cost_compat layers c rem rem' :
  rem == rem' -> spec_fifo_cost layers rem c == spec_fifo_cost layers rem' c.
Proof.
  revert rem rem'. induction layers as [|l rest IH]; intros rem rem' Heq; simpl.
  - rewrite Heq. reflexivity.
  - assert (Hmin : Qmin rem (CostLayer.quantity_remaining l)
                   == Qmin rem' (CostLayer.quantity_remaining l)).
    { rewrite Heq. reflexivity. }
    rewrite (IH (rem - Qmin rem (CostLayer.quantity_remaining l))
                (rem' - Qmin rem' (CostLayer.quantity_remaining l))).
    + rewrite Hmin. reflexivity.
    + rewrite Hmin, Heq. reflexivity.
Qed.

Lemma spec_fifo_cost_zero layers rem c :
  all_positive layers -> rem == 0 -> spec_fifo_cost layers rem c == 0.
Proof.
  intros Hpos. revert rem.
  induction Hpos as [|l rest Hl Hrest IH]; intros rem Hrem; simpl.
  - rewrite Hrem. ring.
  - assert (Hmin : Qmin rem (CostLayer.quantity_remaining l) == 0).
    { rewrite Q.min_l by lra. exact Hrem. }
    rewrite IH by lra. rewrite Hmin. ring.
Qed.

(** The loop with its [break] and accumulators computes the specification's
    recursion. *)
Lemma fifo_cost_loop_spec layers c :
  all_positive layers -> forall rem tot, 0 <= rem ->
  0 <= fst (fifo_cost_loop layers rem tot) /\
  snd (fifo_cost_loop layers rem tot) + fst (fifo_cost_loop layers rem tot) * c
    == tot + spec_fifo_cost layers rem c.
Proof.
  induction 1 as [|l rest Hl Hrest IH]; intros rem tot Hrem;
    cbn [fifo_cost_loop spec_fifo_cost].
  - cbn [fst snd]. split; [exact Hrem | ring].
  - destruct (Qleb rem 0) eqn:E; cbn [fst snd].
    + apply Qle_bool_iff in E. split; [exact Hrem|].
      assert (Hz : rem == 0) by lra.
      assert (Hmin : Qmin rem (CostLayer.quantity_remaining l) == 0).
      { rewrite Q.min_l by lra. exact Hz. }
      rewrite spec_fifo_cost_zero; [| exact Hrest | lra].
      rewrite Hmin, Hz. ring.
    + pose proof (py_min_spec rem (CostLayer.quantity_remaining l)) as Hpm.
      set (t := py_min rem (CostLayer.quantity_remaining l)) in *.
      assert (Ht : t <= rem).
      { rewrite Hpm. apply Q.le_min_l. }
      destruct (IH (rem - t) (tot + t * CostLayer.unit_cost_gtq l)) as [H1 H2]; [lra|].
      split; [exact H1|]. rewrite H2.
      assert (Hs : spec_fifo_cost rest (rem - Qmin rem (CostLayer.quantity_remaining l)) c
                   == spec_fifo_cost rest (rem - t) c).
      { apply spec_fifo_cost_compat. rewrite Hpm. reflexivity. }
      rewrite Hs. rewrite <- Hpm. ring.
Qed.

Lemma insert_by_created_at_perm x l :
  Permutation (insert_by_created_at x l) (x :: l).
Proof.
  induction l as [|y rest IH]; simpl.
  - reflexivity.
  - destruct (CostLayer.created_at x <? CostLayer.created_at y)%Z.
    + reflexivity.
    + rewrite IH. apply perm_swap.
Qed.

Lemma order_by_created_at_perm l : Permutation (order_by_created_at l) l.
Proof.
  induction l as [|x rest IH]; simpl.
  - reflexivity.
  - rewrite insert_by_created_at_perm. now constructor.
Qed.

Lemma insert_by_created_at_sorted x l :
  StronglySorted oldest_first l ->
  StronglySorted oldest_first (insert_by_created_at x l).
Proof.
  induction 1 as [|y rest Hrest IH Hy]; simpl.
  - repeat constructor.
  - destruct (CostLayer.created_at x <? CostLayer.created_at y)%Z eqn:E.
    + apply Z.ltb_lt in E. constructor.
      * now constructor.
      * constructor; [unfold oldest_first; lia|].
        apply List.Forall_forall. intros z Hz.
        pose proof (proj1 (List.Forall_forall _ _) Hy z Hz) as Hyz.
        unfold oldest_first in *. lia.
    + apply Z.ltb_ge in E. constructor; [exact IH|].
      apply List.Forall_forall. intros z Hz.
      apply (Permutation_in _ (insert_by_created_at_perm x rest)) in Hz.
      destruct Hz as [<-|Hz]; [exact E|].
      exact (proj1 (List.Forall_forall _ _) Hy z Hz).
Qed.

Lemma order_by_created_at_sorted l :
  StronglySorted oldest_first (order_by_created_at l).
Proof.
  induction l as [|x rest IH]; simpl.
  - constructor.
  - now apply insert_by_created_at_sorted.
Qed.

Lemma fifo_layers_In pid db l :
  In l (fifo_layers pid db) <->
  In l (cost_layers db) /\ CostLayer.product l = pid
  /\ 0 < CostLayer.quantity_remaining l.
Proof.
  unfold fifo_layers. split.
  - intros H. apply (Permutation_in _ (order_by_created_at_perm _)) in H.
    apply filter_In in H. destruct H as [Hin Hc].
    apply andb_true_iff in Hc. destruct Hc as [Hp Hq].
    apply Z.eqb_eq in Hp. apply Qltb_lt in Hq. auto.
  - intros (Hin & Hp & Hq).
    apply (Permutation_in _ (Permutation_sym (order_by_created_at_perm _))).
    apply filter_In. split; [exact Hin|].
    apply andb_true_iff. split; [now apply Z.eqb_eq | now apply Qltb_lt].
Qed.

Lemma fifo_layers_positive pid db : all_positive (fifo_layers pid db).
Proof.
  apply List.Forall_forall. intros l Hl. now apply fifo_layers_In in Hl.
Qed.

Lemma get_fifo_cost_total self q db :
  0 <= q ->
  fst (get_fifo_cost self q db)
  == spec_fifo_cost (fifo_layers (Product.id self) db) q
       (Product.average_cost self * usd_to_gtq_rate db).
Proof.
  intros Hq. unfold get_fifo_cost.
  destruct (fifo_cost_loop_spec (fifo_layers (Product.id self) db)
              (Product.average_cost self * usd_to_gtq_rate db)
              (fifo_layers_positive _ _) q 0 Hq) as [H1 H2].
  destruct (fifo_cost_loop (fifo_layers (Product.id self) db) q 0) as [r t].
  cbn [fst snd] in *.
  destruct (Qgtb r 0) eqn:E; cbn [fst].
  - rewrite <- (Qplus_0_l (spec_fifo_cost _ _ _)), <- H2. ring.
  - apply Qltb_ge in E. assert (Hr : r == 0) by lra.
    rewrite <- (Qplus_0_l (spec_fifo_cost _ _ _)), <- H2. rewrite Hr. ring.
Qed.


Lemma get_fifo_cost_unit self q db :
  0 < q ->
  snd (get_fifo_cost self q db) == fst (get_fifo_cost self q db) / q.
Proof.
  intros Hq. unfold get_fifo_cost.
  destruct (fifo_cost_loop _ q 0) as [r t].
  apply Qltb_lt in Hq. unfold Qgtb at 2 3. rewrite Hq. reflexivity.
Qed.

Lemma calculate_fifo_cost_new instance self db :
  SaleItem.pk instance = None ->
  SaleItem.unit_cost instance <= 0 ->
  products db !! SaleItem.product instance = Some self ->
  0 < SaleItem.quantity instance ->
  calculate_fifo_cost instance db
  = Ok (SaleItem.set_unit_cost
          (line_unit_cost (fifo_layers (Product.id self) db)
             (SaleItem.quantity instance)
             (Product.average_cost self * usd_to_gtq_rate db)) instance).
Proof.
  intros Hpk Hcost Hprod Hq. unfold calculate_fifo_cost, get_product.
  rewrite Hpk, Hprod. cbn [is_some mbind result_bind].
  apply Qltb_ge in Hcost. unfold Qgtb at 1. rewrite Hcost.
  pose proof (fifo_cost_loop_spec (fifo_layers (Product.id self) db)
                (average_cost_gtq self db) (fifo_layers_positive _ _)
                (SaleItem.quantity instance) 0) as Hloop.
  destruct (fifo_layers (Product.id self) db) as [|l rest] eqn:El.
  - reflexivity.
  - destruct (Hloop (Qlt_le_weak _ _ Hq)) as [H1 H2].
    destruct (fifo_cost_loop (l :: rest) (SaleItem.quantity instance) 0) as [r t].
    cbn [fst snd] in H1, H2.
    assert (Hne : Qeqb (SaleItem.quantity instance) 0 = false).
    { destruct (Qeqb (SaleItem.quantity instance) 0) eqn:E; [|reflexivity].
      apply Qeqb_eq in E. lra. }
    rewrite Hne. unfold line_unit_cost. do 2 f_equal.
    apply decimal_div_comp; [|reflexivity].
    unfold average_cost_gtq in *.
    rewrite <- (Qplus_0_l (spec_fifo_cost _ _ _)), <- H2.
    destruct (Qgtb r 0) eqn:E.
    + ring.
    + apply Qltb_ge in E. assert (Hr : r == 0) by lra. rewrite Hr. ring.
Qed.


(** C1: for a requested quantity [q > 0] the FIFO cost computation works on
    exactly the product's layers with a positive remaining quantity, oldest
    first; its total is the sum of [min(remaining_needed, quantity_remaining)
    * unit_cost_gtq] over these layers in order, plus the shortfall at the
    product's average cost converted at the current rate.  This is the total
    of [get_fifo_cost], and the total that the pre_save handler of a sale
    line divides by [q] (in the decimal context) for the line's unit cost.
    With L1 (5 at 10) and L2 (5 at 12), a quantity of 7 costs 74, the line
    is stored with a unit cost of 10.57, and the sale leaves 0 in L1 and 3
    in L2. *)
Theorem C1_fifo_cost (self : Product.t) (q : Q) (db : DB) :
  0 < q ->
  let layers := fifo_layers (Product.id self) db in
  let shortfall_unit_cost := Product.average_cost self * usd_to_gtq_rate db in
  (forall l, In l layers <->
             In l (cost_layers db) /\ CostLayer.product l = Product.id self
             /\ 0 < CostLayer.quantity_remaining l)
  /\ StronglySorted oldest_first layers
  /\ fst (get_fifo_cost self q db) == spec_fifo_cost layers q shortfall_unit_cost
  /\ (forall instance,
        SaleItem.pk instance = None ->
        SaleItem.unit_cost instance <= 0 ->
        products db !! SaleItem.product instance = Some self ->
        SaleItem.quantity instance = q ->
        calculate_fifo_cost instance db
        = Ok (SaleItem.set_unit_cost
                (match layers with
                 | [] => shortfall_unit_cost
                 | _ :: _ =>
                     decimal_div (spec_fifo_cost layers q shortfall_unit_cost) q
                 end) instance))
  /\ (fifo_layers 1 fifo_db = [layer_L1; layer_L2]
      /\ fst (get_fifo_cost product_P1 7 fifo_db) == 74
      /\ exists db' line,
           SaleItemViewSet_create 1 1 7 20 fifo_db = (db', HTTP_201 line)
           /\ SaleItem.unit_cost line == 1057 # 100
           /\ In line (sale_items db')
           /\ CostLayer.quantity_remaining <$> layer_by_id 1 db' = Some 0
           /\ CostLayer.quantity_remaining <$> layer_by_id 2 db' = Some 3).
Proof.
  intros Hq layers c.
  split; [intros l; apply fifo_layers_In|].
  split; [apply order_by_created_at_sorted|].
  split; [apply get_fifo_cost_total; lra|].
  split.
  { intros instance Hpk Hcost Hprod Hqty. subst q.
    now apply calculate_fifo_cost_new. }
  split; [reflexivity|].
  split; [reflexivity|].
  eexists _, _. split; [vm_compute; reflexivity|].
  split; [reflexivity|]. split; [left; reflexivity|].
  split; vm_compute; reflexivity.
Qed.

Lemma C1_fifo_cost_witness :
  fst (get_fifo_cost product_P1 7 fifo_db)
  == spec_fifo_cost (fifo_layers 1 fifo_db) 7
       (Product.average_cost product_P1 * usd_to_gtq_rate fifo_db).
Proof.
  exact (proj1 (proj2 (proj2 (C1_fifo_cost product_P1 7 fifo_db eq_refl)))).
Defined.

(** ** Stock never goes negative *)

Lemma stock_non_negative_same_products db db' :
  products db' = products db -> stock_non_negative db -> stock_non_negative db'.
Proof. unfold stock_non_negative. intros ->. auto. Qed.

Lemma Product_save_stock self db db' :
  Product_save self db = Ok db' -> stock_non_negative db -> stock_non_negative db'.
Proof.
  unfold Product_save. destruct (Qltb (Product.current_stock self) 0) eqn:E; [discriminate|].
  intros [= <-] Hinv k p. cbn. apply Qltb_ge in E.
  destruct (decide (Product.id self = k)) as [->|Hne].
  - rewrite lookup_insert_eq. intros [= <-]. exact E.
  - rewrite lookup_insert_ne by exact Hne. apply Hinv.
Qed.

Lemma alter_stock (f : Product.t -> Product.t) k db :
  (forall p, Product.current_stock (f p) = Product.current_stock p) ->
  stock_non_negative db ->
  stock_non_negative (set_products (alter f k (products db)) db).
Proof.
  intros Hf Hinv k' p. cbn. intros Hl.
  apply lookup_alter_Some in Hl.
  destruct Hl as [(_ & p0 & Hp0 & ->) | (_ & Hl)].
  - rewrite Hf. eapply Hinv, Hp0.
  - eapply Hinv, Hl.
Qed.

Lemma Product_save_average_cost_stock self db :
  stock_non_negative db -> stock_non_negative (Product_save_average_cost self db).
Proof. apply alter_stock. reflexivity. Qed.

Lemma update_average_cost_stock self db :
  stock_non_negative db -> stock_non_negative (fst (update_average_cost self db)).
Proof. unfold update_average_cost. cbn [fst]. apply Product_save_average_cost_stock. Qed.

Lemma consume_layers_products layers rem db :
  products (consume_layers layers rem db) = products db.
Proof.
  revert rem db. induction layers as [|l rest IH]; intros rem db; simpl.
  - reflexivity.
  - destruct (Qleb rem 0); [reflexivity|]. rewrite IH. reflexivity.
Qed.

#[local] Ltac same_products_as d :=
  apply (stock_non_negative_same_products d); [reflexivity|].

Lemma update_inventory_and_cost_layers_stock instance created db :
  stock_non_negative db ->
  stock_non_negative (fst (update_inventory_and_cost_layers instance created db)).
Proof.
  intros Hinv. unfold update_inventory_and_cost_layers.
  destruct created; [|exact Hinv]. cbn [negb]. unfold atomic, get_product.
  destruct (products db !! SaleItem.product instance) as [product|]; [|exact Hinv].
  cbn [mbind result_bind].
  destruct (Qltb _ _); [exact Hinv|].
  destruct (Product_save _ _) as [db1|e] eqn:Esave; cbn [mbind result_bind fst];
    [|exact Hinv].
  same_products_as db1. eapply Product_save_stock; [exact Esave|].
  eapply stock_non_negative_same_products; [apply consume_layers_products|exact Hinv].
Qed.

Lemma SaleItem_write_stock instance db :
  stock_non_negative db -> stock_non_negative (fst (SaleItem_write instance db)).
Proof.
  unfold SaleItem_write. destruct (SaleItem.pk instance) as [k|];
    [destruct (sale_item_exists k db)|]; intros H; exact H.
Qed.

Lemma SaleItem_save_stock instance db :
  stock_non_negative db -> stock_non_negative (fst (SaleItem_save instance db)).
Proof.
  intros Hinv. unfold SaleItem_save.
  destruct (calculate_fifo_cost instance db) as [i|e]; [|exact Hinv].
  pose proof (SaleItem_write_stock i db Hinv) as H1.
  destruct (SaleItem_write i db) as [db1 i1]. cbn [fst] in H1.
  pose proof (update_inventory_and_cost_layers_stock i1
                (SaleItem_inserts i db) db1 H1) as H2.
  destruct (update_inventory_and_cost_layers _ _ _) as [db2 [u|e]]; exact H2.
Qed.

Lemma SaleItemViewSet_create_stock sale product quantity unit_price db :
  stock_non_negative db ->
  stock_non_negative (fst (SaleItemViewSet_create sale product quantity unit_price db)).
Proof.
  intros Hinv. unfold SaleItemViewSet_create.
  destruct (products db !! product) as [p|]; [|exact Hinv].
  destruct (Qgtb _ _); [exact Hinv|].
  destruct (negb _); [exact Hinv|].
  destruct (SaleItemSerializer_validate _ _); [exact Hinv|].
  pose proof (SaleItem_save_stock (SaleItem.mk None sale product quantity unit_price 0)
                db Hinv) as H.
  destruct (SaleItem_save _ _) as [db1 [i|e]]; [exact H | exact Hinv].
Qed.

Lemma delete_sale_transactions_products product sale_id q db :
  products (delete_sale_transactions product sale_id q db) = products db.
Proof.
  unfold delete_sale_transactions.
  destruct sale_id as [sid|]; [destruct (sid =? 0)%Z|]; reflexivity.
Qed.

Lemma restore_layer_products product c q db db' :
  restore_layer product c q db = Ok db' -> products db' = products db.
Proof.
  unfold restore_layer. destruct (Qgtb c 0).
  - destruct (Qeqb _ 0); [discriminate|]. now intros [= <-].
  - now intros [= <-].
Qed.

Lemma restore_inventory_on_delete_stock instance db db' :
  restore_inventory_on_delete instance db = Ok db' ->
  stock_non_negative db -> stock_non_negative db'.
Proof.
  unfold restore_inventory_on_delete, get_product.
  destruct (products db !! SaleItem.product instance) as [product|]; [|discriminate].
  cbn [mbind result_bind].
  destruct (Product_save _ _) as [db1|e] eqn:Esave; [|discriminate].
  cbn [mbind result_bind].
  destruct (restore_layer _ _ _ _) as [db2|e] eqn:Elayer; [|discriminate].
  intros H Hinv.
  assert (H2 : stock_non_negative db2).
  { eapply stock_non_negative_same_products;
      [eapply restore_layer_products, Elayer|].
    eapply stock_non_negative_same_products;
      [apply delete_sale_transactions_products|].
    eapply Product_save_stock; [exact Esave | exact Hinv]. }
  cbn [mbind result_bind] in H.
  match type of H with
  | context [update_average_cost ?p db2] =>
      pose proof (update_average_cost_stock p db2 H2) as H3;
      destruct (update_average_cost p db2) as [db3 p3]
  end.
  injection H as <-. exact H3.
Qed.

Lemma SaleItemViewSet_destroy_stock pk db :
  stock_non_negative db -> stock_non_negative (fst (SaleItemViewSet_destroy pk db)).
Proof.
  intros Hinv. unfold SaleItemViewSet_destroy.
  destruct (List.find _ _) as [instance|]; [|exact Hinv].
  unfold atomic.
  destruct (restore_inventory_on_delete _ _) as [db1|e] eqn:E;
    cbn [mbind result_bind fst]; [|exact Hinv].
  eapply restore_inventory_on_delete_stock; [exact E|]. exact Hinv.
Qed.

Lemma allocate_items_db items db : fst (allocate_items items db) = db.
Proof. now destruct items. Qed.

(** The allocation never writes. *)
Lemma allocate_logistics_costs_db self db :
  fst (allocate_logistics_costs self db) = db.
Proof.
  unfold allocate_logistics_costs.
  destruct (Purchase.real_shipping self) as [s|]; [|reflexivity].
  destruct (Purchase.real_taxes self) as [t|]; [|reflexivity].
  destruct (Qeqb (s + t) 0); [reflexivity|].
  destruct (Qeqb (product_cost self db) 0); [reflexivity|].
  now destruct (items_all (Purchase.id self) db).
Qed.

Lemma allocate_logistics_costs_stock self db :
  stock_non_negative db ->
  stock_non_negative (fst (allocate_logistics_costs self db)).
Proof. now rewrite allocate_logistics_costs_db. Qed.

Lemma Purchase_save_stock self db :
  stock_non_negative db -> stock_non_negative (fst (Purchase_save self db)).
Proof.
  intros Hinv. unfold Purchase_save.
  match goal with
  | |- context [allocate_logistics_costs self ?d] =>
      assert (H0 : stock_non_negative d) by exact Hinv;
      pose proof (allocate_logistics_costs_stock self d H0) as H
  end.
  destruct (_ && is_received _); [|exact Hinv].
  destruct (allocate_logistics_costs _ _) as [db1 [u|e]]; exact H.
Qed.

Lemma receive_items_stock purchase items db db' :
  receive_items purchase items db = Ok db' ->
  stock_non_negative db -> stock_non_negative db'.
Proof.
  revert db. induction items as [|item rest IH]; intros db; cbn [receive_items].
  - now intros [= <-].
  - unfold get_product.
    destruct (products db !! PurchaseItem.product item) as [product|];
      [|discriminate].
    cbn [mbind result_bind].
    destruct (Product_save _ _) as [db1|e] eqn:Esave; [|discriminate].
    cbn [mbind result_bind]. intros H Hinv.
    pose proof (Product_save_stock _ _ _ Esave Hinv) as H1.
    match type of H with
    | context [update_average_cost ?p ?d] =>
        assert (H2 : stock_non_negative d) by exact H1;
        pose proof (update_average_cost_stock p d H2) as H3;
        destruct (update_average_cost p d) as [db3 p3]
    end.
    eapply IH; [exact H|]. exact H3.
Qed.

Lemma receive_stock pk db :
  stock_non_negative db -> stock_non_negative (fst (receive pk db)).
Proof.
  intros Hinv. unfold receive.
  destruct (purchases db !! pk) as [purchase|]; [|exact Hinv].
  destruct (is_received _); [exact Hinv|].
  unfold atomic.
  pose proof (Purchase_save_stock (Purchase.set_status Received purchase) db Hinv) as H1.
  destruct (Purchase_save _ db) as [db1 [u|e]]; [|exact Hinv].
  cbn [fst] in H1.
  destruct (receive_items _ _ db1) as [db2|e] eqn:E;
    cbn [mbind result_bind fst]; [|exact Hinv].
  eapply receive_items_stock; [exact E | exact H1].
Qed.

Lemma reverse_items_stock items_data db db' :
  reverse_items items_data db = Ok db' ->
  stock_non_negative db -> stock_non_negative db'.
Proof.
  revert db. induction items_data as [|[[product q] item_id] rest IH]; intros db;
    cbn [reverse_items].
  - now intros [= <-].
  - destruct (Product_save _ _) as [db1|e] eqn:Esave; [|discriminate].
    cbn [mbind result_bind]. intros H Hinv.
    pose proof (Product_save_stock _ _ _ Esave Hinv) as H1.
    match type of H with
    | context [update_average_cost ?p ?d] =>
        assert (H2 : stock_non_negative d) by exact H1;
        pose proof (update_average_cost_stock p d H2) as H3;
        destruct (update_average_cost p d) as [db3 p3]
    end.
    eapply IH; [exact H | exact H3].
Qed.

Lemma record_reversals_products instance items_data db db' :
  record_reversals instance items_data db = Ok db' -> products db' = products db.
Proof.
  revert db. induction items_data as [|[[product q] item_id] rest IH]; intros db;
    cbn [record_reversals].
  - now intros [= <-].
  - unfold get_product. destruct (products db !! Product.id product) as [p|];
      [|discriminate].
    cbn [mbind result_bind]. intros H. apply IH in H. rewrite H. reflexivity.
Qed.

Lemma reverse_purchase_on_delete_stock instance db db' :
  reverse_purchase_on_delete instance db = Ok db' ->
  stock_non_negative db -> stock_non_negative db'.
Proof.
  unfold reverse_purchase_on_delete.
  destruct (negb _); [now intros [= <-]|].
  destruct (load_items_data _ db) as [items_data|e]; [|discriminate].
  cbn [mbind result_bind].
  destruct (reverse_items items_data db) as [db1|e] eqn:E; [|discriminate].
  cbn [mbind result_bind]. intros H Hinv.
  apply record_reversals_products in H. cbn [products set_transactions] in H.
  apply (stock_non_negative_same_products db1); [exact H|].
  eapply reverse_items_stock; [exact E | exact Hinv].
Qed.

Lemma PurchaseViewSet_destroy_stock pk db :
  stock_non_negative db -> stock_non_negative (fst (PurchaseViewSet_destroy pk db)).
Proof.
  intros Hinv. unfold PurchaseViewSet_destroy.
  destruct (purchases db !! pk) as [instance|]; [|exact Hinv].
  unfold atomic.
  destruct (reverse_purchase_on_delete instance db) as [db1|e] eqn:E;
    cbn [mbind result_bind fst]; [|exact Hinv].
  apply (stock_non_negative_same_products db1); [reflexivity|].
  eapply reverse_purchase_on_delete_stock; [exact E | exact Hinv].
Qed.

Lemma perform_stock o db :
  stock_non_negative db -> stock_non_negative (perform o db).
Proof.
  destruct o; cbn [perform].
  - apply receive_stock.
  - apply SaleItemViewSet_create_stock.
  - apply SaleItem_save_stock.
  - apply SaleItemViewSet_destroy_stock.
  - apply PurchaseViewSet_destroy_stock.
  - apply Purchase_save_stock.
  - intros H. exact H.
Qed.

(** C2: from a database in which every product has a non-negative stock,
    any sequence of purchase receipts, sale-line creations (through the API
    or by a model-level save), sale-line deletions, purchase deletions and
    purchase saves leaves every product with a non-negative stock. *)
Theorem C2_stock_never_negative (ops : list operation) (db : DB) :
  stock_non_negative db -> stock_non_negative (run ops db).
Proof.
  revert db. induction ops as [|o rest IH]; intros db Hinv; cbn [run fold_left].
  - exact Hinv.
  - apply IH. now apply perform_stock.
Qed.

Lemma C2_stock_never_negative_witness :
  stock_non_negative
    (run [OpCreateSaleItem 1 1 7 20; OpDeleteSaleItem 3; OpCreateSaleItem 1 1 20 20]
         fifo_db).
Proof.
  apply C2_stock_never_negative.
  intros k p H. cbn [fifo_db products] in H.
  apply lookup_singleton_Some in H. destruct H as [_ <-].
  vm_compute. discriminate.
Defined.


(** ** Rejection of a sale line that exceeds the stock *)

Lemma calculate_fifo_cost_fields instance db i :
  calculate_fifo_cost instance db = Ok i ->
  SaleItem.pk i = SaleItem.pk instance
  /\ SaleItem.sale i = SaleItem.sale instance
  /\ SaleItem.product i = SaleItem.product instance
  /\ SaleItem.quantity i = SaleItem.quantity instance.
Proof.
  unfold calculate_fifo_cost.
  destruct (is_some (SaleItem.pk instance)); [now intros [= <-]|].
  destruct (Qgtb (SaleItem.unit_cost instance) 0); [now intros [= <-]|].
  destruct (get_product _ db) as [product|e]; [|discriminate].
  cbn [mbind result_bind].
  destruct (fifo_layers _ db) as [|l rest]; [now intros [= <-]|].
  destruct (fifo_cost_loop _ _ _) as [r t].
  destruct (Qeqb _ 0); [discriminate|]. now intros [= <-].
Qed.

Lemma post_save_insufficient_stock instance db p :
  products db !! SaleItem.product instance = Some p ->
  Product.current_stock p < SaleItem.quantity instance ->
  update_inventory_and_cost_layers instance true db
  = (db, Raise (InsufficientStock (Product.current_stock p) (SaleItem.quantity instance))).
Proof.
  intros Hp Hlt. unfold update_inventory_and_cost_layers, atomic, get_product.
  cbn [negb]. rewrite Hp. cbn [mbind result_bind].
  apply Qltb_lt in Hlt. rewrite Hlt. reflexivity.
Qed.

Lemma SaleItem_write_tables instance db :
  products (fst (SaleItem_write instance db)) = products db
  /\ cost_layers (fst (SaleItem_write instance db)) = cost_layers db
  /\ transactions (fst (SaleItem_write instance db)) = transactions db.
Proof.
  unfold SaleItem_write. destruct (SaleItem.pk instance) as [k|];
    [destruct (sale_item_exists k db)|]; auto.
Qed.

Lemma SaleItem_write_fields instance db :
  SaleItem.product (snd (SaleItem_write instance db)) = SaleItem.product instance
  /\ SaleItem.quantity (snd (SaleItem_write instance db)) = SaleItem.quantity instance.
Proof.
  unfold SaleItem_write. destruct (SaleItem.pk instance) as [k|];
    [destruct (sale_item_exists k db)|]; auto.
Qed.

(** C7: a new sale line whose quantity exceeds the product's stock is
    rejected with an insufficient-stock error that carries the available and
    the requested quantity, by the API view (HTTP 400, database unchanged)
    and by the post_save handler (ValueError, database unchanged); a
    model-level save of such a line raises and leaves the product rows, the
    cost layers and the ledger as they were. *)
Theorem C7_insufficient_stock_rejected
    (db : DB) (p : Product.t) (sale product : Z) (quantity unit_price : Q) :
  products db !! product = Some p ->
  Product.current_stock p < quantity ->
  SaleItemViewSet_create sale product quantity unit_price db
  = (db, HTTP_400 (ErrInsufficientStock (Product.current_stock p) quantity))
  /\ (forall instance,
        SaleItem.product instance = product ->
        SaleItem.quantity instance = quantity ->
        update_inventory_and_cost_layers instance true db
        = (db, Raise (InsufficientStock (Product.current_stock p) quantity)))
  /\ (forall instance,
        SaleItem.pk instance = None ->
        SaleItem.product instance = product ->
        SaleItem.quantity instance = quantity ->
        exists db' e,
          SaleItem_save instance db = (db', Raise e)
          /\ products db' = products db
          /\ cost_layers db' = cost_layers db
          /\ transactions db' = transactions db
          /\ (~ quantity == 0 ->
              e = InsufficientStock (Product.current_stock p) quantity)).
Proof.
  intros Hp Hlt. split; [|split].
  - unfold SaleItemViewSet_create. rewrite Hp.
    apply Qltb_lt in Hlt. unfold Qgtb. rewrite Hlt. reflexivity.
  - intros instance <- <-. now apply post_save_insufficient_stock.
  - intros instance Hpk <- <-. unfold SaleItem_save.
    destruct (calculate_fifo_cost instance db) as [i|e] eqn:Epre.
    + destruct (calculate_fifo_cost_fields _ _ _ Epre) as (Hipk & _ & Hiprod & Hiq).
      destruct (SaleItem_write_tables i db) as (T1 & T2 & T3).
      destruct (SaleItem_write_fields i db) as (F1 & F2).
      destruct (SaleItem_write i db) as [db1 i1]. cbn [fst snd] in *.
      unfold SaleItem_inserts. rewrite Hipk, Hpk.
      rewrite (post_save_insufficient_stock i1 db1 p).
      * eexists _, _. split; [reflexivity|].
        repeat split; try assumption. intros _. now rewrite F2, Hiq.
      * now rewrite T1, F1, Hiprod.
      * now rewrite F2, Hiq.
    + eexists _, _. split; [reflexivity|]. repeat split.
      intros Hne. exfalso. revert Epre. unfold calculate_fifo_cost, get_product.
      rewrite Hpk, Hp. cbn [is_some mbind result_bind].
      destruct (Qgtb _ 0); [discriminate|].
      destruct (fifo_layers _ db); [discriminate|].
      destruct (fifo_cost_loop _ _ _) as [r0 t0].
      destruct (Qeqb (SaleItem.quantity instance) 0) eqn:E; [|discriminate].
      apply Qeqb_eq in E. contradiction.
Qed.

Lemma C7_insufficient_stock_rejected_witness :
  SaleItemViewSet_create 1 1 11 20 fifo_db
  = (fifo_db, HTTP_400 (ErrInsufficientStock 10 11)).
Proof.
  exact (proj1 (C7_insufficient_stock_rejected fifo_db product_P1 1 1 11 20
                  eq_refl eq_refl)).
Defined.


(** ** Average cost *)

Lemma sum_Q_non_negative (f : CostLayer.t -> Q) layers :
  Forall (fun l => 0 <= f l) layers -> 0 <= sum_Q (map f layers).
Proof.
  induction 1 as [|l rest Hl _ IH]; simpl; lra.
Qed.

Lemma layers_of_product_non_negative pid db :
  layers_non_negative db ->
  Forall (fun l => 0 <= CostLayer.quantity_remaining l) (layers_of_product pid db).
Proof.
  unfold layers_non_negative, layers_of_product. intros H.
  apply List.Forall_forall. intros l Hl. apply filter_In in Hl.
  exact (proj1 (List.Forall_forall _ _) H l (proj1 Hl)).
Qed.

(** What [update_average_cost] establishes for the product it is called on. *)
Lemma update_average_cost_up_to_date self db :
  average_cost_up_to_date (Product.id self) (fst (update_average_cost self db)).
Proof.
  intros p. unfold update_average_cost, total_remaining, total_value.
  assert (Hsame : forall self', layers_of_product (Product.id self)
                                  (Product_save_average_cost self' db)
                                = layers_of_product (Product.id self) db)
    by reflexivity.
  cbn [fst]. rewrite Hsame.
  set (ls := layers_of_product (Product.id self) db) in *.
  unfold Product_save_average_cost. cbn [products set_products].
  destruct (Qgtb (sum_Q (map CostLayer.quantity_remaining ls)) 0) eqn:E;
    cbn [Product.id Product.average_cost Product.set_average_cost];
    rewrite lookup_alter_eq;
    (destruct (products db !! Product.id self) as [row|]; [|discriminate]);
    cbn [fmap option_fmap option_map]; intros [= <-];
    cbn [Product.average_cost Product.set_average_cost]; reflexivity.
Qed.

(** C3 at a sale: [fifo_db] satisfies the average-cost relation (5 units at
    $5 and 5 units at $6, average $5.50); the sale of 5 units empties the
    oldest layer and leaves the stored average at $5.50, so that
    [average_cost * remaining] is 27.50 against a layer value of 30. *)
Theorem C3_average_cost_stale_after_sale :
  average_cost_consistent 1 fifo_db
  /\ let db' := perform (OpCreateSaleItem 1 1 5 20) fifo_db in
     (exists p, products db' !! 1%Z = Some p
                /\ Product.average_cost p == 11 # 2
                /\ total_remaining 1 db' == 5
                /\ total_value 1 db' == 30
                /\ total_value 1 db'
                   - Product.average_cost p * total_remaining 1 db' == 5 # 2)
     /\ ~ average_cost_consistent 1 db'.
Proof.
  split.
  - intros p Hp. vm_compute in Hp. injection Hp as <-.
    split; [reflexivity|]. intros H. vm_compute in H. discriminate.
  - cbv zeta. split.
    + eexists. split; [vm_compute; reflexivity|].
      repeat split; vm_compute; reflexivity.
    + intros H. destruct (H (Product.mk 1 5 (11 # 2) 6 None)) as [H1 _].
      * vm_compute. reflexivity.
      * vm_compute in H1. discriminate.
Qed.


(** ** Logistics allocation *)

Lemma layer_key_unique ls a b :
  NoDup (map CostLayer.id ls) -> In a ls -> In b ls ->
  CostLayer.id a = CostLayer.id b -> a = b.
Proof.
  induction ls as [|x rest IH]; simpl; intros Hnd Ha Hb Hid; [contradiction|].
  apply NoDup_cons in Hnd. destruct Hnd as [Hx Hrest].
  destruct Ha as [->|Ha], Hb as [->|Hb].
  - reflexivity.
  - exfalso. apply Hx, list_elem_of_In. rewrite Hid. now apply in_map.
  - exfalso. apply Hx, list_elem_of_In. rewrite <- Hid. now apply in_map.
  - now apply IH.
Qed.

Lemma cost_layers_CostLayer_save l' db :
  cost_layers (CostLayer_save l' db)
  = map (fun row => if Z.eqb (CostLayer.id row) (CostLayer.id l') then l' else row)
        (cost_layers db).
Proof. reflexivity. Qed.

Lemma Qeqb_false x y : ~ x == y -> Qeqb x y = false.
Proof.
  intros H. destruct (Qeqb x y) eqn:E; [|reflexivity]. apply Qeqb_eq in E. contradiction.
Qed.

(** A purchase with a non-zero product cost has a line, and the loop of
    the allocation raises on its first line. *)
Lemma allocate_logistics_costs_raises self s t db :
  Purchase.real_shipping self = Some s ->
  Purchase.real_taxes self = Some t ->
  ~ s + t == 0 ->
  ~ product_cost self db == 0 ->
  allocate_logistics_costs self db = (db, Raise AttributeError).
Proof.
  intros Hs Ht Hl Hpc. unfold allocate_logistics_costs.
  rewrite Hs, Ht, (Qeqb_false _ _ Hl), (Qeqb_false _ _ Hpc).
  unfold product_cost in Hpc.
  destruct (items_all (Purchase.id self) db) as [|item rest]; [|reflexivity].
  exfalso. apply Hpc. reflexivity.
Qed.

(** Saving a received purchase whose real costs are entered for the first
    time: the row is written, then the allocation raises. *)
Lemma Purchase_save_invoice (self old : Purchase.t) (s t : Q) (db : DB) :
  purchases db !! Purchase.id self = Some old ->
  Purchase.real_shipping old = None \/ Purchase.real_taxes old = None ->
  Purchase.real_shipping self = Some s ->
  Purchase.real_taxes self = Some t ->
  is_received (Purchase.status self) = true ->
  ~ s + t == 0 ->
  ~ product_cost self db == 0 ->
  Purchase_save self db
  = (set_purchases (<[Purchase.id self := self]> (purchases db)) db,
     Raise AttributeError).
Proof.
  intros Hold Hmissing Hs Ht Hrecv Hl Hpc.
  unfold Purchase_save. rewrite Hold, Hs, Ht, Hrecv. cbn [is_some andb].
  assert (Hadded : negb (is_some (Purchase.real_shipping old))
                   || negb (is_some (Purchase.real_taxes old)) = true).
  { destruct Hmissing as [-> | ->]; cbn [is_some negb]; [reflexivity|].
    apply orb_true_r. }
  rewrite Hadded. cbn [andb].
  rewrite (allocate_logistics_costs_raises self s t _ Hs Ht Hl); [reflexivity|].
  exact Hpc.
Qed.

(** C4: the allocation that the claim describes is never carried out.  For
    every purchase with both real costs set, a non-zero logistics cost and
    a non-zero product cost, [allocate_logistics_costs] raises
    [AttributeError] on its first line and changes nothing; [Purchase.save]
    of a received purchase whose real costs are entered for the first time
    writes the purchase row and then raises.  In the claim's example (lines
    of $100 and $300, $40 of logistics, [spec_logistics_per_unit] $1 and $3
    per unit) the layers of both lines keep [allocated_logistics_per_unit =
    0], [unit_cost = base_unit_cost] and [logistics_allocated = false]. *)
Theorem C4_allocation_raises (self old : Purchase.t) (s t : Q) (db : DB) :
  Purchase.real_shipping self = Some s ->
  Purchase.real_taxes self = Some t ->
  ~ s + t == 0 ->
  ~ product_cost self db == 0 ->
  allocate_logistics_costs self db = (db, Raise AttributeError)
  /\ (purchases db !! Purchase.id self = Some old ->
      Purchase.real_shipping old = None \/ Purchase.real_taxes old = None ->
      is_received (Purchase.status self) = true ->
      Purchase_save self db
      = (set_purchases (<[Purchase.id self := self]> (purchases db)) db,
         Raise AttributeError))
  /\ (let lines := [line_1; line_2] in
      spec_logistics_per_unit lines line_1 40 * PurchaseItem.quantity line_1 == 10
      /\ spec_logistics_per_unit lines line_2 40 * PurchaseItem.quantity line_2 == 30
      /\ snd (Purchase_save invoiced_purchase (received_db lines))
         = Raise AttributeError
      /\ cost_layers (invoiced_db lines) = cost_layers (received_db lines)
      /\ exists l1 l2,
           layers_of_lines lines (invoiced_db lines) = [l1; l2]
           /\ CostLayer.purchase_item l1 = Some (PurchaseItem.id line_1)
           /\ CostLayer.purchase_item l2 = Some (PurchaseItem.id line_2)
           /\ allocated_logistics_total l1 == 0
           /\ allocated_logistics_total l2 == 0
           /\ CostLayer.unit_cost l1 == 10 /\ CostLayer.unit_cost l2 == 30
           /\ CostLayer.logistics_allocated l1 = false
           /\ CostLayer.logistics_allocated l2 = false).
Proof.
  intros Hs Ht Hl Hpc.
  split; [now apply (allocate_logistics_costs_raises self s t)|].
  split.
  { intros Hold Hmissing Hrecv.
    now apply (Purchase_save_invoice self old s t). }
  cbv zeta. split; [vm_compute; reflexivity|]. split; [vm_compute; reflexivity|].
  split; [vm_compute; reflexivity|]. split; [vm_compute; reflexivity|].
  eexists _, _. split; [vm_compute; reflexivity|].
  repeat split; vm_compute; reflexivity.
Qed.

Lemma C4_allocation_raises_witness :
  allocate_logistics_costs invoiced_purchase (received_db [line_1; line_2])
  = (received_db [line_1; line_2], Raise AttributeError).
Proof.
  refine (proj1 (C4_allocation_raises invoiced_purchase pending_purchase 25 15
                   (received_db [line_1; line_2]) eq_refl eq_refl _ _)).
  - vm_compute. discriminate.
  - vm_compute. discriminate.
Defined.


(** ** The base of the proportional allocation *)

Lemma sum_Q_total_price lines :
  sum_Q (map PurchaseItem.total_price lines)
  == spec_total_product_cost lines - sum_Q (map PurchaseItem.discount lines).
Proof.
  unfold spec_total_product_cost.
  induction lines as [|i rest IH]; simpl.
  - ring.
  - rewrite IH. unfold PurchaseItem.total_price. ring.
Qed.

(** [product_cost] is the specification's base minus the discounts. *)
Lemma product_cost_discounts self db :
  product_cost self db
  == spec_total_product_cost (items_all (Purchase.id self) db)
     - sum_Q (map PurchaseItem.discount (items_all (Purchase.id self) db)).
Proof. unfold product_cost. apply sum_Q_total_price. Qed.



(** ** Reversal of a purchase *)

(** The stock written by the reversal loop is clamped, so the loop never
    fails on the stock constraint. *)
Lemma reverse_items_succeeds items_data db :
  exists db', reverse_items items_data db = Ok db'.
Proof.
  revert db. induction items_data as [|[[product q] item_id] rest IH]; intros db;
    cbn [reverse_items].
  - now exists db.
  - set (p1 := Product.set_current_stock (Product.current_stock product - q) product).
    assert (Hsave : exists db1,
               Product_save (if Qltb (Product.current_stock p1) 0
                             then Product.set_current_stock 0 p1 else p1) db = Ok db1).
    { unfold Product_save. destruct (Qltb (Product.current_stock p1) 0) eqn:E.
      - cbn [Product.current_stock Product.set_current_stock]. eexists. reflexivity.
      - rewrite E. eexists. reflexivity. }
    destruct Hsave as [db1 ->]. cbn [mbind result_bind].
    destruct (update_average_cost _ _) as [db2 p2]. apply IH.
Qed.

(** Every layer of a reversed line is deleted, whatever is left in it, and
    no other layer is. *)
Lemma reverse_items_layers items_data db db' :
  reverse_items items_data db = Ok db' ->
  forall l, In l (cost_layers db') <->
            In l (cost_layers db)
            /\ forall d, In d items_data -> CostLayer.purchase_item l <> Some (snd d).
Proof.
  revert db. induction items_data as [|[[product q] item_id] rest IH]; intros db;
    cbn [reverse_items].
  - intros [= <-] l. split; [intros H; split; [exact H | intros d []]|tauto].
  - destruct (Product_save _ db) as [db1|e] eqn:Esave; [|discriminate].
    cbn [mbind result_bind].
    assert (Hl1 : cost_layers db1 = cost_layers db).
    { revert Esave. unfold Product_save. destruct (Qltb _ 0); [discriminate|].
      now intros [= <-]. }
    match goal with
    | |- context [update_average_cost ?p ?d] =>
        assert (Hl2 : cost_layers (fst (update_average_cost p d)) = cost_layers d)
          by reflexivity;
        destruct (update_average_cost p d) as [db2 p2]
    end.
    cbn [fst cost_layers set_cost_layers] in Hl2.
    intros H l. rewrite (IH _ H l), Hl2, filter_In, Hl1.
    rewrite negb_true_iff, bool_decide_eq_false. split.
    + intros [[Hin Hne] Hrest]. split; [exact Hin|].
      intros d [<-|Hd]; [exact Hne | now apply Hrest].
    + intros [Hin Hall]. split; [split; [exact Hin|]|].
      * apply (Hall (product, q, item_id)). now left.
      * intros d Hd. apply Hall. now right.
Qed.

(** For two lines of different products, receiving and deleting the
    purchase restores both stocks and leaves no layer of the purchase. *)
Lemma reversal_round_trip_distinct_products :
  let before := purchase_db [line_1; line_2] in
  let after := perform (OpDeletePurchase 10) (received_db [line_1; line_2]) in
  stock_of 1 (received_db [line_1; line_2]) = Some 10
  /\ stock_of 1 after = stock_of 1 before
  /\ stock_of 2 after = stock_of 2 before
  /\ layers_of_lines [line_1; line_2] after = [].
Proof. repeat split; vm_compute; reflexivity. Qed.

(** C8 at two lines of one product: product 1 has no stock, the purchase
    of 3 + 4 units is received (stock 7) and then deleted.  Both lines are
    reversed from the stock read before the loop, 7 - 3 and 7 - 4, and the
    second write wins: the stock ends at 3 instead of 0.  The layers of both
    lines are deleted. *)
Theorem C8_reversal_of_two_lines_of_one_product :
  let before := purchase_db [line_a; line_b] in
  let received := received_db [line_a; line_b] in
  let after := perform (OpDeletePurchase 10) received in
  stock_of 1 before = Some 0
  /\ stock_of 1 received = Some 7
  /\ length (layers_of_lines [line_a; line_b] received) = 2%nat
  /\ snd (PurchaseViewSet_destroy 10 received) = HTTP_204
  /\ stock_of 1 after = Some 3
  /\ stock_of 1 after <> stock_of 1 before
  /\ layers_of_lines [line_a; line_b] after = [].
Proof.
  cbv zeta. repeat split; try (vm_compute; reflexivity).
  vm_compute. discriminate.
Qed.


(** ** Consumption of the layers by a sale *)

Lemma spec_remaining_total rs q :
  Forall (fun r => 0 < r) rs -> 0 <= q ->
  sum_Q (spec_remaining rs q) == sum_Q rs - Qmin q (sum_Q rs).
Proof.
  intros Hrs. revert q. induction Hrs as [|r rest Hr Hrest IH]; intros q Hq;
    cbn [spec_remaining sum_Q].
  - rewrite Q.min_r by lra. ring.
  - assert (Hsum : 0 <= sum_Q rest).
    { clear -Hrest. induction Hrest; simpl; lra. }
    destruct (Q.min_spec q r) as [[Hlt Hm]|[Hle Hm]].
    + rewrite IH by lra.
      assert (E1 : Qmin (q - Qmin q r) (sum_Q rest) == 0).
      { rewrite Q.min_l by lra. lra. }
      assert (E2 : Qmin q (r + sum_Q rest) == q).
      { apply Q.min_l. lra. }
      rewrite E1, E2, Hm. ring.
    + rewrite IH by lra.
      destruct (Q.min_spec (q - Qmin q r) (sum_Q rest)) as [[Hlt' Hm']|[Hle' Hm']];
      destruct (Q.min_spec q (r + sum_Q rest)) as [[Hlt2 Hm2]|[Hle2 Hm2]];
        rewrite Hm', Hm2; rewrite ?Hm in *; lra.
Qed.

Lemma layer_by_id_In db l :
  layer_ids_unique db -> In l (cost_layers db) -> layer_by_id (CostLayer.id l) db = Some l.
Proof.
  unfold layer_ids_unique, layer_by_id.
  induction (cost_layers db) as [|row rest IH]; cbn [map List.find]; intros Hnd Hin;
    [contradiction|].
  destruct (Z.eqb_spec (CostLayer.id row) (CostLayer.id l)) as [Heq|Hne].
  - f_equal. apply (layer_key_unique (row :: rest)); auto. now left.
  - destruct Hin as [->|Hin]; [contradiction|].
    apply IH; [|exact Hin]. now apply NoDup_cons in Hnd.
Qed.

Lemma layer_by_id_save_other k l' db :
  k <> CostLayer.id l' ->
  layer_by_id k (CostLayer_save l' db) = layer_by_id k db.
Proof.
  intros Hk. unfold layer_by_id. rewrite cost_layers_CostLayer_save.
  induction (cost_layers db) as [|row rest IH]; cbn [map List.find]; [reflexivity|].
  destruct (Z.eqb_spec (CostLayer.id row) (CostLayer.id l')) as [Heq|Hne].
  - destruct (Z.eqb_spec (CostLayer.id l') k); [congruence|].
    destruct (Z.eqb_spec (CostLayer.id row) k); [congruence|]. exact IH.
  - destruct (CostLayer.id row =? k)%Z; [reflexivity | exact IH].
Qed.

Lemma layer_by_id_save_same l l' db :
  In l (cost_layers db) -> CostLayer.id l' = CostLayer.id l ->
  layer_by_id (CostLayer.id l) (CostLayer_save l' db) = Some l'.
Proof.
  intros Hin Hid. unfold layer_by_id. rewrite cost_layers_CostLayer_save, <- Hid.
  induction (cost_layers db) as [|row rest IH]; cbn [map List.find]; [contradiction|].
  destruct (Z.eqb_spec (CostLayer.id row) (CostLayer.id l')) as [Heq|Hne].
  - now rewrite Z.eqb_refl.
  - destruct (Z.eqb_spec (CostLayer.id row) (CostLayer.id l')); [contradiction|].
    destruct Hin as [->|Hin]; [congruence|]. now apply IH.
Qed.

Lemma In_CostLayer_save_other l l' db :
  In l (cost_layers db) -> CostLayer.id l <> CostLayer.id l' ->
  In l (cost_layers (CostLayer_save l' db)).
Proof.
  intros Hin Hne. rewrite cost_layers_CostLayer_save. apply in_map_iff.
  exists l. split; [|exact Hin].
  destruct (Z.eqb_spec (CostLayer.id l) (CostLayer.id l')); [contradiction|reflexivity].
Qed.

Lemma CostLayer_save_ids l' db :
  map CostLayer.id (cost_layers (CostLayer_save l' db)) = map CostLayer.id (cost_layers db).
Proof.
  rewrite cost_layers_CostLayer_save, map_map. apply map_ext. intros row.
  destruct (Z.eqb_spec (CostLayer.id row) (CostLayer.id l')); congruence.
Qed.

Lemma consume_layers_other k layers rem db :
  (forall l, In l layers -> CostLayer.id l <> k) ->
  layer_by_id k (consume_layers layers rem db) = layer_by_id k db.
Proof.
  revert rem db. induction layers as [|l rest IH]; intros rem db Hk;
    cbn [consume_layers]; [reflexivity|].
  destruct (Qleb rem 0); [reflexivity|].
  rewrite IH by (intros x Hx; apply Hk; now right).
  apply layer_by_id_save_other. cbn. intros ->. now apply (Hk l); [left|].
Qed.

Lemma set_quantity_remaining_same l :
  CostLayer.set_quantity_remaining (CostLayer.quantity_remaining l) l = l.
Proof. now destruct l. Qed.

Lemma spec_remaining_nothing_needed layers needed :
  all_positive layers -> needed == 0 ->
  Forall2 (fun l r' => CostLayer.quantity_remaining l == r') layers
    (spec_remaining (map CostLayer.quantity_remaining layers) needed).
Proof.
  intros Hpos. revert needed. induction Hpos as [|l rest Hl _ IH]; intros needed Hn;
    cbn [map spec_remaining]; constructor.
  - rewrite Q.min_l by lra. lra.
  - apply IH. rewrite Q.min_l by lra. lra.
Qed.

(** The rows of the FIFO layers after the loop: each holds what the
    specification's consumption leaves in it. *)
Lemma consume_layers_rows layers :
  all_positive layers ->
  forall rem rem' db,
  0 <= rem -> rem == rem' ->
  NoDup (map CostLayer.id layers) ->
  (forall l, In l layers -> In l (cost_layers db)) ->
  layer_ids_unique db ->
  Forall2 (fun l r' =>
             exists l', layer_by_id (CostLayer.id l) (consume_layers layers rem db) = Some l'
                        /\ l' = CostLayer.set_quantity_remaining
                                  (CostLayer.quantity_remaining l') l
                        /\ CostLayer.quantity_remaining l' == r')
          layers (spec_remaining (map CostLayer.quantity_remaining layers) rem').
Proof.
  induction 1 as [|l rest Hl Hrest IH]; intros rem rem' db Hrem Heq Hnd Hin Huniq;
    [constructor|].
  cbn [consume_layers].
  destruct (Qleb rem 0) eqn:E.
  - apply Qle_bool_iff in E.
    assert (Hz : rem' == 0) by lra.
    assert (Hpos : all_positive (l :: rest)) by (constructor; assumption).
    pose proof (spec_remaining_nothing_needed (l :: rest) rem' Hpos Hz) as Hspec.
    assert (Hall : Forall (fun x => In x (cost_layers db)) (l :: rest))
      by (apply List.Forall_forall; exact Hin).
    clear -Hspec Hall Huniq.
    induction Hspec as [|x r xs rs Hx _ IHs]; constructor.
    + exists x. split; [apply layer_by_id_In; [exact Huniq|]|].
      * now apply Forall_inv in Hall.
      * split; [symmetry; apply set_quantity_remaining_same | exact Hx].
    + apply IHs. now apply Forall_inv_tail in Hall.
  - cbn [map spec_remaining].
    pose proof (py_min_spec rem (CostLayer.quantity_remaining l)) as Hpm.
    set (t := py_min rem (CostLayer.quantity_remaining l)) in *.
    set (l0 := CostLayer.set_quantity_remaining (CostLayer.quantity_remaining l - t) l).
    assert (Ht : t <= rem) by (rewrite Hpm; apply Q.le_min_l).
    assert (Hmin : Qmin rem' (CostLayer.quantity_remaining l) == t).
    { rewrite Hpm, Heq. reflexivity. }
    apply NoDup_cons in Hnd. destruct Hnd as [Hnotin Hnd].
    assert (Hother : forall x, In x rest -> CostLayer.id x <> CostLayer.id l).
    { intros x Hx Hid. apply Hnotin, list_elem_of_In. rewrite <- Hid.
      now apply in_map. }
    constructor.
    + exists l0. split; [|split].
      * rewrite consume_layers_other by exact Hother.
        apply layer_by_id_save_same; [apply Hin; now left | reflexivity].
      * reflexivity.
      * cbn. rewrite Hmin. reflexivity.
    + apply IH.
      * lra.
      * rewrite Hmin, Heq. reflexivity.
      * exact Hnd.
      * intros x Hx. apply In_CostLayer_save_other; [apply Hin; now right|].
        now apply Hother.
      * unfold layer_ids_unique. rewrite CostLayer_save_ids. exact Huniq.
Qed.

Lemma NoDup_ids_filter (f : CostLayer.t -> bool) rows :
  NoDup (map CostLayer.id rows) -> NoDup (map CostLayer.id (List.filter f rows)).
Proof.
  induction rows as [|row rest IH]; cbn [map List.filter]; intros Hnd; [constructor|].
  apply NoDup_cons in Hnd. destruct Hnd as [Hnotin Hnd].
  destruct (f row); [|now apply IH].
  cbn [map]. apply NoDup_cons. split; [|now apply IH].
  intros Hin. apply Hnotin. apply list_elem_of_In in Hin. apply list_elem_of_In.
  apply in_map_iff in Hin. destruct Hin as (x & Hx & Hin).
  apply filter_In in Hin. apply in_map_iff. exists x. tauto.
Qed.

Lemma fifo_layers_ids_unique pid db :
  layer_ids_unique db -> NoDup (map CostLayer.id (fifo_layers pid db)).
Proof.
  intros Hnd. unfold fifo_layers. apply NoDup_ListNoDup.
  eapply Permutation_NoDup.
  - apply Permutation_map. symmetry. apply order_by_created_at_perm.
  - apply NoDup_ListNoDup. now apply NoDup_ids_filter.
Qed.

Lemma update_inventory_ignores_unit_cost c instance created db :
  update_inventory_and_cost_layers (SaleItem.set_unit_cost c instance) created db
  = update_inventory_and_cost_layers instance created db.
Proof. reflexivity. Qed.

(** C10, as amended: a new sale line with a pre-set positive cost keeps
    that cost; when the stock covers its quantity [q > 0] the commit lowers
    the stock by [q] and consumes the product's layers oldest first exactly as
    the specification's FIFO consumption of [q] does: layer by layer
    [min(remaining_needed, quantity_remaining)], in total [min(q, sum of the
    remaining quantities)]; other layers are untouched, and the handler
    does not read the unit cost. *)
Theorem C10_preset_cost_still_consumes
    (instance : SaleItem.t) (p : Product.t) (db : DB) :
  layer_ids_unique db ->
  SaleItem.pk instance = None ->
  0 < SaleItem.unit_cost instance ->
  products db !! SaleItem.product instance = Some p ->
  0 < SaleItem.quantity instance ->
  SaleItem.quantity instance <= Product.current_stock p ->
  let q := SaleItem.quantity instance in
  let layers := fifo_layers (Product.id p) db in
  let remaining := map CostLayer.quantity_remaining layers in
  calculate_fifo_cost instance db = Ok instance
  /\ (exists db' line,
        SaleItem_save instance db = (db', Ok line)
        /\ SaleItem.unit_cost line = SaleItem.unit_cost instance
        /\ products db'
           = <[Product.id p :=
                 Product.set_current_stock (Product.current_stock p - q) p]>
               (products db)
        /\ Forall2 (fun l r' =>
                      exists l', layer_by_id (CostLayer.id l) db' = Some l'
                                 /\ l' = CostLayer.set_quantity_remaining
                                           (CostLayer.quantity_remaining l') l
                                 /\ CostLayer.quantity_remaining l' == r')
                   layers (spec_remaining remaining q)
        /\ (forall k, (forall l, In l layers -> CostLayer.id l <> k) ->
                      layer_by_id k db' = layer_by_id k db))
  /\ StronglySorted oldest_first layers
  /\ sum_Q (spec_remaining remaining q) == sum_Q remaining - Qmin q (sum_Q remaining)
  /\ (forall c created,
        update_inventory_and_cost_layers (SaleItem.set_unit_cost c instance) created db
        = update_inventory_and_cost_layers instance created db).
Proof.
  intros Huniq Hpk Hcost Hp Hq Hstock q layers remaining.
  assert (Hpre : calculate_fifo_cost instance db = Ok instance).
  { unfold calculate_fifo_cost. rewrite Hpk. cbn [is_some].
    apply Qltb_lt in Hcost. unfold Qgtb. now rewrite Hcost. }
  split; [exact Hpre|]. split; [|split; [|split]].
  - unfold SaleItem_save. rewrite Hpre.
    unfold SaleItem_inserts, SaleItem_write. rewrite Hpk.
    unfold update_inventory_and_cost_layers, atomic, get_product.
    cbn [negb products SaleItem.product SaleItem.set_pk SaleItem.quantity].
    rewrite Hp. cbn [mbind result_bind].
    assert (Hge : Qltb (Product.current_stock p) (SaleItem.quantity instance) = false)
      by now apply Qltb_ge.
    rewrite Hge.
    unfold Product_save.
    cbn [Product.current_stock Product.set_current_stock Product.id].
    assert (Hnn : Qltb (Product.current_stock p - SaleItem.quantity instance) 0 = false)
      by (apply Qltb_ge; lra).
    rewrite Hnn. cbn [mbind result_bind].
    eexists _, _. split; [reflexivity|].
    split; [reflexivity|].
    cbn [products set_products InventoryTransaction_create set_transactions].
    split; [now rewrite consume_layers_products|].
    split.
    + unfold layer_by_id.
      cbn [cost_layers set_products InventoryTransaction_create set_transactions].
      apply (consume_layers_rows layers (fifo_layers_positive _ _) q q _
               (Qlt_le_weak _ _ Hq) (Qeq_refl q)).
      * now apply fifo_layers_ids_unique.
      * intros l Hl. now apply fifo_layers_In in Hl.
      * exact Huniq.
    + intros k Hk. unfold layer_by_id at 1.
      cbn [cost_layers set_products InventoryTransaction_create set_transactions].
      exact (consume_layers_other k layers q _ Hk).
  - apply order_by_created_at_sorted.
  - apply spec_remaining_total; [|exact (Qlt_le_weak _ _ Hq)].
    apply List.Forall_forall. intros r Hr. apply in_map_iff in Hr.
    destruct Hr as (l & <- & Hl). now apply fifo_layers_In in Hl.
  - intros c created. apply update_inventory_ignores_unit_cost.
Qed.

Lemma C10_preset_cost_still_consumes_witness :
  calculate_fifo_cost (SaleItem.mk None 1 1 7 20 9) fifo_db
  = Ok (SaleItem.mk None 1 1 7 20 9).
Proof.
  refine (proj1 (C10_preset_cost_still_consumes (SaleItem.mk None 1 1 7 20 9)
                   product_P1 fifo_db _ eq_refl eq_refl eq_refl eq_refl _)).
  - apply (bool_decide_unpack _). vm_compute. reflexivity.
  - vm_compute. discriminate.
Defined.

(** The claim as stated fails when the layers hold less than the line asks
    for: product 1 has 10 units in stock and one layer with 2 units left;
    the line of 5 units with a pre-set cost is committed, the stock drops by
    5, and the layers are decremented by 2 in total, not by 5. *)
Lemma C10_layers_short_counterexample :
  exists db' line,
    SaleItem_save preset_line short_db = (db', Ok line)
    /\ SaleItem.unit_cost line = 9
    /\ stock_of 1 short_db = Some 10
    /\ stock_of 1 db' = Some 5
    /\ total_remaining 1 short_db - total_remaining 1 db' == 2
    /\ ~ total_remaining 1 short_db - total_remaining 1 db'
         == SaleItem.quantity preset_line.
Proof.
  eexists _, _. split; [vm_compute; reflexivity|].
  repeat split; try (vm_compute; reflexivity).
  vm_compute. discriminate.
Qed.


(** ** Receipt and reversal, line by line *)

Lemma stock_of_alter (f : Product.t -> Product.t) j k db :
  (forall p, Product.current_stock (f p) = Product.current_stock p) ->
  stock_of k (set_products (alter f j (products db)) db) = stock_of k db.
Proof.
  intros Hf. unfold stock_of. cbn [products set_products].
  destruct (decide (j = k)) as [->|Hne].
  - rewrite lookup_alter_eq. destruct (products db !! k); cbn; [now rewrite Hf|reflexivity].
  - now rewrite lookup_alter_ne.
Qed.

Lemma stock_of_update_average_cost self k db :
  stock_of k (fst (update_average_cost self db)) = stock_of k db.
Proof.
  unfold update_average_cost, Product_save_average_cost. cbn [fst].
  now apply stock_of_alter.
Qed.

Lemma alter_keys_consistent (f : Product.t -> Product.t) j db :
  (forall p, Product.id (f p) = Product.id p) ->
  product_keys_consistent db ->
  product_keys_consistent (set_products (alter f j (products db)) db).
Proof.
  intros Hf Hc k p. cbn [products set_products]. intros H.
  apply lookup_alter_Some in H. destruct H as [(-> & p0 & Hp0 & ->)|(_ & H)].
  - rewrite Hf. now apply Hc.
  - now apply Hc.
Qed.

Lemma update_average_cost_keys self db :
  product_keys_consistent db ->
  product_keys_consistent (fst (update_average_cost self db)).
Proof.
  unfold update_average_cost, Product_save_average_cost. cbn [fst].
  now apply alter_keys_consistent.
Qed.

Lemma update_average_cost_tables self db :
  purchase_items (fst (update_average_cost self db)) = purchase_items db
  /\ purchases (fst (update_average_cost self db)) = purchases db
  /\ cost_layers (fst (update_average_cost self db)) = cost_layers db.
Proof. repeat split. Qed.

Lemma Product_save_inv self db db' :
  Product_save self db = Ok db' ->
  0 <= Product.current_stock self
  /\ db' = set_products (<[Product.id self := self]> (products db)) db.
Proof.
  unfold Product_save. destruct (Qltb _ 0) eqn:E; [discriminate|].
  intros [= <-]. split; [now apply Qltb_ge|reflexivity].
Qed.

(** What a receipt does to the stock, for lines of distinct products. *)
Lemma receive_items_stock_added purchase items db db' :
  receive_items purchase items db = Ok db' ->
  product_keys_consistent db ->
  NoDup (map PurchaseItem.product items) ->
  product_keys_consistent db'
  /\ purchase_items db' = purchase_items db
  /\ purchases db' = purchases db
  /\ (forall k, ~ In k (map PurchaseItem.product items) ->
                stock_of k db' = stock_of k db)
  /\ (forall item, In item items ->
        exists s, stock_of (PurchaseItem.product item) db = Some s
                  /\ stock_of (PurchaseItem.product item) db'
                     = Some (s + PurchaseItem.quantity item)).
Proof.
  revert db. induction items as [|item rest IH]; intros db; cbn [receive_items].
  - intros [= <-] Hc _. repeat split; auto. intros item [].
  - unfold get_product.
    destruct (products db !! PurchaseItem.product item) as [product|] eqn:Hp;
      [|discriminate].
    cbn [mbind result_bind].
    destruct (Product_save _ db) as [db1|e] eqn:Esave; [|discriminate].
    cbn [mbind result_bind].
    intros H Hc Hnd. cbn [map] in Hnd. apply NoDup_cons in Hnd.
    destruct Hnd as [Hnotin Hnd].
    apply Product_save_inv in Esave. destruct Esave as [_ ->].
    pose proof (Hc _ _ Hp) as Hid.
    cbn [Product.id Product.set_current_stock Product.set_last_purchase_cost
           Product.set_last_purchase_date] in H.
    rewrite Hid in H.
    match type of H with
    | context [update_average_cost ?p ?d] =>
        pose proof (stock_of_update_average_cost p) as Hs;
        pose proof (update_average_cost_keys p d) as Hk;
        pose proof (update_average_cost_tables p d) as Ht;
        specialize (fun k => Hs k d);
        destruct (update_average_cost p d) as [db2 p2]
    end.
    cbn [fst] in Hs, Hk, Ht. destruct Ht as (Ht1 & Ht2 & _).
    apply IH in H; [|clear H|exact Hnd].
    + destruct H as (Hc' & Hi & Hpu & Hother & Hlines).
      split; [exact Hc'|]. split; [now rewrite Hi|]. split; [now rewrite Hpu|].
      assert (Hstep : forall k,
                stock_of k db2
                = if decide (PurchaseItem.product item = k)
                  then Some (Product.current_stock product + PurchaseItem.quantity item)
                  else stock_of k db).
      { intros k. rewrite Hs. unfold stock_of.
        cbn [products CostLayer_create set_products].
        rewrite lookup_insert. destruct (decide (PurchaseItem.product item = k));
          reflexivity. }
      split.
      * intros k Hk'. cbn [map] in Hk'.
        rewrite Hother by (intros Hx; apply Hk'; now right).
        change (stock_of k (InventoryTransaction_create _ _ _ _ _ db2))
          with (stock_of k db2).
        rewrite Hstep. destruct (decide _); [exfalso; apply Hk'; now left|reflexivity].
      * intros it [<-|Hit].
        -- exists (Product.current_stock product). split.
           ++ unfold stock_of. now rewrite Hp.
           ++ rewrite Hother.
              ** change (stock_of (PurchaseItem.product item)
                           (InventoryTransaction_create _ _ _ _ _ db2))
                   with (stock_of (PurchaseItem.product item) db2).
                 rewrite Hstep. now rewrite decide_True.
              ** intros Hin. apply Hnotin. now apply list_elem_of_In.
        -- destruct (Hlines it Hit) as (s & Hs1 & Hs2). exists s. split; [|exact Hs2].
           change (stock_of (PurchaseItem.product it)
                     (InventoryTransaction_create _ _ _ _ _ db2))
             with (stock_of (PurchaseItem.product it) db2) in Hs1.
           rewrite Hstep in Hs1. rewrite decide_False in Hs1; [exact Hs1|].
           intros Heq. apply Hnotin. rewrite Heq. apply list_elem_of_In.
           now apply in_map.
    + (* keys of the database after the step *)
      intros k p. cbn [products InventoryTransaction_create set_transactions].
      apply Hk. intros k' p'. cbn [products CostLayer_create set_products].
      rewrite lookup_insert. destruct (decide (PurchaseItem.product item = k')) as [<-|Hne].
      * intros [= <-]. exact Hid.
      * apply Hc.
Qed.

(** [items_data]: one entry per line, with the product row as stored when
    the list is built. *)
Lemma load_items_data_snapshots items db :
  (forall item, In item items -> is_Some (products db !! PurchaseItem.product item)) ->
  exists data,
    load_items_data items db = Ok data
    /\ Forall2 (fun item d =>
                  products db !! PurchaseItem.product item = Some (fst (fst d))
                  /\ snd (fst d) = PurchaseItem.quantity item
                  /\ snd d = PurchaseItem.id item)
               items data.
Proof.
  induction items as [|item rest IH]; intros Hex; cbn [load_items_data].
  - exists []. split; [reflexivity|constructor].
  - destruct (Hex item (or_introl eq_refl)) as [p Hp].
    destruct IH as (data & Hd & Hall); [intros i Hi; apply Hex; now right|].
    unfold get_product. rewrite Hp, Hd. cbn [mbind result_bind].
    eexists. split; [reflexivity|]. constructor; [|exact Hall]. cbn. auto.
Qed.

(** What the reversal loop writes, for snapshots of distinct products:
    the snapshot's stock minus the line's quantity, clamped at zero. *)
Lemma reverse_items_stock_removed items_data db db' :
  reverse_items items_data db = Ok db' ->
  NoDup (map (fun d => Product.id (fst (fst d))) items_data) ->
  (forall k, ~ In k (map (fun d => Product.id (fst (fst d))) items_data) ->
             stock_of k db' = stock_of k db)
  /\ (forall d, In d items_data ->
        stock_of (Product.id (fst (fst d))) db'
        = Some (clamp_at_zero (Product.current_stock (fst (fst d)) - snd (fst d)))).
Proof.
  revert db. induction items_data as [|[[product q] item_id] rest IH]; intros db;
    cbn [reverse_items].
  - intros [= <-] _. split; [reflexivity|intros d []].
  - destruct (Product_save _ db) as [db1|e] eqn:Esave; [|discriminate].
    cbn [mbind result_bind]. intros H Hnd. cbn [map fst snd] in Hnd.
    apply NoDup_cons in Hnd. destruct Hnd as [Hnotin Hnd].
    apply Product_save_inv in Esave. destruct Esave as [_ ->].
    match type of H with
    | context [update_average_cost ?p ?d] =>
        pose proof (stock_of_update_average_cost p) as Hs;
        specialize (fun k => Hs k d);
        destruct (update_average_cost p d) as [db2 p2]
    end.
    cbn [fst] in Hs.
    destruct (IH _ H Hnd) as (Hother & Hdata).
    assert (Hstep : forall k,
              stock_of k db2
              = if decide (Product.id product = k)
                then Some (clamp_at_zero (Product.current_stock product - q))
                else stock_of k db).
    { intros k. rewrite Hs. unfold stock_of, clamp_at_zero.
      cbn [products set_cost_layers set_products Product.current_stock
             Product.set_current_stock].
      destruct (Qltb (Product.current_stock product - q) 0);
        cbn [Product.id Product.set_current_stock];
        rewrite lookup_insert; destruct (decide (Product.id product = k)); reflexivity. }
    split.
    + intros k Hk. cbn [map fst snd] in Hk.
      rewrite Hother by (intros Hx; apply Hk; now right).
      rewrite Hstep. destruct (decide _); [exfalso; apply Hk; now left|reflexivity].
    + intros d [<-|Hd]; cbn [fst snd].
      * rewrite Hother by (intros Hx; apply Hnotin; now apply list_elem_of_In).
        rewrite Hstep. now rewrite decide_True.
      * now apply Hdata.
Qed.

Lemma reverse_items_tables items_data db db' :
  reverse_items items_data db = Ok db' ->
  purchase_items db' = purchase_items db /\ purchases db' = purchases db.
Proof.
  revert db. induction items_data as [|[[product q] item_id] rest IH]; intros db;
    cbn [reverse_items].
  - now intros [= <-].
  - destruct (Product_save _ db) as [db1|e] eqn:Esave; [|discriminate].
    cbn [mbind result_bind]. intros H.
    apply Product_save_inv in Esave. destruct Esave as [_ ->].
    destruct (update_average_cost _ _) as [db2 p2] eqn:E.
    apply IH in H. destruct H as [H1 H2].
    unfold update_average_cost in E. injection E as <- _. auto.
Qed.

Lemma record_reversals_succeeds instance items_data db :
  (forall d, In d items_data -> is_Some (products db !! Product.id (fst (fst d)))) ->
  exists db', record_reversals instance items_data db = Ok db'
              /\ products db' = products db
              /\ cost_layers db' = cost_layers db
              /\ purchase_items db' = purchase_items db
              /\ purchases db' = purchases db.
Proof.
  revert db. induction items_data as [|[[product q] item_id] rest IH]; intros db Hex;
    cbn [record_reversals].
  - exists db. auto.
  - destruct (Hex _ (or_introl eq_refl)) as [p Hp]. cbn [fst] in Hp.
    unfold get_product. rewrite Hp. cbn [mbind result_bind].
    destruct (IH (InventoryTransaction_create (Product.id p) TAdjustment (- q)
                    (Product.current_stock p) (Some (Purchase.id instance)) db))
      as (db' & E & H1 & H2 & H3 & H4).
    { intros d Hd. apply Hex. now right. }
    exists db'. auto.
Qed.

Lemma Forall2_In_l {A B} (R : A -> B -> Prop) xs ys x :
  Forall2 R xs ys -> In x xs -> exists y, In y ys /\ R x y.
Proof.
  induction 1 as [|a b xs ys Hab _ IH]; intros Hin; [contradiction|].
  destruct Hin as [->|Hin].
  - exists b. split; [now left|exact Hab].
  - destruct (IH Hin) as (y & Hy & Hr). exists y. split; [now right|exact Hr].
Qed.

Lemma Forall2_In_r {A B} (R : A -> B -> Prop) xs ys y :
  Forall2 R xs ys -> In y ys -> exists x, In x xs /\ R x y.
Proof.
  induction 1 as [|a b xs ys Hab _ IH]; intros Hin; [contradiction|].
  destruct Hin as [->|Hin].
  - exists a. split; [now left|exact Hab].
  - destruct (IH Hin) as (x & Hx & Hr). exists x. split; [now right|exact Hr].
Qed.

Lemma Forall2_map_eq {A B C} (f : A -> C) (g : B -> C) (R : A -> B -> Prop) xs ys :
  Forall2 R xs ys -> (forall x y, R x y -> g y = f x) -> map g ys = map f xs.
Proof.
  induction 1 as [|a b xs ys Hab _ IH]; intros Hfg; cbn [map]; [reflexivity|].
  now rewrite (Hfg _ _ Hab), IH.
Qed.

(** Saving a purchase whose real costs did not change writes the row and
    allocates nothing. *)
Lemma Purchase_save_status_only purchase status db :
  purchases db !! Purchase.id purchase = Some purchase ->
  Purchase_save (Purchase.set_status status purchase) db
  = (set_purchases
       (<[Purchase.id purchase := Purchase.set_status status purchase]> (purchases db))
       db, Ok tt).
Proof.
  intros Hp. unfold Purchase_save.
  cbn [Purchase.id Purchase.set_status Purchase.real_shipping Purchase.real_taxes].
  rewrite Hp.
  destruct (Purchase.real_shipping purchase), (Purchase.real_taxes purchase);
    reflexivity.
Qed.

Lemma filter_nil_all_false {A} (f : A -> bool) l :
  (forall x, In x l -> f x = false) -> List.filter f l = [].
Proof.
  induction l as [|x rest IH]; intros H; cbn [List.filter]; [reflexivity|].
  rewrite (H x (or_introl eq_refl)). apply IH. intros y Hy. apply H. now right.
Qed.

(** Receiving a purchase whose lines are for distinct products and then
    deleting it restores the stock of every product and leaves no layer of
    its lines. *)
Lemma reversal_round_trip pk purchase db db1 :
  purchases db !! pk = Some purchase ->
  Purchase.id purchase = pk ->
  product_keys_consistent db ->
  stock_non_negative db ->
  NoDup (map PurchaseItem.product (items_all pk db)) ->
  receive pk db = (db1, HTTP_200) ->
  exists db2,
    PurchaseViewSet_destroy pk db1 = (db2, HTTP_204)
    /\ (forall item, In item (items_all pk db) ->
          exists s s', stock_of (PurchaseItem.product item) db = Some s
                       /\ stock_of (PurchaseItem.product item) db2 = Some s'
                       /\ s' == s)
    /\ (forall k, ~ In k (map PurchaseItem.product (items_all pk db)) ->
                  stock_of k db2 = stock_of k db)
    /\ layers_of_lines (items_all pk db) db2 = [].
Proof.
  intros Hpur Hid Hkeys Hstock Hnd Hrecv.
  (* the receipt *)
  unfold receive in Hrecv. rewrite Hpur in Hrecv.
  destruct (is_received (Purchase.status purchase)); [discriminate|].
  unfold atomic in Hrecv.
  rewrite Purchase_save_status_only in Hrecv by now rewrite Hid.
  rewrite Hid in Hrecv.
  set (db0 := set_purchases (<[pk := Purchase.set_status Received purchase]> (purchases db)) db)
    in *.
  cbn [Purchase.id Purchase.set_status] in Hrecv. rewrite Hid in Hrecv.
  change (items_all pk db0) with (items_all pk db) in Hrecv.
  destruct (receive_items _ (items_all pk db) db0) as [db1'|e] eqn:Eitems;
    cbn [mbind result_bind] in Hrecv; [|discriminate].
  injection Hrecv as <-.
  destruct (receive_items_stock_added _ _ _ _ Eitems Hkeys Hnd)
    as (Hkeys1 & Hitems1 & Hpurs1 & Hother1 & Hlines1).
  change (purchase_items db0) with (purchase_items db) in Hitems1.
  (* the deletion *)
  unfold PurchaseViewSet_destroy, atomic.
  assert (Hinst : purchases db1' !! pk = Some (Purchase.set_status Received purchase)).
  { rewrite Hpurs1. unfold db0. cbn [purchases set_purchases]. apply lookup_insert_eq. }
  rewrite Hinst. unfold reverse_purchase_on_delete.
  cbn [Purchase.status Purchase.set_status Purchase.id is_received negb].
  rewrite Hid.
  assert (Hsame : items_all pk db1' = items_all pk db).
  { unfold items_all. now rewrite Hitems1. }
  rewrite Hsame.
  destruct (load_items_data_snapshots (items_all pk db) db1') as (data & Hload & Hsnap).
  { intros item Hi. destruct (Hlines1 item Hi) as (s & _ & Hs).
    unfold stock_of in Hs. destruct (products db1' !! PurchaseItem.product item); [eauto|].
    discriminate. }
  rewrite Hload. cbn [mbind result_bind].
  assert (Hids : map (fun d => Product.id (fst (fst d))) data
                 = map PurchaseItem.product (items_all pk db)).
  { apply (Forall2_map_eq _ _ _ _ _ Hsnap). intros item d (Hp & _). now apply Hkeys1. }
  destruct (reverse_items_succeeds data db1') as [dbr Hrev]. rewrite Hrev.
  cbn [mbind result_bind].
  destruct (reverse_items_stock_removed _ _ _ Hrev) as (Hother2 & Hdata2);
    [now rewrite Hids|].
  pose proof (reverse_items_layers _ _ _ Hrev) as Hlayers.
  match goal with
  | |- context [record_reversals ?i data ?d] =>
      destruct (record_reversals_succeeds i data d) as (dbf & Hrec & Hf1 & Hf2 & Hf3 & Hf4)
  end.
  { intros d Hd. cbn [products set_transactions].
    specialize (Hdata2 d Hd). unfold stock_of in Hdata2.
    destruct (products dbr !! Product.id (fst (fst d))); [eauto|discriminate]. }
  rewrite Hrec. cbn [mbind result_bind fst].
  cbn [products cost_layers set_transactions] in Hf1, Hf2.
  eexists. split; [reflexivity|].
  assert (Hstock2 : forall k, stock_of k (cascade_delete_purchase pk dbf) = stock_of k dbr).
  { intros k. unfold stock_of, cascade_delete_purchase.
    cbn [products set_purchases set_purchase_items set_cost_layers]. now rewrite Hf1. }
  split; [|split].
  - intros item Hitem.
    destruct (Hlines1 item Hitem) as (s & Hs0 & Hs1).
    change (stock_of (PurchaseItem.product item) db0)
      with (stock_of (PurchaseItem.product item) db) in Hs0.
    destruct (Forall2_In_l _ _ _ _ Hsnap Hitem) as (d & Hd & Hp & Hq & _).
    pose proof (Hkeys1 _ _ Hp) as Hpid.
    specialize (Hdata2 d Hd). rewrite Hpid, Hq in Hdata2.
    unfold stock_of in Hs1. rewrite Hp in Hs1. cbn in Hs1. injection Hs1 as Hs1.
    rewrite Hs1 in Hdata2.
    exists s. eexists. split; [exact Hs0|]. split; [rewrite Hstock2; exact Hdata2|].
    assert (Hs : 0 <= s).
    { unfold stock_of in Hs0.
      destruct (products db !! PurchaseItem.product item) as [p0|] eqn:E0; [|discriminate].
      cbn in Hs0. injection Hs0 as <-. now apply (Hstock _ _ E0). }
    unfold clamp_at_zero.
    destruct (Qltb (s + PurchaseItem.quantity item - PurchaseItem.quantity item) 0) eqn:E.
    + apply Qltb_lt in E. lra.
    + ring.
  - intros k Hk. rewrite Hstock2, Hother2 by now rewrite Hids.
    rewrite Hother1 by exact Hk. reflexivity.
  - apply filter_nil_all_false. intros l Hl.
    unfold cascade_delete_purchase in Hl.
    cbn [cost_layers set_purchases set_purchase_items set_cost_layers] in Hl.
    rewrite Hf2 in Hl. apply in_map_iff in Hl. destruct Hl as (row & Hrow & Hin).
    apply Hlayers in Hin. destruct Hin as [_ Hne].
    assert (Hrow_ids : forall i, CostLayer.purchase_item row = Some i ->
                                 ~ In i (map PurchaseItem.id (items_all pk db))).
    { intros i Hi Hin. apply in_map_iff in Hin. destruct Hin as (item & <- & Hitem).
      destruct (Forall2_In_l _ _ _ _ Hsnap Hitem) as (d & Hd & _ & _ & Hdid).
      apply (Hne d Hd). now rewrite Hdid. }
    destruct (CostLayer.purchase_item row) as [i|] eqn:Epi.
    + destruct (bool_decide _) in Hrow; subst l; cbn [CostLayer.purchase_item
        CostLayer.set_purchase_item]; [reflexivity|].
      rewrite Epi. apply bool_decide_eq_false. intros Hin.
      apply list_elem_of_In in Hin. exact (Hrow_ids i eq_refl Hin).
    + subst l. now rewrite Epi.
Qed.


(** ** The GTQ cost at the creation of a layer *)

(** The layers created by a receipt are appended to the table, one for
    each line in order, and each carries the line's cost in USD and that
    cost at the rate of the receipt, with two decimals. *)
Lemma receive_items_new_layers purchase items db db' :
  receive_items purchase items db = Ok db' ->
  usd_to_gtq_rate db' = usd_to_gtq_rate db
  /\ exists new,
       cost_layers db' = cost_layers db ++ new
       /\ Forall2 (receipt_layer (usd_to_gtq_rate db)) items new.
Proof.
  revert db. induction items as [|item rest IH]; intros db; cbn [receive_items].
  - intros [= <-]. split; [reflexivity|]. exists []. split; [now rewrite app_nil_r|constructor].
  - unfold get_product.
    destruct (products db !! PurchaseItem.product item) as [product|]; [|discriminate].
    cbn [mbind result_bind].
    destruct (Product_save _ db) as [db1|e] eqn:Esave; [|discriminate].
    cbn [mbind result_bind].
    assert (Hsame : cost_layers db1 = cost_layers db
                    /\ usd_to_gtq_rate db1 = usd_to_gtq_rate db
                    /\ next_id db1 = next_id db /\ clock db1 = clock db).
    { revert Esave. unfold Product_save. destruct (Qltb _ 0); [discriminate|].
      now intros [= <-]. }
    destruct Hsame as (Hl & Hr & _).
    match goal with
    | |- context [update_average_cost ?p ?d] =>
        assert (Hl2 : cost_layers (fst (update_average_cost p d)) = cost_layers d
                      /\ usd_to_gtq_rate (fst (update_average_cost p d))
                         = usd_to_gtq_rate d) by (split; reflexivity);
        destruct (update_average_cost p d) as [db2 p2]
    end.
    cbn [fst] in Hl2. destruct Hl2 as (Hl2 & Hr2).
    cbn [cost_layers usd_to_gtq_rate CostLayer_create] in Hl2, Hr2.
    intros H. apply IH in H. destruct H as (Hrate & new & Hnew & Hall).
    cbn [usd_to_gtq_rate cost_layers InventoryTransaction_create set_transactions]
      in Hrate, Hnew, Hall.
    rewrite Hr2, Hr in Hrate. rewrite Hl2, Hl in Hnew. rewrite Hr2, Hr in Hall.
    split; [exact Hrate|].
    eexists (_ :: new). split; [rewrite Hnew, <- app_assoc; reflexivity|].
    constructor; [|exact Hall].
    unfold receipt_layer. cbn. rewrite Hr. repeat split; reflexivity.
Qed.

Lemma receive_ok_inv pk purchase db db1 :
  purchases db !! pk = Some purchase ->
  Purchase.id purchase = pk ->
  receive pk db = (db1, HTTP_200) ->
  receive_items (Purchase.set_status Received purchase) (items_all pk db)
    (set_purchases (<[pk := Purchase.set_status Received purchase]> (purchases db)) db)
  = Ok db1.
Proof.
  intros Hpur Hid Hrecv. unfold receive in Hrecv. rewrite Hpur in Hrecv.
  destruct (is_received (Purchase.status purchase)); [discriminate|].
  unfold atomic in Hrecv.
  rewrite Purchase_save_status_only in Hrecv by now rewrite Hid.
  rewrite Hid in Hrecv. cbn [Purchase.id Purchase.set_status] in Hrecv.
  rewrite Hid in Hrecv.
  match type of Hrecv with
  | context [receive_items ?a ?b ?c] =>
      change (receive_items a b c)
        with (receive_items (Purchase.set_status Received purchase) (items_all pk db)
                (set_purchases
                   (<[pk := Purchase.set_status Received purchase]> (purchases db)) db))
        in Hrecv
  end.
  destruct (receive_items _ _ _) as [db1'|e]; cbn [mbind result_bind] in Hrecv;
    [|discriminate].
  now injection Hrecv as <-.
Qed.







(* ================================================================= *)
(** * Further properties of the code *)

(** ** FIFO costing: fallback, edge cases, bounds *)

Lemma fifo_layers_nil pid db :
  (forall l, In l (cost_layers db) -> CostLayer.product l = pid ->
             CostLayer.quantity_remaining l <= 0) ->
  fifo_layers pid db = [].
Proof.
  intros H. destruct (fifo_layers pid db) as [|l rest] eqn:E; [reflexivity|].
  assert (Hl : In l (fifo_layers pid db)) by (rewrite E; now left).
  apply fifo_layers_In in Hl. destruct Hl as (Hin & Hp & Hq).
  specialize (H l Hin Hp). lra.
Qed.

(** X1: when no layer of the product has a positive remaining quantity,
    [get_fifo_cost] costs the whole quantity [q > 0] at the average cost
    converted at the current rate, and the pre_save handler stores exactly
    [average_cost_gtq] on a new line without a pre-set cost, whatever its
    quantity (it returns before any division). *)
Theorem X1_fallback_costing (self : Product.t) (q : Q) (db : DB) :
  (forall l, In l (cost_layers db) -> CostLayer.product l = Product.id self ->
             CostLayer.quantity_remaining l <= 0) ->
  (0 < q ->
   fst (get_fifo_cost self q db) == q * average_cost_gtq self db
   /\ snd (get_fifo_cost self q db) == average_cost_gtq self db)
  /\ (forall instance,
        SaleItem.pk instance = None ->
        SaleItem.unit_cost instance <= 0 ->
        products db !! SaleItem.product instance = Some self ->
        calculate_fifo_cost instance db
        = Ok (SaleItem.set_unit_cost (average_cost_gtq self db) instance)).
Proof.
  intros Hnone. pose proof (fifo_layers_nil _ _ Hnone) as Hnil. split.
  - intros Hq. unfold get_fifo_cost, average_cost_gtq. rewrite Hnil.
    cbn [fifo_cost_loop]. apply Qltb_lt in Hq. unfold Qgtb. rewrite Hq.
    cbn [fst snd]. apply Qltb_lt in Hq. split; [ring|field; lra].
  - intros instance Hpk Hcost Hp. unfold calculate_fifo_cost, get_product.
    rewrite Hpk, Hp. cbn [is_some mbind result_bind].
    apply Qltb_ge in Hcost. unfold Qgtb. rewrite Hcost, Hnil. reflexivity.
Qed.

Lemma X1_fallback_costing_witness :
  fst (get_fifo_cost (Product.mk 1 10 5 5 None) 3 (purchase_db []))
  == 3 * average_cost_gtq (Product.mk 1 10 5 5 None) (purchase_db []).
Proof.
  refine (proj1 (proj1 (X1_fallback_costing (Product.mk 1 10 5 5 None) 3
                          (purchase_db []) _) eq_refl)).
  intros l [].
Defined.

(** X2: for a quantity that is zero or negative [get_fifo_cost] returns a
    total of 0 and a unit cost of 0, whatever the layers. *)
Theorem X2_non_positive_quantity_costs_nothing (self : Product.t) (q : Q) (db : DB) :
  q <= 0 -> get_fifo_cost self q db = (0, 0).
Proof.
  intros Hq. unfold get_fifo_cost.
  assert (Hloop : fifo_cost_loop (fifo_layers (Product.id self) db) q 0 = (q, 0)).
  { destruct (fifo_layers _ db) as [|l rest]; cbn [fifo_cost_loop]; [reflexivity|].
    apply Qle_bool_iff in Hq. unfold Qleb. now rewrite Hq. }
  rewrite Hloop. apply Qltb_ge in Hq. unfold Qgtb. now rewrite Hq.
Qed.

Lemma X2_non_positive_quantity_costs_nothing_witness :
  get_fifo_cost product_P1 (-3) fifo_db = (0, 0).
Proof.
  apply X2_non_positive_quantity_costs_nothing. vm_compute. discriminate.
Defined.

Lemma sum_remaining_non_negative layers :
  all_positive layers -> 0 <= sum_Q (map CostLayer.quantity_remaining layers).
Proof. induction 1; simpl; lra. Qed.

Lemma spec_fifo_cost_covered layers :
  all_positive layers -> forall q c c',
  0 <= q -> q <= sum_Q (map CostLayer.quantity_remaining layers) ->
  spec_fifo_cost layers q c == spec_fifo_cost layers q c'.
Proof.
  induction 1 as [|l rest Hl Hrest IH]; intros q c c' Hq Hcov; cbn [spec_fifo_cost].
  - cbn in Hcov. assert (Hz : q == 0) by lra. rewrite Hz. ring.
  - cbn [map sum_Q] in Hcov.
    pose proof (sum_remaining_non_negative rest Hrest) as Hnn.
    rewrite (IH (q - Qmin q (CostLayer.quantity_remaining l)) c c'); [reflexivity| |].
    + pose proof (Q.le_min_l q (CostLayer.quantity_remaining l)). lra.
    + destruct (Q.min_spec q (CostLayer.quantity_remaining l)) as [[_ ->]|[_ ->]]; lra.
Qed.

(** X3: when the layers with a positive remaining quantity hold at least
    the requested quantity [q > 0], the FIFO total depends neither on the
    product's average cost nor on the current exchange rate: the fallback is
    not used, and the layers' GTQ costs are those stored at their creation. *)
Theorem X3_covered_cost_ignores_average_and_rate
    (self : Product.t) (q : Q) (db : DB) :
  0 < q ->
  q <= sum_Q (map CostLayer.quantity_remaining (fifo_layers (Product.id self) db)) ->
  forall average rate,
    fst (get_fifo_cost (Product.set_average_cost average self) q
           (perform (OpUpdateRate rate) db))
    == fst (get_fifo_cost self q db).
Proof.
  intros Hq Hcov average rate.
  rewrite !get_fifo_cost_total by lra.
  change (fifo_layers (Product.id (Product.set_average_cost average self))
            (perform (OpUpdateRate rate) db))
    with (fifo_layers (Product.id self) db).
  apply spec_fifo_cost_covered; [apply fifo_layers_positive|lra|exact Hcov].
Qed.

Lemma X3_covered_cost_ignores_average_and_rate_witness :
  fst (get_fifo_cost (Product.set_average_cost 100 product_P1) 7
         (perform (OpUpdateRate 9) fifo_db))
  == fst (get_fifo_cost product_P1 7 fifo_db).
Proof.
  refine (X3_covered_cost_ignores_average_and_rate product_P1 7 fifo_db eq_refl _ 100 9).
  vm_compute. discriminate.
Defined.

Lemma spec_fifo_cost_bounds layers lo hi c :
  all_positive layers ->
  Forall (fun l => lo <= CostLayer.unit_cost_gtq l <= hi) layers ->
  lo <= c <= hi ->
  forall q, 0 <= q ->
  q * lo <= spec_fifo_cost layers q c <= q * hi.
Proof.
  intros Hpos Hall Hc. induction Hall as [|l rest Hl Hrest IH]; intros q Hq;
    cbn [spec_fifo_cost].
  - nra.
  - apply Forall_inv in Hpos as Hlpos. apply Forall_inv_tail in Hpos.
    pose proof (Q.le_min_l q (CostLayer.quantity_remaining l)) as Ht.
    assert (Ht0 : 0 <= Qmin q (CostLayer.quantity_remaining l)).
    { apply Q.min_glb; lra. }
    set (t := Qmin q (CostLayer.quantity_remaining l)) in *.
    specialize (IH Hpos (q - t)). destruct IH as [IH1 IH2]; [lra|].
    set (g := CostLayer.unit_cost_gtq l) in *.
    set (s := spec_fifo_cost rest (q - t) c) in *.
    nra.
Qed.

(** X4: the FIFO unit cost is a weighted average of the costs it draws
    on: when the GTQ costs of the product's available layers and its average
    cost in GTQ all lie between [lo] and [hi], so do the unit cost returned by
    [get_fifo_cost] for [q > 0] and the total divided by [q]. *)
Theorem X4_fifo_cost_within_layer_costs
    (self : Product.t) (q lo hi : Q) (db : DB) :
  0 < q ->
  (forall l, In l (fifo_layers (Product.id self) db) ->
             lo <= CostLayer.unit_cost_gtq l <= hi) ->
  lo <= average_cost_gtq self db <= hi ->
  q * lo <= fst (get_fifo_cost self q db) <= q * hi
  /\ lo <= snd (get_fifo_cost self q db) <= hi.
Proof.
  intros Hq Hall Havg.
  pose proof (spec_fifo_cost_bounds (fifo_layers (Product.id self) db) lo hi
                (Product.average_cost self * usd_to_gtq_rate db)
                (fifo_layers_positive _ _)
                (proj2 (List.Forall_forall _ _) Hall) Havg q (Qlt_le_weak _ _ Hq))
    as Hb.
  rewrite <- get_fifo_cost_total in Hb by lra.
  split; [exact Hb|].
  rewrite get_fifo_cost_unit by exact Hq.
  set (t := fst (get_fifo_cost self q db)) in *.
  split.
  - apply Qle_shift_div_l; [exact Hq|]. lra.
  - apply Qle_shift_div_r; [exact Hq|]. lra.
Qed.

Lemma X4_fifo_cost_within_layer_costs_witness :
  10 <= snd (get_fifo_cost product_P1 7 fifo_db) <= 12.
Proof.
  refine (proj2 (X4_fifo_cost_within_layer_costs product_P1 7 10 12 fifo_db
                   eq_refl _ _)).
  - intros l Hl. vm_compute in Hl.
    destruct Hl as [<-|[<-|[]]]; split; vm_compute; discriminate.
  - split; vm_compute; discriminate.
Defined.


(** ** A committed sale line *)






(** ** The cost of a sale and what it takes from the layers *)



Lemma consume_layers_remaining layers q db :
  layer_ids_unique db ->
  0 <= q ->
  all_positive layers ->
  NoDup (map CostLayer.id layers) ->
  (forall l, In l layers -> In l (cost_layers db)) ->
  Forall2 (fun l r' => remaining_in (consume_layers layers q db) l == r') layers
    (spec_remaining (map CostLayer.quantity_remaining layers) q).
Proof.
  intros Huniq Hq Hpos Hnd Hin.
  pose proof (consume_layers_rows layers Hpos q q db Hq (Qeq_refl q) Hnd Hin Huniq) as H.
  eapply Forall2_impl; [exact H|].
  intros l r' (l' & Hl' & _ & Hr). unfold remaining_in. now rewrite Hl'.
Qed.



(** ** First in, first out *)

Lemma StronglySorted_lookup_order layers i j (a b : CostLayer.t) :
  StronglySorted oldest_first layers ->
  layers !! i = Some a -> layers !! j = Some b -> (i < j)%nat ->
  oldest_first a b.
Proof.
  intros Hs. revert i j. induction Hs as [|x rest Hrest IH Hx]; intros i j Hi Hj Hlt.
  - discriminate.
  - destruct j as [|j]; [lia|]. cbn in Hj. destruct i as [|i].
    + cbn in Hi. injection Hi as <-.
      apply (proj1 (List.Forall_forall _ _) Hx). apply list_elem_of_In.
      eapply list_elem_of_lookup_2, Hj.
    + cbn in Hi. apply (IH i j Hi Hj). lia.
Qed.

(** Once a layer keeps some of its quantity, nothing is taken further down
    the queue. *)
Lemma spec_remaining_stops layers :
  all_positive layers -> forall q i j ra rb b,
  0 <= q ->
  spec_remaining (map CostLayer.quantity_remaining layers) q !! i = Some ra ->
  spec_remaining (map CostLayer.quantity_remaining layers) q !! j = Some rb ->
  layers !! j = Some b ->
  (i < j)%nat -> 0 < ra ->
  rb == CostLayer.quantity_remaining b.
Proof.
  induction 1 as [|l rest Hl Hrest IH]; intros q i j ra rb b Hq Hi Hj Hb Hlt Hra.
  - discriminate.
  - destruct j as [|j]; [lia|]. cbn [map spec_remaining] in Hi, Hj.
    assert (Hb2 : rest !! j = Some b) by exact Hb.
    assert (Hj2 : spec_remaining (map CostLayer.quantity_remaining rest)
                    (q - Qmin q (CostLayer.quantity_remaining l)) !! j = Some rb)
      by exact Hj.
    clear Hb Hj.
    pose proof (Q.le_min_l q (CostLayer.quantity_remaining l)) as Hmin.
    destruct i as [|i].
    + cbn in Hi. injection Hi as <-.
      assert (Hz : q - Qmin q (CostLayer.quantity_remaining l) == 0).
      { destruct (Q.min_spec q (CostLayer.quantity_remaining l)) as [[_ E]|[_ E]];
          rewrite E in *; lra. }
      pose proof (spec_remaining_nothing_needed rest _ Hrest Hz) as Hnone.
      destruct (Forall2_lookup_r _ _ _ _ _ Hnone Hj2) as (b' & Hb' & E).
      assert (b' = b) by congruence. subst b'. now symmetry.
    + assert (Hi2 : spec_remaining (map CostLayer.quantity_remaining rest)
                      (q - Qmin q (CostLayer.quantity_remaining l)) !! i = Some ra)
        by exact Hi.
      apply (IH (q - Qmin q (CostLayer.quantity_remaining l)) i j ra rb b
               ltac:(lra) Hi2 Hj2 Hb2 ltac:(lia) Hra).
Qed.

Lemma update_inventory_layers instance p db db' :
  products db !! SaleItem.product instance = Some p ->
  update_inventory_and_cost_layers instance true db = (db', Ok tt) ->
  SaleItem.quantity instance <= Product.current_stock p
  /\ cost_layers db'
     = cost_layers (consume_layers (fifo_layers (Product.id p) db)
                      (SaleItem.quantity instance) db).
Proof.
  intros Hp. unfold update_inventory_and_cost_layers, atomic, get_product.
  cbn [negb]. rewrite Hp. cbn [mbind result_bind].
  destruct (Qltb _ _) eqn:E; [discriminate|]. apply Qltb_ge in E.
  destruct (Product_save _ _) as [db1|e] eqn:Esave; cbn [mbind result_bind];
    [|discriminate].
  intros [= <-]. split; [exact E|].
  apply Product_save_inv in Esave. destruct Esave as [_ ->]. reflexivity.
Qed.

(** X7: first in, first out.  When the post_save handler has committed a
    sale, take two layers of the product that had a positive remaining
    quantity, one created strictly before the other: if the older one still
    holds something after the sale, the newer one has not been touched. *)
Theorem X7_newer_layer_untouched_while_older_remains
    (instance : SaleItem.t) (p : Product.t) (db db' : DB) (a b : CostLayer.t) :
  layer_ids_unique db ->
  products db !! SaleItem.product instance = Some p ->
  update_inventory_and_cost_layers instance true db = (db', Ok tt) ->
  In a (fifo_layers (Product.id p) db) ->
  In b (fifo_layers (Product.id p) db) ->
  (CostLayer.created_at a < CostLayer.created_at b)%Z ->
  0 < remaining_in db' a ->
  remaining_in db' b == CostLayer.quantity_remaining b.
Proof.
  intros Huniq Hp Hrun Ha Hb Hage Hleft.
  destruct (update_inventory_layers _ _ _ _ Hp Hrun) as [_ Hlayers].
  set (layers := fifo_layers (Product.id p) db) in *.
  set (q := SaleItem.quantity instance) in *.
  assert (Hsame : forall l, remaining_in db' l = remaining_in (consume_layers layers q db) l).
  { intros l. unfold remaining_in, layer_by_id. now rewrite Hlayers. }
  rewrite Hsame in *.
  assert (Hinb : In b (cost_layers db)) by (apply fifo_layers_In in Hb; tauto).
  destruct (Qlt_le_dec q 0) as [Hneg|Hq].
  - (* nothing is consumed for a negative quantity *)
    assert (Hnop : consume_layers layers q db = db).
    { destruct layers as [|l rest]; cbn [consume_layers]; [reflexivity|].
      assert (E : Qleb q 0 = true) by (apply Qle_bool_iff; lra). now rewrite E. }
    rewrite Hnop. unfold remaining_in. now rewrite (layer_by_id_In db b Huniq Hinb).
  - pose proof (consume_layers_remaining layers q db Huniq Hq
                  (fifo_layers_positive _ _) (fifo_layers_ids_unique _ _ Huniq)
                  (fun l Hl => proj1 (proj1 (fifo_layers_In _ _ _) Hl))) as Hrem.
    apply list_elem_of_In, list_elem_of_lookup in Ha, Hb.
    destruct Ha as [i Hi], Hb as [j Hj].
    destruct (Forall2_lookup_l _ _ _ _ _ Hrem Hi) as (ra & Hra & Ea).
    destruct (Forall2_lookup_l _ _ _ _ _ Hrem Hj) as (rb & Hrb & Eb).
    assert (Hij : (i < j)%nat).
    { destruct (Nat.lt_trichotomy i j) as [H|[H|H]]; [exact H| |].
      - subst j. rewrite Hi in Hj. injection Hj as <-. lia.
      - pose proof (StronglySorted_lookup_order layers j i b a
                      (order_by_created_at_sorted _) Hj Hi H) as Ho.
        unfold oldest_first in Ho. lia. }
    rewrite Eb. rewrite Ea in Hleft.
    exact (spec_remaining_stops layers (fifo_layers_positive _ _) q i j ra rb b
             Hq Hra Hrb Hj Hij Hleft).
Qed.

Lemma X7_newer_layer_untouched_while_older_remains_witness :
  remaining_in
    (fst (update_inventory_and_cost_layers (SaleItem.mk (Some 3%Z) 1 1 3 20 0) true fifo_db))
    layer_L2
  == CostLayer.quantity_remaining layer_L2.
Proof.
  refine (X7_newer_layer_untouched_while_older_remains
            (SaleItem.mk (Some 3%Z) 1 1 3 20 0) product_P1 fifo_db _ layer_L1 layer_L2
            _ eq_refl _ _ _ eq_refl _).
  - apply (bool_decide_unpack _). vm_compute. reflexivity.
  - vm_compute. reflexivity.
  - vm_compute. auto.
  - vm_compute. auto.
  - vm_compute. reflexivity.
Defined.

(** X8: saving a sale line that has a key and a row under that key
    updates the row and re-runs neither the FIFO costing nor the
    consumption: the instance keeps its unit cost, the row holds the
    instance with the cost at two decimals, and the product rows, the cost
    layers, the ledger, the key counter and the number of lines are
    unchanged, whatever the new quantity. *)
Theorem X8_saving_an_existing_line_moves_no_inventory
    (instance : SaleItem.t) (k : Z) (db : DB) :
  SaleItem.pk instance = Some k ->
  sale_item_exists k db = true ->
  exists db',
    SaleItem_save instance db = (db', Ok instance)
    /\ In (SaleItem_row instance) (sale_items db')
    /\ products db' = products db
    /\ cost_layers db' = cost_layers db
    /\ transactions db' = transactions db
    /\ next_id db' = next_id db
    /\ length (sale_items db') = length (sale_items db).
Proof.
  intros Hpk Hrow.
  unfold SaleItem_save, calculate_fifo_cost, SaleItem_inserts, SaleItem_write.
  rewrite Hpk. cbn [is_some]. rewrite Hpk, Hrow.
  cbn [negb update_inventory_and_cost_layers].
  eexists. split; [reflexivity|].
  cbn [products cost_layers transactions next_id sale_items set_sale_items].
  split.
  - unfold sale_item_exists in Hrow. apply existsb_exists in Hrow.
    destruct Hrow as (row & Hin & Hkey). apply bool_decide_eq_true_1 in Hkey.
    apply in_map_iff. exists row. split; [|exact Hin].
    rewrite Hkey, Z.eqb_refl. reflexivity.
  - repeat split. now rewrite length_map.
Qed.

Lemma X8_saving_an_existing_line_moves_no_inventory_witness :
  exists db',
    SaleItem_save (SaleItem.mk (Some 3%Z) 1 1 50 20 0) sold_db
    = (db', Ok (SaleItem.mk (Some 3%Z) 1 1 50 20 0))
    /\ cost_layers db' = cost_layers sold_db.
Proof.
  destruct (X8_saving_an_existing_line_moves_no_inventory
              (SaleItem.mk (Some 3%Z) 1 1 50 20 0) 3 sold_db eq_refl)
    as (db' & H1 & _ & _ & H2 & _).
  - vm_compute. reflexivity.
  - exists db'. split; assumption.
Defined.


(** ** Deleting a sale line *)

(** What [restore_inventory_on_delete] writes, step by step. *)
Lemma restore_inventory_on_delete_effects instance p db :
  products db !! SaleItem.product instance = Some p ->
  0 <= Product.current_stock p + SaleItem.quantity instance ->
  ~ usd_to_gtq_rate db == 0 ->
  let q := SaleItem.quantity instance in
  let cost := restoration_unit_cost instance p db in
  let sale_id := if bool_decide (SaleItem.sale instance ∈ sales db)
                 then Some (SaleItem.sale instance) else None in
  let p' := Product.set_current_stock (Product.current_stock p + q) p in
  let db1 := delete_sale_transactions (Product.id p) sale_id q
               (set_products (<[Product.id p := p']> (products db)) db) in
  let db2 := if Qgtb cost 0
             then CostLayer_create (Product.id p) None
                    (decimal_div cost (usd_to_gtq_rate db)) cost
                    (decimal_div cost (usd_to_gtq_rate db)) 0 true q q db1
             else db1 in
  restore_inventory_on_delete instance db
  = Ok (InventoryTransaction_create (Product.id p) TAdjustment q
          (Product.current_stock p + q) sale_id
          (fst (update_average_cost p' db2))).
Proof.
  intros Hp Hstock Hrate. cbv zeta.
  unfold restore_inventory_on_delete, get_product. rewrite Hp. cbn [mbind result_bind].
  unfold Product_save. cbn [Product.current_stock Product.set_current_stock Product.id].
  assert (Hok : Qltb (Product.current_stock p + SaleItem.quantity instance) 0 = false)
    by (apply Qltb_ge; lra).
  rewrite Hok. cbn [mbind result_bind].
  set (sale_id := if bool_decide (SaleItem.sale instance ∈ sales db)
                  then Some (SaleItem.sale instance) else None).
  set (p' := Product.set_current_stock _ p).
  set (db1 := delete_sale_transactions _ _ _ _).
  assert (Hc : restoration_unit_cost instance p' db1 = restoration_unit_cost instance p db).
  { unfold restoration_unit_cost, average_cost_gtq. subst db1 p'.
    unfold delete_sale_transactions. destruct sale_id as [sid|]; [|reflexivity].
    destruct (Z.eqb sid 0); reflexivity. }
  rewrite Hc.
  assert (Hr : usd_to_gtq_rate db1 = usd_to_gtq_rate db).
  { subst db1. unfold delete_sale_transactions. destruct sale_id as [sid|]; [|reflexivity].
    destruct (Z.eqb sid 0); reflexivity. }
  unfold restore_layer. rewrite Hr.
  assert (Hne : Qeqb (usd_to_gtq_rate db) 0 = false).
  { destruct (Qeqb (usd_to_gtq_rate db) 0) eqn:E; [|reflexivity].
    apply Qeqb_eq in E. contradiction. }
  rewrite Hne.
  destruct (Qgtb (restoration_unit_cost instance p db) 0); cbn [mbind result_bind];
    unfold update_average_cost; cbn [fst];
    match goal with |- context [Qgtb (sum_Q ?x) 0] => destruct (Qgtb (sum_Q x) 0) end;
    reflexivity.
Qed.

Lemma delete_sale_transactions_tables pid sale_id q db :
  products (delete_sale_transactions pid sale_id q db) = products db
  /\ cost_layers (delete_sale_transactions pid sale_id q db) = cost_layers db
  /\ sale_items (delete_sale_transactions pid sale_id q db) = sale_items db
  /\ next_id (delete_sale_transactions pid sale_id q db) = next_id db.
Proof.
  unfold delete_sale_transactions. destruct sale_id as [sid|]; [|auto].
  destruct (Z.eqb sid 0); auto.
Qed.

(** X9: deleting a sale line (post_delete handler), for a product that
    exists and a non-zero exchange rate.  The stock rises by the line's
    quantity.  The layers consumed by the sale are not refilled: when the
    restoration cost (the line's cost, or the average cost in GTQ when the
    line has none) is positive, one new layer is appended, for that product,
    with no purchase line, holding the quantity, flagged as allocated; its
    [unit_cost_gtq] is the restoration cost and its [unit_cost] the quotient
    of that cost by the current rate, both with two decimals; otherwise the
    layers are unchanged.  The stored average cost is the one recomputed
    from the layers, and the last ledger entry is an adjustment of [+q]
    showing the new stock. *)
Theorem X9_deleting_a_sale_line_restores (instance : SaleItem.t) (p : Product.t) (db : DB) :
  products db !! SaleItem.product instance = Some p ->
  Product.id p = SaleItem.product instance ->
  0 <= SaleItem.quantity instance ->
  0 <= Product.current_stock p ->
  ~ usd_to_gtq_rate db == 0 ->
  let q := SaleItem.quantity instance in
  let cost := restoration_unit_cost instance p db in
  exists db',
    restore_inventory_on_delete instance db = Ok db'
    /\ stock_of (Product.id p) db' = Some (Product.current_stock p + q)
    /\ (0 < cost ->
        exists l, cost_layers db' = cost_layers db ++ [l]
                  /\ CostLayer.id l = next_id db
                  /\ CostLayer.product l = Product.id p
                  /\ CostLayer.purchase_item l = None
                  /\ CostLayer.unit_cost_gtq l = quantize 2 cost
                  /\ CostLayer.unit_cost l
                     = quantize 2 (decimal_div cost (usd_to_gtq_rate db))
                  /\ CostLayer.base_unit_cost l = CostLayer.unit_cost l
                  /\ CostLayer.quantity_remaining l = q
                  /\ CostLayer.original_quantity l = q
                  /\ CostLayer.logistics_allocated l = true)
    /\ (cost <= 0 -> cost_layers db' = cost_layers db)
    /\ average_cost_up_to_date (Product.id p) db'
    /\ exists older reference,
         transactions db'
         = older ++ [InventoryTransaction.mk (Product.id p) TAdjustment q
                       (Product.current_stock p + q) reference].
Proof.
  intros Hp Hid Hq Hstock Hrate q cost.
  pose proof (restore_inventory_on_delete_effects instance p db Hp
                ltac:(lra) Hrate) as E.
  cbv zeta in E. fold q in E. fold cost in E.
  set (sale_id := if bool_decide (SaleItem.sale instance ∈ sales db)
                  then Some (SaleItem.sale instance) else None) in *.
  set (p' := Product.set_current_stock (Product.current_stock p + q) p) in *.
  set (db0 := set_products (<[Product.id p := p']> (products db)) db) in *.
  set (db1 := delete_sale_transactions (Product.id p) sale_id q db0) in *.
  destruct (delete_sale_transactions_tables (Product.id p) sale_id q db0)
    as (Hprod1 & Hlay1 & _ & Hnext1).
  fold db1 in Hprod1, Hlay1, Hnext1.
  set (db2 := if Qgtb cost 0 then _ else db1) in *.
  assert (Hprod2 : products db2 = <[Product.id p := p']> (products db)).
  { subst db2. destruct (Qgtb cost 0); cbn [CostLayer_create products]; exact Hprod1. }
  eexists. split; [exact E|].
  split.
  { change (stock_of (Product.id p) (fst (update_average_cost p' db2))
            = Some (Product.current_stock p + q)).
    rewrite stock_of_update_average_cost. unfold stock_of.
    rewrite Hprod2, lookup_insert_eq. reflexivity. }
  split.
  { intros Hc. assert (Hg : Qgtb cost 0 = true) by now apply Qltb_lt.
    subst db2. rewrite Hg.
    eexists. split.
    { cbn [InventoryTransaction_create set_transactions cost_layers update_average_cost
             fst Product_save_average_cost set_products CostLayer_create].
      rewrite Hlay1. reflexivity. }
    cbn [CostLayer.id CostLayer.product CostLayer.purchase_item CostLayer.unit_cost_gtq
           CostLayer.unit_cost CostLayer.base_unit_cost
           CostLayer.quantity_remaining CostLayer.original_quantity
           CostLayer.logistics_allocated].
    rewrite Hnext1. repeat split. }
  split.
  { intros Hc. assert (Hg : Qgtb cost 0 = false) by (apply Qltb_ge; exact Hc).
    subst db2. rewrite Hg.
    cbn [InventoryTransaction_create set_transactions cost_layers update_average_cost
           fst Product_save_average_cost set_products].
    exact Hlay1. }
  split.
  { exact (update_average_cost_up_to_date p' db2). }
  eexists _, sale_id. reflexivity.
Qed.

Lemma X9_deleting_a_sale_line_restores_witness :
  exists db',
    restore_inventory_on_delete (SaleItem.mk (Some 3%Z) 1 1 3 20 10) fifo_db = Ok db'
    /\ stock_of 1 db' = Some (Product.current_stock product_P1 + 3).
Proof.
  destruct (X9_deleting_a_sale_line_restores (SaleItem.mk (Some 3%Z) 1 1 3 20 10)
              product_P1 fifo_db) as (db' & H1 & H2 & _).
  - reflexivity.
  - reflexivity.
  - vm_compute. discriminate.
  - vm_compute. discriminate.
  - vm_compute. discriminate.
  - exists db'. split; assumption.
Defined.

(** ** Selling and deleting the line again *)






(** ** Receiving a purchase *)

Lemma receive_items_purchases purchase items db db' :
  receive_items purchase items db = Ok db' ->
  purchases db' = purchases db /\ purchase_items db' = purchase_items db.
Proof.
  revert db. induction items as [|item rest IH]; intros db; cbn [receive_items].
  - now intros [= <-].
  - unfold get_product.
    destruct (products db !! PurchaseItem.product item) as [product|]; [|discriminate].
    cbn [mbind result_bind].
    destruct (Product_save _ db) as [db1|e] eqn:Esave; [|discriminate].
    cbn [mbind result_bind].
    apply Product_save_inv in Esave. destruct Esave as [_ ->].
    destruct (update_average_cost _ _) as [db2 p2] eqn:E.
    unfold update_average_cost in E. injection E as <- _.
    intros H. apply IH in H. exact H.
Qed.

Lemma receive_items_succeeds purchase items db :
  stock_non_negative db ->
  (forall item, In item items -> is_Some (products db !! PurchaseItem.product item)) ->
  (forall item, In item items -> 0 <= PurchaseItem.quantity item) ->
  exists db', receive_items purchase items db = Ok db'.
Proof.
  revert db. induction items as [|item rest IH]; intros db Hstock Hex Hq;
    cbn [receive_items].
  - now exists db.
  - destruct (Hex item (or_introl eq_refl)) as [p Hp].
    unfold get_product. rewrite Hp. cbn [mbind result_bind].
    pose proof (Hstock _ _ Hp) as Hs. pose proof (Hq item (or_introl eq_refl)) as Hqi.
    unfold Product_save.
    cbn [Product.current_stock Product.set_current_stock Product.set_last_purchase_cost
           Product.set_last_purchase_date Product.id].
    assert (Hok : Qltb (Product.current_stock p + PurchaseItem.quantity item) 0 = false)
      by (apply Qltb_ge; lra).
    rewrite Hok. cbn [mbind result_bind].
    match goal with
    | |- context [update_average_cost ?p1 _] => set (p1' := p1)
    end.
    match goal with
    | |- context [update_average_cost p1' ?d] => set (d' := d)
    end.
    assert (Hd : stock_non_negative d').
    { intros k x Hx. subst d'. cbn [products CostLayer_create set_products] in Hx.
      apply lookup_insert_Some in Hx. destruct Hx as [[_ <-]|[_ Hx]].
      - subst p1'.
        cbn [Product.current_stock Product.set_current_stock
               Product.set_last_purchase_cost Product.set_last_purchase_date]. lra.
      - now apply (Hstock _ _ Hx). }
    pose proof (update_average_cost_stock p1' d' Hd) as Hs2.
    assert (Hk2 : forall k, is_Some (products db !! k) ->
                            is_Some (products (fst (update_average_cost p1' d')) !! k)).
    { intros k [x Hx]. unfold update_average_cost, Product_save_average_cost.
      subst d'. cbn [fst products set_products CostLayer_create].
      apply lookup_alter_is_Some.
      destruct (decide (Product.id p = k)) as [->|Hne].
      - rewrite lookup_insert_eq. eauto.
      - rewrite lookup_insert_ne by exact Hne. eauto. }
    destruct (update_average_cost p1' d') as [db3 p3] eqn:E3.
    cbn [fst] in Hs2, Hk2.
    apply IH.
    + exact Hs2.
    + intros i Hi. apply Hk2, Hex. now right.
    + intros i Hi. apply Hq. now right.
Qed.

(** A purchase that is not yet received, with lines on existing products
    and non-negative quantities, is received. *)
Lemma receive_succeeds pk purchase db :
  purchases db !! pk = Some purchase ->
  Purchase.id purchase = pk ->
  is_received (Purchase.status purchase) = false ->
  stock_non_negative db ->
  (forall item, In item (items_all pk db) ->
     is_Some (products db !! PurchaseItem.product item)
     /\ 0 <= PurchaseItem.quantity item) ->
  exists db1,
    receive pk db = (db1, HTTP_200)
    /\ receive_items (Purchase.set_status Received purchase) (items_all pk db)
         (set_purchases
            (<[pk := Purchase.set_status Received purchase]> (purchases db)) db)
       = Ok db1.
Proof.
  intros Hpur Hid Hst Hstock Hlines.
  set (db0 := set_purchases
                (<[pk := Purchase.set_status Received purchase]> (purchases db)) db).
  destruct (receive_items_succeeds (Purchase.set_status Received purchase)
              (items_all pk db) db0) as [db1 E].
  - exact Hstock.
  - intros item Hi. now apply Hlines.
  - intros item Hi. now apply Hlines.
  - exists db1. split; [|exact E].
    unfold receive. rewrite Hpur, Hst. unfold atomic.
    rewrite Purchase_save_status_only by now rewrite Hid.
    rewrite Hid. fold db0. cbn [Purchase.id Purchase.set_status]. rewrite Hid.
    change (items_all pk db0) with (items_all pk db).
    rewrite E. reflexivity.
Qed.

(** X11: receiving a purchase that is not yet received, whose lines are for
    distinct existing products with non-negative quantities.  The request
    succeeds, the purchase is stored as received, the stock of every line's
    product rises by the line's quantity, no other stock changes, and one
    layer for each line is appended to the table, in the order of the
    lines: it refers to the line, holds the line's quantity, has the line's
    unit cost as [unit_cost] and [base_unit_cost] and that cost times the
    current rate as [unit_cost_gtq], all three with two decimals, carries
    no logistics and is not flagged as allocated. *)
Theorem X11_receiving_a_purchase (pk : Z) (purchase : Purchase.t) (db : DB) :
  purchases db !! pk = Some purchase ->
  Purchase.id purchase = pk ->
  is_received (Purchase.status purchase) = false ->
  product_keys_consistent db ->
  stock_non_negative db ->
  NoDup (map PurchaseItem.product (items_all pk db)) ->
  (forall item, In item (items_all pk db) ->
     is_Some (products db !! PurchaseItem.product item)
     /\ 0 <= PurchaseItem.quantity item) ->
  exists db1,
    receive pk db = (db1, HTTP_200)
    /\ purchases db1 !! pk = Some (Purchase.set_status Received purchase)
    /\ (forall item, In item (items_all pk db) ->
          exists s, stock_of (PurchaseItem.product item) db = Some s
                    /\ stock_of (PurchaseItem.product item) db1
                       = Some (s + PurchaseItem.quantity item))
    /\ (forall k, ~ In k (map PurchaseItem.product (items_all pk db)) ->
                  stock_of k db1 = stock_of k db)
    /\ exists new,
         cost_layers db1 = cost_layers db ++ new
         /\ Forall2 (receipt_layer (usd_to_gtq_rate db)) (items_all pk db) new.
Proof.
  intros Hpur Hid Hst Hkeys Hstock Hnd Hlines.
  destruct (receive_succeeds pk purchase db Hpur Hid Hst Hstock Hlines) as (db1 & Hr & E).
  exists db1. split; [exact Hr|].
  destruct (receive_items_stock_added _ _ _ _ E Hkeys Hnd)
    as (_ & _ & Hpurs & Hother & Hline).
  destruct (receive_items_new_layers _ _ _ _ E) as (_ & new & Hnew & Hall).
  split; [rewrite Hpurs; cbn [purchases set_purchases]; apply lookup_insert_eq|].
  split; [exact Hline|]. split; [exact Hother|].
  exists new. split; [exact Hnew|exact Hall].
Qed.

Lemma purchase_db_products lines k p :
  products (purchase_db lines) !! k = Some p ->
  Product.id p = k /\ Product.current_stock p = 0.
Proof.
  unfold purchase_db. cbn [products]. intros H.
  apply lookup_insert_Some in H. destruct H as [[<- <-]|[_ H]]; [split; reflexivity|].
  apply lookup_singleton_Some in H. destruct H as [<- <-]. split; reflexivity.
Qed.

Lemma X11_receiving_a_purchase_witness :
  exists db1, receive 10 (purchase_db [line_1; line_2]) = (db1, HTTP_200).
Proof.
  destruct (X11_receiving_a_purchase 10 pending_purchase (purchase_db [line_1; line_2]))
    as (db1 & H & _).
  - reflexivity.
  - reflexivity.
  - reflexivity.
  - intros k p Hp. now apply purchase_db_products in Hp.
  - intros k p Hp. apply purchase_db_products in Hp. destruct Hp as [_ ->]. lra.
  - apply (bool_decide_unpack _). vm_compute. reflexivity.
  - intros item Hi. vm_compute in Hi.
    destruct Hi as [<-|[<-|[]]]; (split; [vm_compute; eauto|vm_compute; discriminate]).
  - exists db1. exact H.
Defined.

(** X12: a purchase is received at most once.  After a successful
    [receive], the same request is answered with 400 "already received" and
    changes nothing: the stock is not added a second time. *)
Theorem X12_purchase_is_received_once (pk : Z) (purchase : Purchase.t) (db db1 : DB) :
  purchases db !! pk = Some purchase ->
  Purchase.id purchase = pk ->
  receive pk db = (db1, HTTP_200) ->
  receive pk db1 = (db1, HTTP_400 ErrAlreadyReceived).
Proof.
  intros Hpur Hid Hrecv.
  unfold receive in Hrecv. rewrite Hpur in Hrecv.
  destruct (is_received (Purchase.status purchase)); [discriminate|].
  unfold atomic in Hrecv.
  rewrite Purchase_save_status_only in Hrecv by now rewrite Hid.
  destruct (receive_items _ _ _) as [db1'|e] eqn:E;
    cbn [mbind result_bind] in Hrecv; [|discriminate].
  injection Hrecv as <-.
  apply receive_items_purchases in E. destruct E as [Hpurs _].
  unfold receive. rewrite Hpurs. cbn [purchases set_purchases].
  rewrite Hid, lookup_insert_eq. reflexivity.
Qed.

Lemma X12_purchase_is_received_once_witness :
  receive 10 (received_db [line_1; line_2])
  = (received_db [line_1; line_2], HTTP_400 ErrAlreadyReceived).
Proof.
  apply (X12_purchase_is_received_once 10 pending_purchase (purchase_db [line_1; line_2])).
  - reflexivity.
  - reflexivity.
  - vm_compute. reflexivity.
Defined.

Lemma load_items_data_ids items db data :
  load_items_data items db = Ok data ->
  map snd data = map PurchaseItem.id items.
Proof.
  revert data. induction items as [|item rest IH]; intros data; cbn [load_items_data].
  - now intros [= <-].
  - unfold get_product.
    destruct (products db !! PurchaseItem.product item) as [p|]; [|discriminate].
    cbn [mbind result_bind].
    destruct (load_items_data rest db) as [data'|e]; [|discriminate].
    cbn [mbind result_bind]. intros [= <-]. cbn [map snd]. now rewrite (IH data' eq_refl).
Qed.

Lemma record_reversals_tables instance items_data db db' :
  record_reversals instance items_data db = Ok db' ->
  cost_layers db' = cost_layers db /\ purchase_items db' = purchase_items db.
Proof.
  revert db. induction items_data as [|[[product q] item_id] rest IH]; intros db;
    cbn [record_reversals].
  - now intros [= <-].
  - unfold get_product. destruct (products db !! Product.id product) as [p|];
      [|discriminate].
    cbn [mbind result_bind]. intros H. apply IH in H. exact H.
Qed.

Lemma filter_filter_andb {A} (f g : A -> bool) l :
  List.filter g (List.filter f l) = List.filter (fun x => f x && g x) l.
Proof.
  induction l as [|x rest IH]; cbn [List.filter]; [reflexivity|].
  destruct (f x); cbn [List.filter andb]; [|exact IH].
  destruct (g x); now rewrite IH.
Qed.

Lemma filter_all_true {A} (f : A -> bool) l :
  (forall x, In x l -> f x = true) -> List.filter f l = l.
Proof.
  induction l as [|x rest IH]; intros H; cbn [List.filter]; [reflexivity|].
  rewrite (H x (or_introl eq_refl)). f_equal. apply IH. intros y Hy. apply H. now right.
Qed.

(** The layers left by the reversal loop, as a list: the rows that refer
    to none of the reversed lines, in table order. *)
Lemma reverse_items_layers_list items_data db db' :
  reverse_items items_data db = Ok db' ->
  cost_layers db'
  = List.filter
      (fun l => forallb (fun d => negb (bool_decide (CostLayer.purchase_item l
                                                     = Some (snd d)))) items_data)
      (cost_layers db).
Proof.
  revert db. induction items_data as [|[[product q] item_id] rest IH]; intros db;
    cbn [reverse_items].
  - intros [= <-]. cbn [forallb]. symmetry. now apply filter_all_true.
  - destruct (Product_save _ db) as [db1|e] eqn:Esave; [|discriminate].
    cbn [mbind result_bind].
    assert (Hl1 : cost_layers db1 = cost_layers db).
    { revert Esave. unfold Product_save. destruct (Qltb _ 0); [discriminate|].
      now intros [= <-]. }
    match goal with
    | |- context [update_average_cost ?p ?d] =>
        assert (Hl2 : cost_layers (fst (update_average_cost p d)) = cost_layers d)
          by reflexivity;
        destruct (update_average_cost p d) as [db2 p2]
    end.
    cbn [fst cost_layers set_cost_layers] in Hl2.
    intros H. rewrite (IH _ H), Hl2, Hl1, filter_filter_andb. reflexivity.
Qed.

Lemma refers_to_none pi (ids : list Z) :
  forallb (fun i => negb (bool_decide (pi = Some i))) ids
  = negb match pi with
         | Some i => bool_decide (i ∈ ids)
         | None => false
         end.
Proof.
  induction ids as [|j rest IH]; cbn [forallb].
  - destruct pi as [i|]; [|reflexivity].
    rewrite bool_decide_eq_false_2; [reflexivity|]. apply not_elem_of_nil.
  - rewrite IH. destruct pi as [i|].
    + destruct (decide (i = j)) as [->|Hne].
      * rewrite (bool_decide_eq_true_2 (Some j = Some j) eq_refl).
        rewrite (bool_decide_eq_true_2 (j ∈ j :: rest)); [reflexivity|].
        apply elem_of_cons. now left.
      * rewrite (bool_decide_eq_false_2 (Some i = Some j)) by congruence.
        cbn [negb andb]. f_equal. apply bool_decide_ext.
        rewrite elem_of_cons. tauto.
    + rewrite (bool_decide_eq_false_2 (None = Some j)) by discriminate. reflexivity.
Qed.

(** After a receipt and the deletion of the purchase, the table of layers
    holds the rows it held before the receipt, without those that referred
    to a line of the purchase: the layers written by the receipt are
    deleted by the reversal, before the cascade detaches anything. *)
Lemma round_trip_layers pk purchase db db1 db2 :
  purchases db !! pk = Some purchase ->
  Purchase.id purchase = pk ->
  receive pk db = (db1, HTTP_200) ->
  PurchaseViewSet_destroy pk db1 = (db2, HTTP_204) ->
  cost_layers db2 = layers_of_others (items_all pk db) db.
Proof.
  intros Hpur Hid Hrecv Hdel.
  apply (receive_ok_inv pk purchase db db1 Hpur Hid) in Hrecv.
  destruct (receive_items_new_layers _ _ _ _ Hrecv) as (_ & new & Hnew & Hall).
  destruct (receive_items_purchases _ _ _ _ Hrecv) as (Hpurs1 & Hitems1).
  cbn [cost_layers purchases purchase_items set_purchases] in Hnew, Hpurs1, Hitems1.
  assert (Hsame : items_all pk db1 = items_all pk db).
  { unfold items_all. now rewrite Hitems1. }
  revert Hdel. unfold PurchaseViewSet_destroy, atomic.
  rewrite Hpurs1, lookup_insert_eq. unfold reverse_purchase_on_delete.
  cbn [Purchase.status Purchase.set_status Purchase.id is_received negb].
  rewrite Hid, Hsame.
  destruct (load_items_data (items_all pk db) db1) as [data|e] eqn:Eload;
    cbn [mbind result_bind]; [|discriminate].
  destruct (reverse_items data db1) as [dbr|e] eqn:Erev;
    cbn [mbind result_bind]; [|discriminate].
  destruct (record_reversals _ data _) as [dbf|e] eqn:Erec;
    cbn [mbind result_bind]; [|discriminate].
  intros [= <-].
  apply load_items_data_ids in Eload.
  pose proof (proj1 (reverse_items_tables _ _ _ Erev)) as Hir.
  apply reverse_items_layers_list in Erev.
  apply record_reversals_tables in Erec. destruct Erec as (Hlf & Hif).
  cbn [cost_layers purchase_items set_transactions] in Hlf, Hif.
  set (refers := fun l : CostLayer.t =>
                   match CostLayer.purchase_item l with
                   | Some i => bool_decide (i ∈ map PurchaseItem.id (items_all pk db))
                   | None => false
                   end).
  assert (Hkeep : forall l,
             forallb (fun d : Product.t * Q * Z =>
                        negb (bool_decide (CostLayer.purchase_item l = Some (snd d)))) data
             = negb (refers l)).
  { intros l. unfold refers. rewrite <- Eload, <- refers_to_none.
    clear. induction data as [|d rest IH]; cbn [forallb map]; [reflexivity|].
    now rewrite IH. }
  assert (Hlr : cost_layers dbr = layers_of_others (items_all pk db) db).
  { rewrite Erev, Hnew, List.filter_app.
    rewrite (filter_nil_all_false _ new), app_nil_r.
    - unfold layers_of_others. apply List.filter_ext. intros l. apply Hkeep.
    - intros l Hl. rewrite Hkeep. unfold refers.
      destruct (Forall2_In_r _ _ _ _ Hall Hl) as (item & Hitem & -> & _).
      rewrite bool_decide_eq_true_2; [reflexivity|].
      apply list_elem_of_In. now apply in_map. }
  unfold cascade_delete_purchase.
  cbn [cost_layers set_purchases set_purchase_items set_cost_layers].
  rewrite Hlf, Hlr.
  transitivity (map (fun l : CostLayer.t => l) (layers_of_others (items_all pk db) db));
    [|apply List.map_id].
  apply List.map_ext_in. intros l Hl. unfold layers_of_others in Hl.
  apply filter_In in Hl. destruct Hl as [_ Hl]. apply negb_true_iff in Hl.
  destruct (CostLayer.purchase_item l) as [i|]; [|reflexivity].
  apply bool_decide_eq_false_1 in Hl.
  rewrite bool_decide_eq_false_2; [reflexivity|].
  intros Hin. apply Hl. revert Hin. unfold items_all.
  now rewrite Hif, Hir, Hitems1.
Qed.

(** X13: receiving a purchase and then deleting it, for lines of distinct
    existing products with non-negative quantities.  Both requests succeed,
    every stock is back at its value before the receipt, and the layers
    written by the receipt are deleted: the table of layers holds exactly
    the rows it held before the receipt that referred to no line of the
    purchase, so it is the table of before the receipt when no row
    referred to a line, and no layer of the purchase's lines is left. *)
Theorem X13_receive_then_delete (pk : Z) (purchase : Purchase.t) (db : DB) :
  purchases db !! pk = Some purchase ->
  Purchase.id purchase = pk ->
  is_received (Purchase.status purchase) = false ->
  product_keys_consistent db ->
  stock_non_negative db ->
  NoDup (map PurchaseItem.product (items_all pk db)) ->
  (forall item, In item (items_all pk db) ->
     is_Some (products db !! PurchaseItem.product item)
     /\ 0 <= PurchaseItem.quantity item) ->
  exists db1 db2,
    receive pk db = (db1, HTTP_200)
    /\ PurchaseViewSet_destroy pk db1 = (db2, HTTP_204)
    /\ (forall item, In item (items_all pk db) ->
          exists s s', stock_of (PurchaseItem.product item) db = Some s
                       /\ stock_of (PurchaseItem.product item) db2 = Some s'
                       /\ s' == s)
    /\ (forall k, ~ In k (map PurchaseItem.product (items_all pk db)) ->
                  stock_of k db2 = stock_of k db)
    /\ cost_layers db2 = layers_of_others (items_all pk db) db
    /\ (layers_of_lines (items_all pk db) db = [] -> cost_layers db2 = cost_layers db)
    /\ layers_of_lines (items_all pk db) db2 = []
    /\ purchases db2 !! pk = None.
Proof.
  intros Hpur Hid Hst Hkeys Hstock Hnd Hlines.
  destruct (receive_succeeds pk purchase db Hpur Hid Hst Hstock Hlines) as (db1 & Hr & _).
  destruct (reversal_round_trip pk purchase db db1 Hpur Hid Hkeys Hstock Hnd Hr)
    as (db2 & Hd & H1 & H2 & H3).
  pose proof (round_trip_layers pk purchase db db1 db2 Hpur Hid Hr Hd) as Hlayers.
  exists db1, db2. repeat (split; [assumption|]).
  split.
  { intros Hnone. rewrite Hlayers. unfold layers_of_others.
    apply filter_all_true. intros l Hl. apply negb_true_iff.
    destruct (match CostLayer.purchase_item l with
              | Some i => bool_decide (i ∈ map PurchaseItem.id (items_all pk db))
              | None => false
              end) eqn:Erefers; [|reflexivity].
    exfalso. assert (Hin : In l (layers_of_lines (items_all pk db) db)).
    { unfold layers_of_lines. apply filter_In. split; assumption. }
    rewrite Hnone in Hin. exact Hin. }
  split; [exact H3|].
  revert Hd. unfold PurchaseViewSet_destroy, atomic.
  destruct (purchases db1 !! pk); [|discriminate].
  destruct (reverse_purchase_on_delete _ _) as [dbr|e]; cbn [mbind result_bind];
    [|discriminate].
  intros [= <-]. unfold cascade_delete_purchase. cbn [purchases set_purchases].
  apply lookup_delete_eq.
Qed.

Lemma X13_receive_then_delete_witness :
  exists db1 db2,
    receive 10 (purchase_db [line_1; line_2]) = (db1, HTTP_200)
    /\ PurchaseViewSet_destroy 10 db1 = (db2, HTTP_204).
Proof.
  destruct (X13_receive_then_delete 10 pending_purchase (purchase_db [line_1; line_2]))
    as (db1 & db2 & H1 & H2 & _).
  - reflexivity.
  - reflexivity.
  - reflexivity.
  - intros k p Hp. now apply purchase_db_products in Hp.
  - intros k p Hp. apply purchase_db_products in Hp. destruct Hp as [_ ->]. lra.
  - apply (bool_decide_unpack _). vm_compute. reflexivity.
  - intros item Hi. vm_compute in Hi.
    destruct Hi as [<-|[<-|[]]]; (split; [vm_compute; eauto|vm_compute; discriminate]).
  - exists db1, db2. split; assumption.
Defined.

(** X14: deleting a purchase that was never received moves no inventory:
    the request succeeds, the purchase and its lines are removed, and the
    product rows, the ledger and the number of layers are unchanged. *)
Theorem X14_deleting_an_unreceived_purchase (pk : Z) (purchase : Purchase.t) (db : DB) :
  purchases db !! pk = Some purchase ->
  is_received (Purchase.status purchase) = false ->
  exists db',
    PurchaseViewSet_destroy pk db = (db', HTTP_204)
    /\ products db' = products db
    /\ transactions db' = transactions db
    /\ length (cost_layers db') = length (cost_layers db)
    /\ purchases db' !! pk = None
    /\ items_all pk db' = [].
Proof.
  intros Hpur Hst. unfold PurchaseViewSet_destroy, atomic, reverse_purchase_on_delete.
  rewrite Hpur, Hst. cbn [negb mbind result_bind].
  eexists. split; [reflexivity|]. unfold cascade_delete_purchase.
  cbn [products transactions cost_layers purchases set_purchases set_purchase_items
         set_cost_layers].
  split; [reflexivity|]. split; [reflexivity|].
  split; [now rewrite length_map|]. split; [apply lookup_delete_eq|].
  unfold items_all. cbn [purchase_items set_purchases set_purchase_items set_cost_layers].
  apply filter_nil_all_false. intros i Hi. apply filter_In in Hi.
  destruct Hi as [_ Hi]. now apply negb_true_iff in Hi.
Qed.

Lemma X14_deleting_an_unreceived_purchase_witness :
  exists db',
    PurchaseViewSet_destroy 10 (purchase_db [line_1; line_2]) = (db', HTTP_204)
    /\ products db' = products (purchase_db [line_1; line_2]).
Proof.
  destruct (X14_deleting_an_unreceived_purchase 10 pending_purchase
              (purchase_db [line_1; line_2]) eq_refl eq_refl) as (db' & H1 & H2 & _).
  exists db'. split; assumption.
Defined.


(** ** Saving a purchase *)

(** X16: when [Purchase.save] does not allocate.  Saving a purchase writes
    its row and nothing else (no layer and no product is touched) when the
    purchase is not received, when the row is new, when the stored row
    already had both real costs (so a corrected invoice is never
    re-allocated), or when the saved instance lacks a real cost. *)
Theorem X16_save_without_allocation (self : Purchase.t) (db : DB) :
  is_received (Purchase.status self) = false
  \/ purchases db !! Purchase.id self = None
  \/ (exists old, purchases db !! Purchase.id self = Some old
                  /\ is_some (Purchase.real_shipping old) = true
                  /\ is_some (Purchase.real_taxes old) = true)
  \/ Purchase.real_shipping self = None
  \/ Purchase.real_taxes self = None ->
  Purchase_save self db
  = (set_purchases (<[Purchase.id self := self]> (purchases db)) db, Ok tt).
Proof.
  unfold Purchase_save.
  intros [H|[H|[(old & H & Hs & Ht)|[H|H]]]].
  - rewrite H, andb_false_r. reflexivity.
  - rewrite H. reflexivity.
  - rewrite H, Hs, Ht. reflexivity.
  - rewrite H. destruct (purchases db !! Purchase.id self); [|reflexivity].
    cbn [is_some]. rewrite andb_false_r. reflexivity.
  - rewrite H. destruct (purchases db !! Purchase.id self); [|reflexivity].
    cbn [is_some]. rewrite !andb_false_r. reflexivity.
Qed.

Lemma X16_save_without_allocation_witness :
  Purchase_save invoiced_purchase (invoiced_db [line_1; line_2])
  = (set_purchases (<[10%Z := invoiced_purchase]>
                      (purchases (invoiced_db [line_1; line_2])))
       (invoiced_db [line_1; line_2]), Ok tt).
Proof.
  apply (X16_save_without_allocation invoiced_purchase (invoiced_db [line_1; line_2])).
  right. right. left. exists invoiced_purchase.
  split; [vm_compute; reflexivity|]. split; reflexivity.
Defined.

(** ** Totals of a purchase and of a sale *)

(** X18: the total of a purchase.  With both real costs on the purchase
    the total is the cost of the lines plus the real costs, whatever the
    estimates are.  An invoice that is only partly entered is ignored
    altogether: with one real cost missing there is no real total, and the
    total is the estimated one, in which the real cost that is present
    plays no part.  The GTQ total is the total at the current rate. *)
Theorem X18_purchase_total_cost (self : Purchase.t) (db : DB) :
  (forall s t, Purchase.real_shipping self = Some s ->
               Purchase.real_taxes self = Some t ->
     real_total self db = Some (product_cost self db + (s + t))
     /\ Purchase_total_cost self db = product_cost self db + (s + t)
     /\ total_cost_gtq self db
        == (product_cost self db + s + t) * usd_to_gtq_rate db)
  /\ (Purchase.real_shipping self = None \/ Purchase.real_taxes self = None ->
      real_logistic_cost self = None
      /\ real_total self db = None
      /\ Purchase_total_cost self db
         = product_cost self db
           + (Purchase.estimated_shipping self + Purchase.estimated_taxes self)).
Proof.
  unfold total_cost_gtq, Purchase_total_cost, real_total, real_logistic_cost,
    estimated_total, estimated_logistic_cost.
  split.
  - intros s t -> ->. split; [reflexivity|]. split; [reflexivity|]. ring.
  - intros [-> | ->]; [auto|]. destruct (Purchase.real_shipping self); auto.
Qed.

Lemma X18_purchase_total_cost_witness :
  Purchase_total_cost invoiced_purchase (received_db [line_1; line_2])
  = product_cost invoiced_purchase (received_db [line_1; line_2]) + (25 + 15).
Proof.
  exact (proj1 (proj2 (proj1 (X18_purchase_total_cost invoiced_purchase
                                (received_db [line_1; line_2])) 25 15 eq_refl eq_refl))).
Defined.





(** ** The layers of a received purchase *)

(** X20: the layers of a received purchase.  After a successful [receive]
    of a purchase none of whose lines a layer referred to before, the
    layers that refer to its lines are exactly the ones written by the
    receipt, one for each line in the order of the lines: each refers to
    its line, holds the line's quantity as remaining and original quantity,
    has the line's unit cost as [unit_cost] and [base_unit_cost] and that
    cost times the current rate as [unit_cost_gtq], with two decimals, and
    is not flagged as allocated. *)
Theorem X20_received_lines_have_their_layers
    (pk : Z) (purchase : Purchase.t) (db db1 : DB) :
  purchases db !! pk = Some purchase ->
  Purchase.id purchase = pk ->
  receive pk db = (db1, HTTP_200) ->
  layers_of_lines (items_all pk db) db = [] ->
  Forall2 (receipt_layer (usd_to_gtq_rate db)) (items_all pk db)
    (layers_of_lines (items_all pk db) db1)
  /\ cost_layers db1 = cost_layers db ++ layers_of_lines (items_all pk db) db1.
Proof.
  intros Hpur Hid Hrecv Hfresh.
  apply (receive_ok_inv pk purchase db db1 Hpur Hid) in Hrecv.
  destruct (receive_items_new_layers _ _ _ _ Hrecv) as (_ & new & Hnew & Hall).
  cbn [cost_layers usd_to_gtq_rate set_purchases] in Hnew, Hall.
  assert (Hlines : layers_of_lines (items_all pk db) db1 = new).
  { unfold layers_of_lines in *. rewrite Hnew, List.filter_app, Hfresh.
    cbn [app]. apply filter_all_true. intros l Hl.
    destruct (Forall2_In_r _ _ _ _ Hall Hl) as (item & Hitem & -> & _).
    apply bool_decide_eq_true_2, list_elem_of_In. now apply in_map. }
  rewrite Hlines. split; assumption.
Qed.

Lemma X20_received_lines_have_their_layers_witness :
  length (layers_of_lines [line_1; line_2] (received_db [line_1; line_2])) = 2%nat.
Proof.
  destruct (X20_received_lines_have_their_layers 10 pending_purchase
              (purchase_db [line_1; line_2]) (received_db [line_1; line_2])
              eq_refl eq_refl) as (Hall & _).
  - vm_compute. reflexivity.
  - reflexivity.
  - apply Forall2_length in Hall. symmetry. exact Hall.
Defined.

(** ** The average cost *)

Lemma weighted_sum_bounds (lo hi : Q) (ls : list CostLayer.t) :
  Forall (fun l => 0 <= CostLayer.quantity_remaining l) ls ->
  (forall l, In l ls -> 0 < CostLayer.quantity_remaining l ->
             lo <= CostLayer.unit_cost l <= hi) ->
  lo * sum_Q (map CostLayer.quantity_remaining ls)
  <= sum_Q (map (fun l => CostLayer.quantity_remaining l * CostLayer.unit_cost l) ls)
  /\ sum_Q (map (fun l => CostLayer.quantity_remaining l * CostLayer.unit_cost l) ls)
     <= hi * sum_Q (map CostLayer.quantity_remaining ls).
Proof.
  induction 1 as [|l rest Hl _ IH]; intros Hb; cbn [map sum_Q]; [lra|].
  destruct IH as [IH1 IH2]; [intros x Hx; apply Hb; now right|].
  destruct (Qlt_le_dec 0 (CostLayer.quantity_remaining l)) as [Hpos|Hz].
  - destruct (Hb l (or_introl eq_refl) Hpos) as [H1 H2]. split; nra.
  - assert (E : CostLayer.quantity_remaining l == 0) by lra.
    rewrite E. split; lra.
Qed.

(** X22: [update_average_cost] stores a weighted average.  With
    non-negative remaining quantities and some quantity left in the layers
    of the product, the weighted average of the USD unit costs lies between
    the lowest and the highest unit cost of the layers that still hold
    something; the instance gets that quotient as the decimal context gives
    it, and the row gets it with two decimals, within half a cent.  Only
    the [average_cost] column of the product's row is written: its other
    columns keep their stored values even when the instance is stale, and
    no other row and no layer changes. *)
Theorem X22_average_cost_is_a_weighted_average
    (self : Product.t) (lo hi : Q) (db : DB) :
  layers_non_negative db ->
  0 < total_remaining (Product.id self) db ->
  (forall l, In l (cost_layers db) -> CostLayer.product l = Product.id self ->
             0 < CostLayer.quantity_remaining l -> lo <= CostLayer.unit_cost l <= hi) ->
  let db' := fst (update_average_cost self db) in
  let average := Product.average_cost (snd (update_average_cost self db)) in
  lo <= total_value (Product.id self) db / total_remaining (Product.id self) db <= hi
  /\ average = decimal_div (total_value (Product.id self) db)
                 (total_remaining (Product.id self) db)
  /\ (forall row, products db !! Product.id self = Some row ->
        products db' !! Product.id self
        = Some (Product.set_average_cost (quantize 2 average) row))
  /\ quantize 2 average - (1 # 200) <= average <= quantize 2 average + (1 # 200)
  /\ (forall k, k <> Product.id self -> products db' !! k = products db !! k)
  /\ cost_layers db' = cost_layers db.
Proof.
  intros Hnn Hpos Hb db' average.
  pose proof (layers_of_product_non_negative (Product.id self) db Hnn) as Hl.
  destruct (weighted_sum_bounds lo hi (layers_of_product (Product.id self) db) Hl)
    as [H1 H2].
  { intros l Hin Hq. unfold layers_of_product in Hin. apply filter_In in Hin.
    destruct Hin as [Hin Hp]. apply Z.eqb_eq in Hp. now apply Hb. }
  assert (Hg : Qgtb (sum_Q (map CostLayer.quantity_remaining
                              (layers_of_product (Product.id self) db))) 0 = true)
    by now apply Qltb_lt.
  assert (Havg : average
                 = decimal_div (total_value (Product.id self) db)
                     (total_remaining (Product.id self) db)).
  { subst average. unfold update_average_cost. cbn [snd]. rewrite Hg. reflexivity. }
  split.
  { unfold total_value, total_remaining in *. split.
    - apply Qle_shift_div_l; assumption.
    - apply Qle_shift_div_r; [assumption|]. lra. }
  split; [exact Havg|].
  assert (Hprod : products db'
                  = alter (Product.set_average_cost (quantize 2 average))
                      (Product.id self) (products db)).
  { subst db' average. unfold update_average_cost, Product_save_average_cost.
    cbn [fst snd products set_products]. rewrite Hg. reflexivity. }
  split; [|split; [|split]].
  - intros row Hrow. rewrite Hprod, lookup_alter_eq, Hrow. reflexivity.
  - apply quantize_error.
  - intros k Hk. rewrite Hprod. now apply lookup_alter_ne.
  - reflexivity.
Qed.

Lemma X22_average_cost_is_a_weighted_average_witness :
  5 <= total_value 1 fifo_db / total_remaining 1 fifo_db <= 6.
Proof.
  refine (proj1 (X22_average_cost_is_a_weighted_average product_P1 5 6 fifo_db _ _ _)).
  - unfold layers_non_negative. vm_compute. repeat constructor; discriminate.
  - vm_compute. reflexivity.
  - intros l Hin _ _. vm_compute in Hin.
    destruct Hin as [<-|[<-|[]]]; split; vm_compute; discriminate.
Defined.

(** ** Stock and layers stay in step over a sale *)









(** ** The average cost after a receipt *)

(** One iteration of the loop of [receive], as a function of the product
    row it loads. *)
Lemma receive_items_step purchase h rest db db' :
  receive_items purchase (h :: rest) db = Ok db' ->
  exists p db4 row,
    products db !! PurchaseItem.product h = Some p
    /\ receive_items purchase rest db4 = Ok db'
    /\ cost_layers db4 = cost_layers db ++ [row]
    /\ CostLayer.product row = Product.id p
    /\ (forall k, k <> Product.id p -> products db4 !! k = products db !! k)
    /\ (exists r, products db4 !! Product.id p = Some r /\ Product.id r = Product.id p)
    /\ average_cost_up_to_date (Product.id p) db4.
Proof.
  cbn [receive_items]. unfold get_product.
  destruct (products db !! PurchaseItem.product h) as [p|] eqn:Hp; [|discriminate].
  cbn [mbind result_bind].
  destruct (Product_save _ db) as [db1|e] eqn:Esave; [|discriminate].
  cbn [mbind result_bind].
  apply Product_save_inv in Esave. destruct Esave as [_ ->].
  match goal with
  | |- context [update_average_cost ?p1 _] => set (p1' := p1)
  end.
  match goal with
  | |- context [update_average_cost p1' ?d] => set (d' := d)
  end.
  pose proof (update_average_cost_up_to_date p1' d') as Hcons.
  assert (Hprod : products (fst (update_average_cost p1' d'))
                  = alter (Product.set_average_cost
                             (quantize 2
                                (Product.average_cost (snd (update_average_cost p1' d')))))
                      (Product.id p) (<[Product.id p := p1']> (products db))).
  { unfold update_average_cost, Product_save_average_cost. cbn [fst snd].
    destruct (Qgtb _ 0); reflexivity. }
  assert (Hlay : cost_layers (fst (update_average_cost p1' d')) = cost_layers d')
    by reflexivity.
  destruct (update_average_cost p1' d') as [db3 p3]. cbn [fst snd] in *.
  intros Hrun. exists p. eexists _, _. split; [reflexivity|]. split; [exact Hrun|].
  cbn [cost_layers products InventoryTransaction_create set_transactions].
  split; [rewrite Hlay; reflexivity|].
  split; [reflexivity|].
  split.
  { intros k Hk. rewrite Hprod, lookup_alter_ne, lookup_insert_ne by congruence.
    reflexivity. }
  split.
  { rewrite Hprod, lookup_alter_eq, lookup_insert_eq. cbn. eexists. split; reflexivity. }
  exact Hcons.
Qed.

Lemma average_cost_up_to_date_other k db db4 row :
  products db4 !! k = products db !! k ->
  cost_layers db4 = cost_layers db ++ [row] ->
  CostLayer.product row <> k ->
  average_cost_up_to_date k db -> average_cost_up_to_date k db4.
Proof.
  intros Hprod Hlay Hrow Hc q Hq. rewrite Hprod in Hq.
  assert (Hsame : layers_of_product k db4 = layers_of_product k db).
  { unfold layers_of_product. rewrite Hlay, List.filter_app. cbn [List.filter].
    destruct (Z.eqb_spec (CostLayer.product row) k); [contradiction|].
    apply app_nil_r. }
  unfold total_remaining, total_value. rewrite Hsame. exact (Hc q Hq).
Qed.

Lemma receive_items_keeps_average purchase items :
  forall db db' k,
  receive_items purchase items db = Ok db' ->
  product_keys_consistent db ->
  ~ In k (map PurchaseItem.product items) ->
  average_cost_up_to_date k db -> average_cost_up_to_date k db'.
Proof.
  induction items as [|h rest IH]; intros db db' k Hrun Hkeys Hk Hc.
  - cbn in Hrun. now injection Hrun as <-.
  - destruct (receive_items_step _ _ _ _ _ Hrun)
      as (p & db4 & new & Hp & Hrest & Hlay & Hnew & Hother & (row & Hrow & Hrowid) & _).
    pose proof (Hkeys _ _ Hp) as Hpid.
    assert (Hne : k <> Product.id p).
    { rewrite Hpid. intros ->. apply Hk. now left. }
    apply (IH db4 db' k Hrest).
    + intros j x Hx. destruct (decide (j = Product.id p)) as [->|Hj].
      * rewrite Hrow in Hx. injection Hx as <-. exact Hrowid.
      * rewrite (Hother j Hj) in Hx. now apply Hkeys.
    + intros Hin. apply Hk. now right.
    + eapply average_cost_up_to_date_other; [exact (Hother k Hne)|exact Hlay| |exact Hc].
      congruence.
Qed.

Lemma receive_items_average purchase items :
  forall db db',
  receive_items purchase items db = Ok db' ->
  product_keys_consistent db ->
  NoDup (map PurchaseItem.product items) ->
  forall item, In item items -> average_cost_up_to_date (PurchaseItem.product item) db'.
Proof.
  induction items as [|h rest IH]; intros db db' Hrun Hkeys Hnd.
  - intros item [].
  - destruct (receive_items_step _ _ _ _ _ Hrun)
      as (p & db4 & new & Hp & Hrest & Hlay & Hnew & Hother & (row & Hrow & Hrowid) & Hc4).
    pose proof (Hkeys _ _ Hp) as Hpid.
    cbn [map] in Hnd. apply NoDup_cons in Hnd. destruct Hnd as [Hfresh Hnd].
    assert (Hkeys4 : product_keys_consistent db4).
    { intros j x Hx. destruct (decide (j = Product.id p)) as [->|Hj].
      - rewrite Hrow in Hx. injection Hx as <-. exact Hrowid.
      - rewrite (Hother j Hj) in Hx. now apply Hkeys. }
    intros item [<-|Hi]; [|now apply (IH db4 db' Hrest Hkeys4 Hnd)].
    apply (receive_items_keeps_average purchase rest db4 db' _ Hrest Hkeys4).
    + intros Hin. apply Hfresh, list_elem_of_In. exact Hin.
    + rewrite <- Hpid. exact Hc4.
Qed.

(** X24: the average cost after a receipt.  After a successful [receive]
    of a purchase with lines on distinct products, the stored average cost
    of every received product is the one recomputed from its layers: the
    sum of [remaining * unit_cost] divided by the sum of the remaining
    quantities, as the decimal context gives it, with two decimals, and
    zero when nothing remains. *)
Theorem X24_receipt_updates_the_average_cost
    (pk : Z) (purchase : Purchase.t) (db db1 : DB) :
  purchases db !! pk = Some purchase ->
  Purchase.id purchase = pk ->
  receive pk db = (db1, HTTP_200) ->
  product_keys_consistent db ->
  NoDup (map PurchaseItem.product (items_all pk db)) ->
  forall item, In item (items_all pk db) ->
    average_cost_up_to_date (PurchaseItem.product item) db1.
Proof.
  intros Hpur Hid Hrecv Hkeys Hnd.
  pose proof (receive_ok_inv pk purchase db db1 Hpur Hid Hrecv) as E.
  exact (receive_items_average _ _ _ _ E Hkeys Hnd).
Qed.

Lemma X24_receipt_updates_the_average_cost_witness :
  average_cost_up_to_date 1 (received_db [line_1; line_2]).
Proof.
  refine (X24_receipt_updates_the_average_cost 10 pending_purchase
            (purchase_db [line_1; line_2]) (received_db [line_1; line_2])
            eq_refl eq_refl _ _ _ line_1 _).
  - vm_compute. reflexivity.
  - intros k p Hp. now apply purchase_db_products in Hp.
  - apply (bool_decide_unpack _). vm_compute. reflexivity.
  - vm_compute. auto.
Defined.
